(** * bank-data-processor: a shallow embedding and its checked properties

    The development follows the layout of the Python sources:

    - [PyStr]           the [str] methods the sources call;
    - [Utils]           [src/utils.py]          ([mask_sensitive_data]);
    - [Regex], [Categorization]
                        [src/categorization.py] ([categoriser_transaction]);
    - [Float], [Numpy], [Nanops]
                        binary64 numbers and the two reductions of pandas
                        that [src/fraud_detection.py] calls;
    - [Pandas]          cells, rows, frames and the store of frame objects;
    - [Validation]      [src/validation.py];
    - [FraudDetection]  [src/fraud_detection.py];
    - [DataProcessor]   [src/data_processor.py] (ledger, [_validate_data],
                        [_safe_process_file], the column names of
                        [_clean_data], the scan and the categorisation step
                        of [run_pipeline]).

    Conventions, stated once:
    - a Python [str] is a Rocq [string], one character per code point, over
      an alphabet of 256 code points that upper and lower case map into
      itself, character by character ([PyStr]); on it the character tests
      ([isalpha], [isdigit], [isalnum], [isspace]), [upper] and [lower]
      are the ones Python computes from the Unicode tables. Accented
      letters in the literals of the sources keep their UTF-8 spelling; no
      property reads them;
    - a Python [float] is an IEEE 754 binary64 number, Rocq's primitive
      [float]: every operation rounds to nearest, ties to even;
    - missing values ([NaN], [None], [pd.NA]) are one value, [NaN];
      [pd.isna] is the test for it. *)

From Stdlib Require Import Floats ZArith String Ascii List DecimalString.
From Stdlib Require Uint63.
From stdpp Require Import gmap strings list fin_maps.

Open Scope string_scope.
Set Warnings "-inexact-float".

(* ===================================================================== *)
(** * Python strings                                                      *)
(* ===================================================================== *)

Module PyStr.

Definition chars (s : string) : list ascii := list_ascii_of_string s.
Definition of_chars (l : list ascii) : string := string_of_list_ascii l.

(** [len(s)] *)
Definition len (s : string) : nat := length (chars s).

Definition code (c : ascii) : nat := nat_of_ascii c.

(** The alphabet. A character of code [k] stands for the code point
    U+00kk, for every [k] below 256 but 181, 223 and 255: the capitals of
    the micro sign (U+00B5), the sharp s (U+00DF) and y with diaeresis
    (U+00FF) are not single characters below 256, so these three letters
    are left out and their codes stand for three private-use code points
    (U+E000 to U+E002), which have no case and belong to no class. Upper
    and lower case then map the alphabet into itself. *)

Definition between (a b : nat) (c : ascii) : bool :=
  (a <=? code c)%nat && (code c <=? b)%nat.

(** The classes [[A-Z]], [[a-z]], [[0-9]] and their unions, as a regular
    expression spells them. *)
Definition is_upper (c : ascii) : bool := between 65 90 c.
Definition is_lower (c : ascii) : bool := between 97 122 c.
Definition is_digit (c : ascii) : bool := between 48 57 c.
Definition is_alpha (c : ascii) : bool := is_upper c || is_lower c.
Definition is_alnum (c : ascii) : bool := is_alpha c || is_digit c.

(** The code points below 128. *)
Definition is_ascii (c : ascii) : bool := (code c <? 128)%nat.

(** The tests behind [str.isalpha], [str.isdigit] and [str.isalnum], which
    follow the Unicode database. The letters are the ASCII letters, the
    ordinal indicators (170, 186), the capitals 192-222 and the small
    letters 224-254, without the multiplication and division signs (215,
    247); the digits are the ASCII digits and the superscripts 2, 3 and 1
    (178, 179, 185); the fractions 188-190 are numeric, hence
    alphanumeric. *)
Definition uni_alpha (c : ascii) : bool :=
  is_alpha c
  || (code c =? 170)%nat || (code c =? 186)%nat
  || between 192 214 c || between 216 222 c
  || between 224 246 c || between 248 254 c.
Definition uni_digit (c : ascii) : bool :=
  is_digit c || (code c =? 178)%nat || (code c =? 179)%nat || (code c =? 185)%nat.
Definition uni_alnum (c : ascii) : bool :=
  uni_alpha c || uni_digit c || between 188 190 c.

(** [str.isspace] for one character: the ASCII white space, the next-line
    control (133) and the no-break space (160). *)
Definition is_space (c : ascii) : bool :=
  between 9 13 c || between 28 32 c || (code c =? 133)%nat || (code c =? 160)%nat.

(** Upper and lower case of one character: the ASCII letters, and the
    accented letters 192-222 and 224-254 (215 and 247 are signs). *)
Definition to_upper (c : ascii) : ascii :=
  if is_lower c || between 224 246 c || between 248 254 c
  then ascii_of_nat (code c - 32) else c.
Definition to_lower (c : ascii) : ascii :=
  if is_upper c || between 192 214 c || between 216 222 c
  then ascii_of_nat (code c + 32) else c.

(** [s.upper()], [s.lower()] *)
Definition upper (s : string) : string := of_chars (map to_upper (chars s)).
Definition lower (s : string) : string := of_chars (map to_lower (chars s)).

(** [s.replace(" ", "")] *)
Definition remove_spaces (s : string) : string :=
  of_chars (List.filter (fun c => negb (Ascii.eqb c " ")) (chars s)).

Fixpoint lstrip_chars (l : list ascii) : list ascii :=
  match l with
  | c :: l' => if is_space c then lstrip_chars l' else l
  | [] => []
  end.

(** [s.strip()] *)
Definition strip (s : string) : string :=
  of_chars (rev (lstrip_chars (rev (lstrip_chars (chars s))))).

(** [s[a:b]] for literal bounds [0 <= a <= b] *)
Definition slice (a b : nat) (s : string) : string :=
  of_chars (take (b - a) (drop a (chars s))).

(** [s[a:]] for a literal bound [0 <= a] *)
Definition slice_from (a : nat) (s : string) : string :=
  of_chars (drop a (chars s)).

(** [s[i:]] for an arbitrary integer [i]: a negative bound counts from the
    end and is clamped at the start of the string. *)
Definition slice_from_int (i : Z) (s : string) : string :=
  let n := Z.of_nat (len s) in
  let start := if (i <? 0)%Z then Z.max 0 (n + i) else i in
  of_chars (drop (Z.to_nat start) (chars s)).

(** [c * k] for a one-character string: empty when [k <= 0]. *)
Definition repeat_char (c : ascii) (k : Z) : string :=
  of_chars (replicate (Z.to_nat k) c).

(** [s.isalpha()], [s.isdigit()], [s.isalnum()]: false on the empty string. *)
Definition all_chars (p : ascii -> bool) (s : string) : bool :=
  match chars s with
  | [] => false
  | l => forallb p l
  end.
Definition isalpha : string -> bool := all_chars uni_alpha.
Definition isdigit : string -> bool := all_chars uni_digit.
Definition isalnum : string -> bool := all_chars uni_alnum.

(** [str(n)] for a non-negative [int] *)
Definition of_nat (n : nat) : string := NilZero.string_of_uint (Nat.to_uint n).

(** The one-character string ["\n"] of Python. *)
Definition newline : string := String (ascii_of_nat 10) "".

(** [x in l] for a list of strings *)
Definition mem (x : string) (l : list string) : bool :=
  existsb (String.eqb x) l.

End PyStr.

(* ===================================================================== *)
(** * src/utils.py                                                        *)
(* ===================================================================== *)

Module Utils.
Import PyStr.

(** [mask_sensitive_data(data, characters_to_show=4)] *)
Definition mask_sensitive_data (data : string) (characters_to_show : Z) : string :=
  if String.eqb data "" then ""
  else if (Z.of_nat (len data) <=? characters_to_show)%Z
       then repeat_char "*" (Z.of_nat (len data))
       else repeat_char "*" (Z.of_nat (len data) - characters_to_show)
            ++ slice_from_int (- characters_to_show) data.

End Utils.

(* ===================================================================== *)
(** * Exceptions                                                          *)
(* ===================================================================== *)

Inductive exn : Set :=
  | TypeError | ValueError | KeyError | AttributeError | ReError | OSError.

Inductive outcome (A : Type) : Type :=
  | Ok (a : A)
  | Raise (e : exn).
Arguments Ok {A} a.
Arguments Raise {A} e.

(* ===================================================================== *)
(** * The fragment of [re] used by src/categorization.py                  *)
(* ===================================================================== *)

Module Regex.
Import PyStr.

(** A compiled pattern is a sequence of atoms. Only what the source can
    produce is modelled: literal characters and the zero-width word
    boundary written [\b]. *)
Inductive atom : Set :=
  | Lit (c : ascii)
  | WordBoundary.

(** The characters [re.escape] protects with a backslash (Python >= 3.7):
    [()[]{}?*+-|^$\.&~#], space, and the control characters \t \n \r \v \f. *)
Definition is_special (c : ascii) : bool :=
  existsb (Ascii.eqb c) (chars "()[]{}?*+-|^$\.&~# ")
  || ((9 <=? code c)%nat && (code c <=? 13)%nat).

(** [re.escape(s)] *)
Definition escape (s : string) : string :=
  of_chars (flat_map (fun c => if is_special c then ["\"; c] else [c])%char (chars s)).

(** Characters that are operators when they stand unescaped in a pattern. *)
Definition is_meta (c : ascii) : bool :=
  existsb (Ascii.eqb c) (chars ".^$*+?{}[]|()\").

(** Pattern compilation. A backslash followed by [b] is the word boundary;
    a backslash followed by a character that is neither a letter nor a
    digit is that character, literally; an ordinary character is itself.
    Everything else (operators, classes, other letter escapes) is outside
    the fragment and yields [None]. *)
Fixpoint parse (p : list ascii) : option (list atom) :=
  match p with
  | [] => Some []
  | c :: p1 =>
      if Ascii.eqb c "\" then
        match p1 with
        | [] => None
        | e :: p2 =>
            if Ascii.eqb e "b" then cons WordBoundary <$> parse p2
            else if is_alnum e then None
            else cons (Lit e) <$> parse p2
        end
      else if is_meta c then None
      else cons (Lit c) <$> parse p1
  end.

(** [\w] of a [str] pattern: an alphanumeric character or the underscore. *)
Definition is_word (c : ascii) : bool := uni_alnum c || Ascii.eqb c "_".

Definition word_side (o : option ascii) : bool :=
  match o with Some c => is_word c | None => false end.

(** [\b] holds between a word character and a non-word character, the two
    ends of the text counting as non-word. *)
Definition at_boundary (prev next : option ascii) : bool :=
  xorb (word_side prev) (word_side next).

(** Match the atoms at the current position; [prev] is the character just
    before it. *)
Fixpoint match_here (p : list atom) (prev : option ascii) (s : list ascii) : bool :=
  match p with
  | [] => true
  | Lit c :: p' =>
      match s with
      | c' :: s' => Ascii.eqb c c' && match_here p' (Some c') s'
      | [] => false
      end
  | WordBoundary :: p' => at_boundary prev (head s) && match_here p' prev s
  end.

Fixpoint search_from (p : list atom) (prev : option ascii) (s : list ascii) : bool :=
  match_here p prev s ||
  match s with
  | c :: s' => search_from p (Some c) s'
  | [] => false
  end.

(** [re.search(pattern, text)], as the truth value of its result;
    [re.error] when the pattern does not compile. *)
Definition search (pattern text : string) : outcome bool :=
  match parse (chars pattern) with
  | Some p => Ok (search_from p None (chars text))
  | None => Raise ReError
  end.

End Regex.

(* ===================================================================== *)
(** * Floats                                                              *)
(* ===================================================================== *)

Module Float.

(** A Python [float], and an entry of a float64 column. *)
Definition t : Set := PrimFloat.float.
Bind Scope float_scope with t.

Definition NaN : t := PrimFloat.nan.
Definition PInf : t := PrimFloat.infinity.
Definition NInf : t := PrimFloat.neg_infinity.

(** [x != x] *)
Definition isnan (a : t) : bool := PrimFloat.is_nan a.

(** [a > b]: false as soon as one side is NaN. *)
Definition gtb (a b : t) : bool := PrimFloat.ltb b a.

(** [a <= b] *)
Definition leb (a b : t) : bool := PrimFloat.leb a b.

(** [float(n)] for a count. *)
Definition of_nat (n : nat) : t := PrimFloat.of_uint63 (Uint63.of_Z (Z.of_nat n)).

(** The values that count: pandas reductions skip NaN ([skipna=True]). *)
Definition dropna (l : list t) : list t := List.filter (fun a => negb (isnan a)) l.

End Float.

(* ===================================================================== *)
(** * The reductions [Series.mean] and [Series.std]                       *)
(* ===================================================================== *)

(** [np.add.reduce] on a float64 array adds pairwise: in row order on
    fewer than 8 values, through 8 running sums on up to 128 values, and
    by halves above. *)
Module Numpy.
Import Float.
Open Scope float_scope.

Definition sum_from (acc : t) (a : list t) : t := fold_left PrimFloat.add a acc.

(** [k] more blocks of 8 values added into the 8 running sums [r]. *)
Fixpoint add_blocks (k : nat) (r a : list t) : list t * list t :=
  match k with
  | O => (r, a)
  | S k' => add_blocks k' (zip_with PrimFloat.add r (take 8 a)) (drop 8 a)
  end.

Definition block_sum (a : list t) : t :=
  let '(r, rest) := add_blocks (length a / 8 - 1) (take 8 a) (drop 8 a) in
  match r with
  | [r0; r1; r2; r3; r4; r5; r6; r7] =>
      sum_from (((r0 + r1) + (r2 + r3)) + ((r4 + r5) + (r6 + r7))) rest
  | _ => sum_from 0 a
  end.

(** [depth] bounds the halvings; the length of the array is enough. *)
Fixpoint pairwise_sum (depth : nat) (a : list t) : t :=
  let n := length a in
  if (n <? 8)%nat then sum_from 0 a
  else if (n <=? 128)%nat then block_sum a
  else match depth with
       | O => block_sum a
       | S depth' =>
           let n2 := (n / 2 - (n / 2) mod 8)%nat in
           pairwise_sum depth' (take n2 a) + pairwise_sum depth' (drop n2 a)
       end.

(** [a.sum()] *)
Definition sum (a : list t) : t := 0 + pairwise_sum (length a) a.

End Numpy.

(** [pandas.core.nanops] on a float64 column, [skipna=True], pandas' own
    routines (the repository does not install the optional bottleneck
    package): the nulls are replaced by 0.0 before the values are summed,
    and the count is that of the other values. *)
Module Nanops.
Import Float.
Open Scope float_scope.

Definition fill0 (l : list t) : list t := map (fun x => if isnan x then 0 else x) l.

Definition count (l : list t) : nat := length (dropna l).

(** [Series.mean()] *)
Definition nanmean (l : list t) : t := Numpy.sum (fill0 l) / of_nat (count l).

(** [Series.var(ddof)]: the squared deviations from the mean, summed and
    divided by [count - ddof]. *)
Definition nanvar (ddof : nat) (l : list t) : t :=
  if (count l <=? ddof)%nat then NaN
  else
    let avg := Numpy.sum (fill0 l) / of_nat (count l) in
    let sqr := map (fun x => if isnan x then 0 else (avg - x) * (avg - x)) l in
    Numpy.sum sqr / of_nat (count l - ddof).

(** [Series.std(ddof)] *)
Definition nanstd (ddof : nat) (l : list t) : t := PrimFloat.sqrt (nanvar ddof l).

End Nanops.

(* ===================================================================== *)
(** * src/categorization.py                                               *)
(* ===================================================================== *)

Module Categorization.
Import PyStr.

(** A [Dict[str, List[str]]], in insertion order. *)
Definition table : Type := list (string * list string).

Definition CATEGORIES_PAR_DEFAUT : table :=
  [ ("salaire", ["salaire"; "payroll"; "remuneration"]);
    ("loyer", ["loyer"; "rent"]);
    ("alimentation", ["supermarche"; "carrefour"; "auchan"; "leclerc";
                      "alimentation"; "epicerie"; "boulangerie"; "restaurant";
                      "mcdo"; "kfc"; "burger"]);
    ("transports", ["sncf"; "ratp"; "uber"; "taxi"; "essence"; "station";
                    "carburant"; "total"; "autoroute"]);
    ("sante", ["pharmacie"; "medecin"; "hopital"; "mutuelle"; "doctolib"]);
    ("divertissement", ["cinema"; "netflix"; "spotify"; "loisir"; "concert"; "jeux"]);
    ("autre", []) ].

(** [d[k] = v] on a dictionary kept in insertion order: a key already
    there keeps its place and takes the new value, a new key goes last. *)
Fixpoint dict_set (k : string) (v : list string) (t : table) : table :=
  match t with
  | [] => [(k, v)]
  | (k', v') :: t' =>
      if String.eqb k' k then (k', v) :: t' else (k', v') :: dict_set k v t'
  end.

(** [charger_categories_personnalisees]: the comprehension
    [{cat.lower(): [kw.lower() for kw in mots] for cat, mots in ....items()}],
    one assignment per entry of the configuration, in order. *)
Definition charger_categories_personnalisees (categories_config : table) : table :=
  fold_left (fun acc '(cat, mots) => dict_set (lower cat) (map lower mots) acc)
            categories_config [].

(** The table [categoriser_transaction] searches: [categories or
    CATEGORIES_PAR_DEFAUT]. *)
Definition table_in_use (categories : option table) : table :=
  match categories with
  | None | Some [] => CATEGORIES_PAR_DEFAUT
  | Some t => t
  end.

(** The text of the pattern built by the source,
    [rf"\\b{re.escape(mot)}\\b"]: in a raw literal the two backslashes
    stay two characters. *)
Definition pattern_of (mot : string) : string :=
  "\\b" ++ Regex.escape mot ++ "\\b".

(** The inner loop [for mot in mots_cles: if re.search(...): return ...] *)
Fixpoint any_keyword (mots_cles : list string) (libelle : string) : outcome bool :=
  match mots_cles with
  | [] => Ok false
  | mot :: rest =>
      match Regex.search (pattern_of mot) libelle with
      | Raise e => Raise e
      | Ok true => Ok true
      | Ok false => any_keyword rest libelle
      end
  end.

(** The outer loop [for categorie, mots_cles in categories.items()] *)
Fixpoint first_category (categories : table) (libelle : string) : outcome (option string) :=
  match categories with
  | [] => Ok None
  | (categorie, mots_cles) :: rest =>
      match any_keyword mots_cles libelle with
      | Raise e => Raise e
      | Ok true => Ok (Some categorie)
      | Ok false => first_category rest libelle
      end
  end.

(** [categoriser_transaction(libelle, montant, categories=None)].
    [libelle] is [None] for an absent description; [categories or
    CATEGORIES_PAR_DEFAUT] also replaces an empty table. *)
Definition categoriser_transaction
    (libelle : option string) (montant : Float.t) (categories : option table)
    : outcome string :=
  match libelle with
  | None | Some "" => Ok "autre"
  | Some libelle =>
      let libelle := lower libelle in
      let categories :=
        match categories with
        | None | Some [] => CATEGORIES_PAR_DEFAUT
        | Some t => t
        end in
      match first_category categories libelle with
      | Raise e => Raise e
      | Ok (Some categorie) => Ok categorie
      | Ok None => Ok "autre"
      end
  end.

(** ** The matching rule in the words of the specification

    "Case-insensitive whole-word match": the keyword, compared without
    regard to case, occurs in the description between two word
    boundaries. *)
Definition whole_word_match (mot libelle : string) : bool :=
  Regex.search_from
    ([Regex.WordBoundary] ++ map Regex.Lit (chars (lower mot)) ++ [Regex.WordBoundary])
    None (chars (lower libelle)).

Fixpoint spec_first_category (categories : table) (libelle : string) : option string :=
  match categories with
  | [] => None
  | (categorie, mots_cles) :: rest =>
      if existsb (fun mot => whole_word_match mot libelle) mots_cles
      then Some categorie
      else spec_first_category rest libelle
  end.

Definition spec_categorise (libelle : option string) (categories : table) : string :=
  match libelle with
  | None | Some "" => "autre"
  | Some libelle => default "autre" (spec_first_category categories libelle)
  end.

End Categorization.

(* ===================================================================== *)
(** * pandas: cells, rows, frames, and the store of frame objects         *)
(* ===================================================================== *)

Module Pandas.

(** A scalar held by a frame. A missing value is [Float NaN]. *)
Inductive cell : Type :=
  | Float (f : Float.t)
  | Text (s : string)
  | Bool (b : bool).
Arguments Float f%_float_scope.

(** [pd.isna(c)] *)
Definition isna (c : cell) : bool :=
  match c with Float f => Float.isnan f | _ => false end.

(** The numeric reading of a cell; arithmetic on a [str] raises. *)
Definition to_float (c : cell) : outcome Float.t :=
  match c with
  | Float f => Ok f
  | Bool b => Ok (if b then 1 else 0)%float
  | Text _ => Raise TypeError
  end.

(** The float a numeric cell stands for. *)
Definition cell_float (c : cell) : Float.t :=
  match c with
  | Float f => f
  | Bool b => (if b then 1 else 0)%float
  | Text _ => Float.NaN
  end.

Fixpoint numeric (l : list cell) : outcome (list Float.t) :=
  match l with
  | [] => Ok []
  | c :: l' =>
      match to_float c, numeric l' with
      | Ok f, Ok fs => Ok (f :: fs)
      | Raise e, _ | _, Raise e => Raise e
      end
  end.

(** One row: its index label and the cell of each column. A [pd.Series]
    obtained from a row is its [fields]. *)
Record Row : Type := mkRow { label : nat; fields : gmap string cell }.

Record DataFrame : Type := mkFrame { columns : list string; rows : list Row }.

(** [pd.DataFrame()] *)
Definition empty_frame : DataFrame := mkFrame [] [].

(** [len(df)] *)
Definition nrows (d : DataFrame) : nat := length (rows d).

(** [df.index]: the labels of the rows, in order. *)
Definition labels (d : DataFrame) : list nat := map label (rows d).

(** [df.empty]: some axis has length 0. *)
Definition is_empty (d : DataFrame) : bool :=
  match columns d, rows d with
  | [], _ | _, [] => true
  | _, _ => false
  end.

(** [c in df.columns] *)
Definition has_column (c : string) (d : DataFrame) : bool := PyStr.mem c (columns d).

(** [row[c]]; in a well-formed frame every row holds a cell for every
    column, so the default is never read. *)
Definition get (c : string) (fs : gmap string cell) : cell :=
  default (Float Float.NaN) (fs !! c).

(** The values of column [c], in row order. *)
Definition column (c : string) (d : DataFrame) : list cell :=
  map (fun r => get c (fields r)) (rows d).

(** Every row holds exactly the frame's columns. *)
Definition well_formed (d : DataFrame) : Prop :=
  ∀ r, In r (rows d) → ∀ c, is_Some (fields r !! c) ↔ In c (columns d).

Definition set_cell (c : string) (v : cell) (r : Row) : Row :=
  mkRow (label r) (<[c := v]> (fields r)).

Definition add_column_name (c : string) (cols : list string) : list string :=
  if PyStr.mem c cols then cols else cols ++ [c].

(** [df[c] = values]: replaces the column, or appends it as the last one. *)
Definition set_column (c : string) (values : list cell) (d : DataFrame) : DataFrame :=
  mkFrame (add_column_name c (columns d))
          (zip_with (fun r v => set_cell c v r) (rows d) values).

(** [df[mask]] for a boolean mask: the rows at the positions marked true. *)
Fixpoint select (rs : list Row) (mask : list bool) : list Row :=
  match rs, mask with
  | r :: rs', b :: mask' => if b then r :: select rs' mask' else select rs' mask'
  | _, _ => []
  end.

Definition mask_rows (mask : list bool) (d : DataFrame) : DataFrame :=
  mkFrame (columns d) (select (rows d) mask).

Definition drop_cell (c : string) (r : Row) : Row :=
  mkRow (label r) (delete c (fields r)).

(** [df.drop(columns=[c])] on the value. *)
Definition drop_column (c : string) (d : DataFrame) : DataFrame :=
  mkFrame (List.filter (fun c' => negb (String.eqb c' c)) (columns d))
          (map (drop_cell c) (rows d)).

(** ** The store

    Frames are mutable objects; a Python variable holds a reference.
    The world also records what was printed and what was logged. *)

Definition ref : Set := nat.

(** The lines written by the [print] calls of [validate_transaction],
    one constructor per call site, the interpolated values as arguments. *)
Inductive debug : Type :=
  | ColonnesManquantes (required : list string)
  | ValeursNulles
  | MontantDepasse (montant : cell) (max_amount : Float.t)
  | DeviseNonAutorisee (devise : string) (allowed : list string)
  | IbanEmetteurInvalide (msg : string)
  | IbanBeneficiaireInvalide (msg : string)
  | BicInvalide (msg : string)
  | TransactionValide.

Record World : Type := mkWorld {
  heap : list DataFrame;      (* the frame objects, by reference *)
  stdout : list debug;        (* printed lines, oldest first *)
  log : list string           (* the "event" tag of each logger call *)
}.

Definition M (A : Type) : Type := World → outcome A * World.

#[global] Instance M_ret : MRet M := λ A a w, (Ok a, w).
#[global] Instance M_bind : MBind M := λ A B f m w,
  match m w with
  | (Ok a, w') => f a w'
  | (Raise e, w') => (Raise e, w')
  end.

Definition raise {A} (e : exn) : M A := λ w, (Raise e, w).

(** [try: body except Exception as e: handler(e)] *)
Definition try_except {A} (body : M A) (handler : exn → M A) : M A := λ w,
  match body w with
  | (Ok a, w') => (Ok a, w')
  | (Raise e, w') => handler e w'
  end.

Definition lift {A} (o : outcome A) : M A := λ w, (o, w).

Definition print (lines : list debug) : M unit := λ w,
  (Ok tt, mkWorld (heap w) (stdout w ++ lines) (log w)).

Definition log_event (event : string) : M unit := λ w,
  (Ok tt, mkWorld (heap w) (stdout w) (log w ++ [event])).

(** A new frame object. *)
Definition new_frame (d : DataFrame) : M ref := λ w,
  (Ok (length (heap w)), mkWorld (heap w ++ [d]) (stdout w) (log w)).

(** The current value of a frame object. *)
Definition read (l : ref) : M DataFrame := λ w,
  match heap w !! l with
  | Some d => (Ok d, w)
  | None => (Raise KeyError, w)
  end.

(** In-place update of a frame object. *)
Definition write (l : ref) (d : DataFrame) : M unit := λ w,
  (Ok tt, mkWorld (<[l := d]> (heap w)) (stdout w) (log w)).

(** [df.copy()] *)
Definition copy (l : ref) : M ref := d ← read l; new_frame d.

(** [df[c]]: [KeyError] when the column does not exist. *)
Definition getitem (l : ref) (c : string) : M (list cell) :=
  d ← read l;
  if has_column c d then mret (column c d) else raise KeyError.

(** [df[c] = values], in place: [ValueError] on a length mismatch. *)
Definition setitem (l : ref) (c : string) (values : list cell) : M unit :=
  d ← read l;
  if (length values =? nrows d)%nat then write l (set_column c values d)
  else raise ValueError.

(** [df[c] = v] for a scalar [v], in place. *)
Definition setitem_scalar (l : ref) (c : string) (v : cell) : M unit :=
  d ← read l;
  write l (set_column c (replicate (nrows d) v) d).

(** [df[mask]]: a new frame. *)
Definition getitem_mask (l : ref) (mask : list bool) : M ref :=
  d ← read l;
  if (length mask =? nrows d)%nat then new_frame (mask_rows mask d)
  else raise ValueError.

(** [df.drop(columns=[c])]: a new frame; [KeyError] when [c] is absent. *)
Definition drop_col (l : ref) (c : string) : M ref :=
  d ← read l;
  if has_column c d then new_frame (drop_column c d) else raise KeyError.

(** [df.drop(columns=[c], inplace=True)] *)
Definition drop_inplace (l : ref) (c : string) : M unit :=
  d ← read l;
  if has_column c d then write l (drop_column c d) else raise KeyError.

End Pandas.

(* ===================================================================== *)
(** * src/validation.py                                                   *)
(* ===================================================================== *)

Module Validation.
Import PyStr Pandas.

(** [validate_bic(bic)]. The coercion [str(bic)] that opens the function is
    the identity on a [str]; callers that hold a cell apply [py_str]. *)
Definition validate_bic (bic : string) : bool * string :=
  let bic := upper (remove_spaces bic) in
  if negb ((len bic =? 8)%nat || (len bic =? 11)%nat) then
    (false, "Longueur BIC invalide: " ++ of_nat (len bic) ++ " caractères (attendu 8 ou 11)")
  else if negb (isalpha (slice 0 4 bic)) then
    (false, "Code banque invalide (4 lettres attendues): " ++ slice 0 4 bic)
  else if negb (isalpha (slice 4 6 bic)) then
    (false, "Code pays invalide (2 lettres attendues): " ++ slice 4 6 bic)
  else if negb (isalnum (slice 6 8 bic)) then
    (false, "Code localisation invalide (2 caractères alphanumériques attendus): "
            ++ slice 6 8 bic)
  else if (len bic =? 11)%nat && negb (isalnum (slice_from 8 bic)) then
    (false, "Code branche invalide (3 caractères alphanumériques attendus): "
            ++ slice_from 8 bic)
  else (true, "BIC valide").

(** The table [country_lengths] of [validate_iban]. *)
Definition country_lengths : gmap string nat :=
  list_to_map [("FR", 27); ("DE", 22); ("GB", 22); ("CI", 28); ("SN", 28);
               ("JP", 24); ("US", 24)]%nat.

(** [re.match(r"^[A-Z]{2}", s)], as a truth value. *)
Definition match_two_capitals (s : string) : bool :=
  match chars s with
  | a :: b :: _ => is_upper a && is_upper b
  | _ => false
  end.

(** [validate_iban(iban)], with the same convention for [str(iban)]. *)
Definition validate_iban (iban : string) : bool * string :=
  let iban := upper (remove_spaces iban) in
  if (len iban <? 5)%nat then (false, "IBAN trop court")
  else if negb (match_two_capitals iban) then
    (false, "Code pays IBAN invalide (2 lettres attendues): " ++ slice 0 2 iban)
  else if negb (isdigit (slice 2 4 iban)) then
    (false, "Clé de contrôle IBAN invalide (2 chiffres attendus): " ++ slice 2 4 iban)
  else if negb (isalnum (slice_from 4 iban)) then
    (false, "Format BBAN invalide (caractères alphanumériques attendus): "
            ++ slice_from 4 iban)
  else
    let country := slice 0 2 iban in
    match country_lengths !! country with
    | Some n =>
        if negb (len iban =? n)%nat then
          (false, "Longueur IBAN invalide pour " ++ country ++ ": " ++ of_nat (len iban)
                  ++ " caractères (attendu " ++ of_nat n ++ ")")
        else (true, "IBAN valide")
    | None => (true, "IBAN valide")
    end.

(** The [rules] dictionary; an absent key is [None]. *)
Record Rules : Type := mkRules {
  max_transaction_amount : option Float.t;
  allowed_currencies : option (list string)
}.

(** The configuration dictionary, as far as this module reads it: its
    section "validation", [None] when the file has none. *)
Record Config : Type := mkConfig { validation : option Rules }.

(** [load_validation_rules(config)]: [config.get("validation", {})] *)
Definition load_validation_rules (config : Config) : Rules :=
  default (mkRules None None) (validation config).

Definition required_cols : list string :=
  ["Montant"; "Devise"; "IBAN_Emetteur"; "IBAN_Beneficiaire"; "BIC_SWIFT"].

(** [c > y] for a cell and a float: [TypeError] on a [str]. *)
Definition cell_gt (c : cell) (y : Float.t) : outcome bool :=
  match to_float c with
  | Ok x => Ok (Float.gtb x y)
  | Raise e => Raise e
  end.

Section WithRepr.
(** The decimal text Python prints for a finite float. *)
Variable float_repr : Float.t → string.

(** [str(c)] *)
Definition py_str (c : cell) : string :=
  match c with
  | Text s => s
  | Bool true => "True"
  | Bool false => "False"
  | Float f =>
      if Float.isnan f then "nan"
      else if PrimFloat.eqb f Float.PInf then "inf"
      else if PrimFloat.eqb f Float.NInf then "-inf"
      else float_repr f
  end.

(** [validate_transaction(row, rules)]. Each [return] gives a bare
    [bool]; the reason of a rejection is only printed. *)
Definition validate_transaction (row : gmap string cell) (rules : Rules) : M bool :=
  (* 1. required columns *)
  if negb (forallb (fun col => bool_decide (is_Some (row !! col))) required_cols) then
    print [ColonnesManquantes required_cols];; mret false
  (* 2. null values *)
  else if existsb (fun col => isna (get col row)) required_cols then
    print [ValeursNulles];; mret false
  else
    (* 3. amount and currency *)
    let montant := get "Montant" row in
    let devise := upper (strip (py_str (get "Devise" row))) in
    let max_amount := default Float.PInf (max_transaction_amount rules) in
    (* pd.notna(montant) and montant > max_amount *)
    lift (if negb (isna montant) then cell_gt montant max_amount else Ok false)
    ≫= λ too_large : bool,
    if too_large then
      print [MontantDepasse montant max_amount];; mret false
    else
      let allowed_currencies :=
        map (fun c => upper (strip c)) (default [] (allowed_currencies rules)) in
      if negb (bool_decide (allowed_currencies = []))
         && negb (mem devise allowed_currencies) then
        print [DeviseNonAutorisee devise allowed_currencies];; mret false
      else
        (* 4. IBANs *)
        let '(is_valid_emetteur, msg_emetteur) :=
          validate_iban (py_str (get "IBAN_Emetteur" row)) in
        if negb is_valid_emetteur then
          print [IbanEmetteurInvalide msg_emetteur];; mret false
        else
          let '(is_valid_beneficiaire, msg_beneficiaire) :=
            validate_iban (py_str (get "IBAN_Beneficiaire" row)) in
          if negb is_valid_beneficiaire then
            print [IbanBeneficiaireInvalide msg_beneficiaire];; mret false
          else
            (* 5. BIC *)
            let '(is_valid_bic, msg_bic) :=
              validate_bic (py_str (get "BIC_SWIFT" row)) in
            if negb is_valid_bic then
              print [BicInvalide msg_bic];; mret false
            else
              print [TransactionValide];; mret true.
(** ** The decision in the words of the specification

    Required fields first; then five checks in a fixed order, the first
    failure giving the reason. *)

Inductive check : Set :=
  | AmountThreshold
  | CurrencyWhitelist
  | IssuerIBAN
  | BeneficiaryIBAN
  | BICFormat.

Definition check_order : list check :=
  [AmountThreshold; CurrencyWhitelist; IssuerIBAN; BeneficiaryIBAN; BICFormat].

(** The currency of the row and the whitelist, both trimmed and upper-cased. *)
Definition currency_of (row : gmap string cell) : string :=
  upper (strip (py_str (get "Devise" row))).

Definition whitelist (rules : Rules) : list string :=
  map (fun c => upper (strip c)) (default [] (allowed_currencies rules)).

Definition threshold (rules : Rules) : Float.t :=
  default Float.PInf (max_transaction_amount rules).

Definition fails (row : gmap string cell) (rules : Rules) (c : check) : bool :=
  match c with
  | AmountThreshold => Float.gtb (cell_float (get "Montant" row)) (threshold rules)
  | CurrencyWhitelist =>
      negb (bool_decide (whitelist rules = []))
      && negb (mem (currency_of row) (whitelist rules))
  | IssuerIBAN => negb (fst (validate_iban (py_str (get "IBAN_Emetteur" row))))
  | BeneficiaryIBAN => negb (fst (validate_iban (py_str (get "IBAN_Beneficiaire" row))))
  | BICFormat => negb (fst (validate_bic (py_str (get "BIC_SWIFT" row))))
  end.

(** The line that reports a failed check. *)
Definition reason (row : gmap string cell) (rules : Rules) (c : check) : debug :=
  match c with
  | AmountThreshold => MontantDepasse (get "Montant" row) (threshold rules)
  | CurrencyWhitelist => DeviseNonAutorisee (currency_of row) (whitelist rules)
  | IssuerIBAN =>
      IbanEmetteurInvalide (snd (validate_iban (py_str (get "IBAN_Emetteur" row))))
  | BeneficiaryIBAN =>
      IbanBeneficiaireInvalide (snd (validate_iban (py_str (get "IBAN_Beneficiaire" row))))
  | BICFormat => BicInvalide (snd (validate_bic (py_str (get "BIC_SWIFT" row))))
  end.

(** Every required field is present. *)
Definition has_required (row : gmap string cell) : bool :=
  forallb (fun col => bool_decide (is_Some (row !! col))) required_cols.

(** Some required field is null. *)
Definition has_null (row : gmap string cell) : bool :=
  existsb (fun col => isna (get col row)) required_cols.

Definition verdict (row : gmap string cell) (rules : Rules) : bool * debug :=
  if negb (has_required row) then (false, ColonnesManquantes required_cols)
  else if has_null row then (false, ValeursNulles)
  else match List.find (fails row rules) check_order with
       | Some c => (false, reason row rules c)
       | None => (true, TransactionValide)
       end.

(** The amount is a [str]: comparing it with the threshold raises. *)
Definition is_text (c : cell) : bool :=
  match c with Text _ => true | _ => false end.

(** The rows on which the comparison of the amount is reached and raises. *)
Definition raises_type_error (row : gmap string cell) : bool :=
  has_required row && negb (has_null row) && is_text (get "Montant" row).

(** What the caller of [validate_transaction] learns, an exception counting
    as a rejection (the policy of [_validate_data]). *)
Definition accepted (row : gmap string cell) (rules : Rules) : bool :=
  negb (raises_type_error row) && fst (verdict row rules).

End WithRepr.

(** ** Sample inputs *)

Definition transaction (montant devise iban_emetteur iban_beneficiaire bic : cell)
    : gmap string cell :=
  <["Montant" := montant]>
    (<["Devise" := devise]>
       (<["IBAN_Emetteur" := iban_emetteur]>
          (<["IBAN_Beneficiaire" := iban_beneficiaire]>
             (<["BIC_SWIFT" := bic]> ∅)))).

Definition sample_rules : Rules :=
  mkRules (Some 10000000%float) (Some ["XOF"; "EUR"; "USD"]).

(** A transfer of 15,000,000, otherwise in order. *)
Definition large_transfer : gmap string cell :=
  transaction (Float 15000000) (Text "XOF")
              (Text "CI00112345678901234567890123")
              (Text "SN01098765432109876543210987") (Text "ABCDEFGH").

(** The same transfer with a missing amount. *)
Definition null_transfer : gmap string cell :=
  transaction (Float Float.NaN) (Text "XOF")
              (Text "CI00112345678901234567890123")
              (Text "SN01098765432109876543210987") (Text "ABCDEFGH").

(** A transfer of 5,000,000 that passes every check. *)
Definition valid_transfer : gmap string cell :=
  transaction (Float 5000000) (Text "XOF")
              (Text "CI00112345678901234567890123")
              (Text "SN01098765432109876543210987") (Text "ABCDEFGH").

Definition initial_world : World := mkWorld [] [] [].

(** A rendering of floats for the samples, whose text fields never use it. *)
Definition plain_repr : Float.t → string := fun _ => "0.0".

(** ** The structural rules in the words of the specification *)

(** Upper-casing, read off the two alphabets: the 26 letters, and the
    accented letters 224-246 and 248-254 with their capitals 32 below. *)
Definition small_letters : list ascii :=
  chars "abcdefghijklmnopqrstuvwxyz" ++ map ascii_of_nat (seq 224 23 ++ seq 248 7).
Definition capital_letters : list ascii :=
  chars "ABCDEFGHIJKLMNOPQRSTUVWXYZ" ++ map ascii_of_nat (seq 192 23 ++ seq 216 7).

Fixpoint capital_in (small capitals : list ascii) (c : ascii) : ascii :=
  match small, capitals with
  | a :: small', b :: capitals' =>
      if Ascii.eqb c a then b else capital_in small' capitals' c
  | _, _ => c
  end.

Definition capital : ascii → ascii := capital_in small_letters capital_letters.

(** The normal form on which the rules are stated: spaces stripped,
    upper-cased. *)
Fixpoint normalize (s : string) : list ascii :=
  match s with
  | EmptyString => []
  | String c s' =>
      if Ascii.eqb c " " then normalize s' else capital c :: normalize s'
  end.

(** Characters [a+1 .. b] (numbered from 1) exist and satisfy [p]. *)
Definition chars_between (a b : nat) (p : ascii → bool) (l : list ascii) : Prop :=
  ∀ i, (a ≤ i < b)%nat → ∃ c, l !! i = Some c ∧ p c = true.

(** The rule of an IBAN, for a reading [letter], [digit], [alnum] of
    "alphabetic", "numeric" and "alphanumeric". *)
Definition iban_rule (letter digit alnum : ascii → bool) (s : string) : Prop :=
  let n := normalize s in
  (5 ≤ length n)%nat
  ∧ chars_between 0 2 letter n
  ∧ chars_between 2 4 digit n
  ∧ chars_between 4 (length n) alnum n
  ∧ ∀ k, country_lengths !! of_chars (take 2 n) = Some k → length n = k.

(** The rule of a BIC, for a reading of "alphabetic" and "alphanumeric". *)
Definition bic_rule (letter alnum : ascii → bool) (s : string) : Prop :=
  let n := normalize s in
  (length n = 8 ∨ length n = 11)%nat
  ∧ chars_between 0 4 letter n
  ∧ chars_between 4 6 letter n
  ∧ chars_between 6 8 alnum n
  ∧ chars_between 8 (length n) alnum n.

(** A text of ASCII characters. *)
Definition ascii_text (s : string) : Prop :=
  Forall (fun c => is_ascii c = true) (chars s).

(** ** Sample texts *)

(** The IBAN of the specification, typed in lower case and in groups. *)
Definition grouped_iban : string := "fr14 2004 1010 0505 0001 3m02 606".

(** E with acute accent (201) twice for the country. *)
Definition accented_iban : string :=
  of_chars [ascii_of_nat 201; ascii_of_nat 201] ++ "12ABCDEF".

(** Superscript two (178) twice for the check digits. *)
Definition superscript_iban : string :=
  "XX" ++ of_chars [ascii_of_nat 178; ascii_of_nat 178] ++ "ABCDEF".

(** A BIC that ends with E with acute accent. *)
Definition accented_bic : string := "BNPAFRP" ++ of_chars [ascii_of_nat 201].

End Validation.

(* ===================================================================== *)
(** * src/fraud_detection.py                                              *)
(* ===================================================================== *)

Module FraudDetection.
Import Pandas.

(** The Series expression
    [(df[col] - df[col].mean()) / df[col].std(ddof=0)]. *)
Definition zscores (xs : list Float.t) : list Float.t :=
  map (λ x, (x - Nanops.nanmean xs) / Nanops.nanstd 0 xs)%float xs.

(** The entry of that Series for one row, [xs] being the column. *)
Definition zscore_of (col : string) (xs : list Float.t) (r : Row) : Float.t :=
  ((cell_float (get col (fields r)) - Nanops.nanmean xs) / Nanops.nanstd 0 xs)%float.

(** [detect_anomalies(df, montant_col='Montant', seuil_zscore=3.0)].
    The parameter [df] is rebound to the copy; the caller's object is the
    one named [df] on entry. *)
Definition detect_anomalies (df : ref) (montant_col : string) (seuil_zscore : Float.t)
    : M ref :=
  d ← read df;
  if negb (has_column montant_col d) || forallb isna (column montant_col d) then
    new_frame empty_frame
  else
    df ← copy df;
    amounts ← getitem df montant_col;
    xs ← lift (numeric amounts);
    setitem df "zscore" (map Float (zscores xs));;
    zscore ← getitem df "zscore";
    zs ← lift (numeric zscore);
    suspects ← getitem_mask df (map (λ z, Float.gtb (PrimFloat.abs z) seuil_zscore) zs);
    drop_col suspects "zscore".
Arguments detect_anomalies df%_nat_scope montant_col%_string_scope seuil_zscore%_float_scope.

(** ** The rule in the words of the specification *)

(** An amount: a float, a number or a null. *)
Definition is_amount (c : cell) : Prop := ∃ v, c = Float v.

(** The column as floats, the nulls among them. *)
Definition amounts (col : string) (d : DataFrame) : list Float.t :=
  map cell_float (column col d).

(** The mean and the population standard deviation (the squared deviations
    divided by N) of the non-null amounts, as binary64 numbers. *)
Definition mean_of (col : string) (d : DataFrame) : Float.t :=
  Nanops.nanmean (amounts col d).
Definition stddev_of (col : string) (d : DataFrame) : Float.t :=
  Nanops.nanstd 0 (amounts col d).

(** A cell is an outlier when it holds a non-null value [v] whose z-score
    [(v - mean) / stddev] exceeds the threshold in absolute value. *)
Definition is_outlier (mean stddev threshold : Float.t) (c : cell) : bool :=
  match c with
  | Float v =>
      negb (Float.isnan v)
      && Float.gtb (PrimFloat.abs ((v - mean) / stddev)) threshold
  | _ => false
  end.

(** The guard of the source: the column is missing or entirely null. *)
Definition guarded (col : string) (d : DataFrame) : Prop :=
  has_column col d = false ∨ forallb isna (column col d) = true.

(** A value away from the mean: the difference is neither zero nor NaN. *)
Definition off_mean (mean : Float.t) (c : cell) : bool :=
  match c with
  | Float v => Float.gtb (PrimFloat.abs (v - mean)) 0
  | _ => false
  end.

(** ** Sample inputs *)

Definition amount_row (i : nat) (v : Float.t) : Row :=
  mkRow i {[ "Montant" := Float v ]}.
Arguments amount_row i%_nat_scope v%_float_scope.

(** The amounts [10, 10, 10, 10, 1000]. *)
Definition sample : DataFrame :=
  mkFrame ["Montant"]
          [amount_row 0 10; amount_row 1 10; amount_row 2 10; amount_row 3 10;
           amount_row 4 1000].

(** Nine amounts of 100 and one of 103.5: the exact mean is 100.35, the
    exact population deviation 1.05 and the exact z-score of 103.5 is 3. *)
Definition hundreds_sample : DataFrame :=
  mkFrame ["Montant"]
          [amount_row 0 100; amount_row 1 100; amount_row 2 100; amount_row 3 100;
           amount_row 4 100; amount_row 5 100; amount_row 6 100; amount_row 7 100;
           amount_row 8 100; amount_row 9 103.5].

(** Three equal amounts. *)
Definition constant_sample : DataFrame :=
  mkFrame ["Montant"] [amount_row 0 5; amount_row 1 5; amount_row 2 5].

(** Three amounts of 0.1, whose sum is not three times one of them. *)
Definition tenths_sample : DataFrame :=
  mkFrame ["Montant"] [amount_row 0 0.1; amount_row 1 0.1; amount_row 2 0.1].

(** Two amounts whose squared deviations underflow. *)
Definition tiny_sample : DataFrame :=
  mkFrame ["Montant"] [amount_row 0 0; amount_row 1 1e-200].

(** A frame whose only amount is missing. *)
Definition null_sample : DataFrame :=
  mkFrame ["Montant"; "Devise"]
          [mkRow 0 (<["Montant" := Float Float.NaN]> {[ "Devise" := Text "EUR" ]})].

(** Two amounts in a frame that has a column "zscore" of its own. *)
Definition scored_sample : DataFrame :=
  mkFrame ["Montant"; "zscore"]
          [mkRow 0 (<["Montant" := Float 1]> {[ "zscore" := Float 7 ]});
           mkRow 1 (<["Montant" := Float 3]> {[ "zscore" := Float 8 ]})].

Definition world_of (d : DataFrame) : World := mkWorld [d] [] [].

End FraudDetection.

(* ===================================================================== *)
(** * src/data_processor.py                                               *)
(* ===================================================================== *)

Module DataProcessor.
Import PyStr Pandas Validation.

(** ** Paths ([pathlib.PurePath]): an anchor ("/" or "") and the names below it. *)
Record Path : Type := mkPath { anchor : string; parts : list string }.

Fixpoint is_prefix (l1 l2 : list string) : bool :=
  match l1, l2 with
  | [], _ => true
  | a :: l1', b :: l2' => String.eqb a b && is_prefix l1' l2'
  | _ :: _, [] => false
  end.

(** [p.relative_to(other)]: [ValueError] unless [other] is an ancestor. *)
Definition relative_to (p other : Path) : outcome Path :=
  if String.eqb (anchor p) (anchor other) && is_prefix (parts other) (parts p)
  then Ok (mkPath "" (drop (length (parts other)) (parts p)))
  else Raise ValueError.

Fixpoint join (sep : string) (l : list string) : string :=
  match l with
  | [] => ""
  | [a] => a
  | a :: l' => a ++ sep ++ join sep l'
  end.

(** [str(p)] *)
Definition str_path (p : Path) : string :=
  match anchor p, parts p with
  | "", [] => "."
  | a, l => a ++ join "/" l
  end.

(** ** The recovery ledger

    The processor object keeps [processed_files] in memory; the ledger is
    the text file at [processed_files_log_path]. *)
Record Ledger : Type := mkLedger {
  processed_files : list string;   (* self.processed_files *)
  ledger_file : option string;     (* the file's text; None: no file yet *)
  ledger_readable : bool;          (* opening, reading and decoding it succeed *)
  ledger_writable : bool;          (* it can be opened for append and takes
                                      the bytes written to it *)
  errors : list string             (* "event" of each logger.error call *)
}.

Definition log_error (event : string) (st : Ledger) : Ledger :=
  mkLedger (processed_files st) (ledger_file st) (ledger_readable st)
           (ledger_writable st) (errors st ++ [event]).

(** [self.processed_files = l] *)
Definition set_processed (l : list string) (st : Ledger) : Ledger :=
  mkLedger l (ledger_file st) (ledger_readable st) (ledger_writable st) (errors st).

(** The file after [open(path, 'a')] and the write of [text]: created if
    it did not exist. *)
Definition set_file (text : string) (st : Ledger) : Ledger :=
  mkLedger (processed_files st) (Some text) (ledger_readable st)
           (ledger_writable st) (errors st).

Definition is_newline (c : ascii) : bool := (code c =? 10)%nat || (code c =? 13)%nat.

(** The lines of a text, without their terminators. *)
Fixpoint split_lines (cur l : list ascii) : list (list ascii) :=
  match l with
  | [] => [rev cur]
  | c :: l' => if is_newline c then rev cur :: split_lines [] l'
               else split_lines (c :: cur) l'
  end.

(** The entries read from a list of characters, [cur] being the line begun. *)
Definition entries_from (cur l : list ascii) : list string :=
  List.filter (fun s => negb (String.eqb s ""))
              (map (fun l => strip (of_chars l)) (split_lines cur l)).

(** [[line.strip() for line in f if line.strip()]] *)
Definition read_entries (text : string) : list string :=
  entries_from [] (chars text).

(** [_load_processed_files]: the list is emptied first; when the file
    exists and cannot be read or decoded, the list stays empty and the
    error is logged. *)
Definition _load_processed_files (st : Ledger) : Ledger :=
  let st := set_processed [] st in
  match ledger_file st with
  | Some text =>
      if ledger_readable st then set_processed (read_entries text) st
      else log_error "recovery_log_load_failed" st
  | None => st
  end.

(** ** Column names ([_clean_data], step 2)

    [df.columns.str.strip().str.replace('[^A-Za-z0-9_]+', '_', regex=True)],
    for one column name. *)

(** The class [[A-Za-z0-9_]]. *)
Definition is_name_char (c : ascii) : bool := is_alnum c || Ascii.eqb c "_".

(** [re.sub('[^A-Za-z0-9_]+', '_', s)] on the characters of [s]: each
    maximal run of characters outside the class becomes one underscore;
    [in_run] tells that such a run has begun. *)
Fixpoint squeeze (in_run : bool) (l : list ascii) : list ascii :=
  match l with
  | [] => []
  | c :: l' =>
      if is_name_char c then c :: squeeze false l'
      else if in_run then squeeze true l'
      else "_"%char :: squeeze true l'
  end.

Definition clean_column_name (name : string) : string :=
  of_chars (squeeze false (chars (strip name))).

Section Processor.
Variable project_root : Path.
Variable validation_rules : Rules.
Variable float_repr : Float.t → string.
(** The texts that can be encoded in UTF-8. A file name with a byte that
    is no valid text reaches Python as a [str] with a lone surrogate, which
    [f.write] refuses with [UnicodeEncodeError]. *)
Variable encodable : string → bool.

(** [_save_processed_file(file_path)]. The identifier is appended in memory
    before the file is opened; [open(path, 'a')] creates the file, and the
    whole line is encoded before any of it is written. *)
Definition _save_processed_file (file_path : Path) (st : Ledger) : Ledger :=
  match relative_to file_path project_root with
  | Raise _ => log_error "recovery_log_write_failed" st
  | Ok rel =>
      let relative_path := str_path rel in
      if mem relative_path (processed_files st) then st
      else
        let st := set_processed (processed_files st ++ [relative_path]) st in
        if ledger_writable st then
          let text := default "" (ledger_file st) in
          if encodable (relative_path ++ newline) then
            set_file (text ++ relative_path ++ newline) st
          else log_error "recovery_log_write_failed" (set_file text st)
        else log_error "recovery_log_write_failed" st
  end.

(** [_is_processed(file_path)] *)
Definition _is_processed (file_path : Path) (st : Ledger) : bool * Ledger :=
  match relative_to file_path project_root with
  | Ok rel => (mem (str_path rel) (processed_files st), st)
  | Raise _ => (false, log_error "relative_path_calculation_failed" st)
  end.

(** ** The ledger in the words of the specification *)

(** The identifiers a processor started now would load from the file. *)
Definition ledger_entries (st : Ledger) : list string :=
  processed_files (_load_processed_files st).

(** The file is empty or ends with a line terminator. *)
Definition clean_text (text : string) : Prop :=
  text = "" ∨ ∃ t, text = t ++ newline.

(** An identifier that survives being written as a line and read back:
    not empty, no line terminator inside, no white space around. *)
Definition line_safe (id : string) : Prop :=
  id ≠ "" ∧ strip id = id ∧ Forall (fun c => is_newline c = false) (chars id).

(** Memory and file agree: the file can be read, the in-memory list is
    what it holds, and it can take one more line. This is the state of a
    processor that has just loaded a readable ledger. *)
Definition consistent (st : Ledger) : Prop :=
  ledger_readable st = true
  ∧ processed_files st = ledger_entries st
  ∧ clean_text (default "" (ledger_file st)).

(** ** [_validate_data] *)

Definition expected_cols : list string :=
  ["Montant"; "Devise"; "IBAN_Emetteur"; "IBAN_Beneficiaire"; "BIC_SWIFT"].

(** [for col in expected_cols: if col not in df.columns: df[col] = pd.NA] *)
Fixpoint add_missing (df : ref) (cols : list string) : M unit :=
  match cols with
  | [] => mret tt
  | col :: rest =>
      d ← read df;
      (if has_column col d then mret tt
       else setitem_scalar df col (Float Float.NaN));;
      add_missing df rest
  end.

(** The body of the loop over [df.iterrows()]: the value it appends to
    [validity_results]. *)
Definition validate_row (row : Row) : M bool :=
  try_except
    (is_valid ← validate_transaction float_repr (fields row) validation_rules;
     (if negb is_valid then log_event "transaction_invalid" else mret tt);;
     mret is_valid)
    (λ _, log_event "validation_error";; mret false).

Fixpoint validate_rows (rs : list Row) : M (list bool) :=
  match rs with
  | [] => mret []
  | r :: rs' =>
      b ← validate_row r;
      bs ← validate_rows rs';
      mret (b :: bs)
  end.

Definition cell_true (c : cell) : bool :=
  match c with Bool b => b | _ => false end.

(** [if col in df.columns: df[col] = df[col].apply(lambda x: mask_sensitive_data(str(x)))] *)
Definition mask_column (df : ref) (col : string) : M unit :=
  d ← read df;
  if has_column col d then
    xs ← getitem df col;
    setitem df col (map (λ x, Text (Utils.mask_sensitive_data (py_str float_repr x) 4)) xs)
  else mret tt.

Definition _validate_data (df : ref) : M (ref * ref) :=
  d ← read df;
  log_event "validation_start";;
  if is_empty d then
    log_event "validation_skipped_empty";;
    valid_df ← new_frame empty_frame;
    invalid_df ← new_frame empty_frame;
    mret (valid_df, invalid_df)
  else
    add_missing df expected_cols;;
    d ← read df;
    validity_results ← validate_rows (rows d);
    setitem df "is_valid" (map Bool validity_results);;
    is_valid ← getitem df "is_valid";
    selected ← getitem_mask df (map cell_true is_valid);
    valid_df ← copy selected;
    is_valid ← getitem df "is_valid";
    selected ← getitem_mask df (map (λ c, negb (cell_true c)) is_valid);
    invalid_df ← copy selected;
    drop_inplace valid_df "is_valid";;
    drop_inplace invalid_df "is_valid";;
    mask_column valid_df "IBAN_Emetteur";;
    mask_column invalid_df "IBAN_Emetteur";;
    mask_column valid_df "IBAN_Beneficiaire";;
    mask_column invalid_df "IBAN_Beneficiaire";;
    log_event "validation_end";;
    mret (valid_df, invalid_df).

(** ** The frames [_validate_data] builds, as values *)

(** [if col not in df.columns: df[col] = pd.NA] *)
Definition fill_missing (d : DataFrame) (col : string) : DataFrame :=
  if has_column col d then d
  else set_column col (replicate (nrows d) (Float Float.NaN)) d.

(** The input once every expected column exists. *)
Definition with_expected (d : DataFrame) : DataFrame :=
  fold_left fill_missing expected_cols d.

(** The value appended to [validity_results] for a row. *)
Definition row_accepted (r : Row) : bool :=
  accepted float_repr (fields r) validation_rules.

(** The input with its column "is_valid". *)
Definition checked (d : DataFrame) : DataFrame :=
  set_column "is_valid"
             (map (λ r, Bool (row_accepted r)) (rows (with_expected d)))
             (with_expected d).

Definition masked (col : string) (d : DataFrame) : DataFrame :=
  if has_column col d then
    set_column col
      (map (λ x, Text (Utils.mask_sensitive_data (py_str float_repr x) 4)) (column col d))
      d
  else d.

(** Drop "is_valid", then mask the two IBAN columns. *)
Definition finish (d : DataFrame) : DataFrame :=
  masked "IBAN_Beneficiaire" (masked "IBAN_Emetteur" (drop_column "is_valid" d)).

Definition valid_part (d : DataFrame) : DataFrame :=
  finish (mask_rows (map row_accepted (rows (with_expected d))) (checked d)).

(** What the two results hold for a row of the input: the cell "is_valid"
    removed, the two IBAN cells replaced by their masked text. *)
Definition mask_cell (col : string) (r : Row) : Row :=
  set_cell col (Text (Utils.mask_sensitive_data (py_str float_repr (get col (fields r))) 4)) r.

Definition published (r : Row) : Row :=
  mask_cell "IBAN_Beneficiaire" (mask_cell "IBAN_Emetteur" (drop_cell "is_valid" r)).

Definition invalid_part (d : DataFrame) : DataFrame :=
  finish (mask_rows (map (λ r, negb (row_accepted r)) (rows (with_expected d)))
                    (checked d)).

End Processor.

(** ** [_safe_process_file]

    The three readers and [Path.suffix] are parameters: the dispatcher is
    described for any of them. A reader returns a frame, [None], or raises. *)
Section Dispatch.
Variable suffix : Path → string.
Variables _process_csv _process_excel _process_pdf : Path → M (option ref).

Definition _safe_process_file (file_path : Path) : M (option (ref * Path)) :=
  try_except
    (let suffix := lower (suffix file_path) in
     (* if df is not None: return df, file_path / else: ... return None *)
     let result (df : option ref) : M (option (ref * Path)) :=
       match df with
       | Some df => mret (Some (df, file_path))
       | None => log_event "file_processing_returned_none";; mret None
       end in
     if String.eqb suffix ".csv" then _process_csv file_path ≫= result
     else if mem suffix [".xlsx"; ".xls"] then _process_excel file_path ≫= result
     else if String.eqb suffix ".pdf" then _process_pdf file_path ≫= result
     else log_event "unsupported_file_type";; mret None)
    (λ _, log_event "file_processing_failure";; mret None).

(** The test of [run_pipeline] on the type of a file:
    [f.suffix.lower() in ['.csv', '.xlsx', '.xls', '.pdf']]. *)
Definition supported (file_path : Path) : bool :=
  mem (lower (suffix file_path)) [".csv"; ".xlsx"; ".xls"; ".pdf"].

(** The scan that opens [run_pipeline]:
    [[f for f in input_dir.iterdir() if f.is_file() and
    f.suffix.lower() in [...] and not self._is_processed(f)]]. The
    directory is given as its entries in the order [iterdir] yields them,
    each with the answer of [is_file]; [and] evaluates [_is_processed] only
    on the regular files of a supported type. *)
Variable project_root : Path.

Fixpoint files_to_process (entries : list (Path * bool)) (st : Ledger)
    : list Path * Ledger :=
  match entries with
  | [] => ([], st)
  | (f, is_file) :: rest =>
      if is_file && supported f then
        let '(done, st) := _is_processed project_root f st in
        let '(files, st) := files_to_process rest st in
        (if done then files else f :: files, st)
      else files_to_process rest st
  end.

End Dispatch.

(** ** The categorisation step of [run_pipeline]

    [valid_df['Catégorie'] = valid_df.apply(lambda row:
       categoriser_transaction(row.get('Description', ''),
                               row.get('Montant', 0.0)), axis=1)]
    when the frame has a column "Description", and
    [valid_df['Catégorie'] = 'autre'] when it has none; the step is taken
    for a frame that is not empty. *)

(** The truth value Python gives a cell in [if not libelle]. *)
Definition truthy (c : cell) : bool :=
  match c with
  | Text s => negb (String.eqb s "")
  | Float f => negb (PrimFloat.eqb f 0)
  | Bool b => b
  end.

(** [categoriser_transaction(libelle, montant)] for the cells of a row: a
    [str] description is categorised; another value that is false gives
    "autre" at the first test, and one that is true reaches
    [libelle.lower()], which a float or a bool does not have. *)
Definition categorise_cells (libelle montant : cell) : outcome string :=
  match libelle with
  | Text s => Categorization.categoriser_transaction (Some s) (cell_float montant) None
  | _ => if truthy libelle then Raise AttributeError else Ok "autre"
  end.

(** The call of the lambda on one row. *)
Definition categorise_row (r : Row) : outcome string :=
  categorise_cells (default (Text "") (fields r !! "Description"))
                   (default (Float 0) (fields r !! "Montant")).

(** [apply(..., axis=1)]: row after row, the first exception ends it. *)
Fixpoint apply_rows (f : Row → outcome string) (rs : list Row) : outcome (list string) :=
  match rs with
  | [] => Ok []
  | r :: rs' =>
      match f r with
      | Raise e => Raise e
      | Ok x =>
          match apply_rows f rs' with
          | Raise e => Raise e
          | Ok xs => Ok (x :: xs)
          end
      end
  end.

Definition categorise (valid_df : ref) : M unit :=
  d ← read valid_df;
  if negb (is_empty d) then
    if has_column "Description" d then
      categories ← lift (apply_rows categorise_row (rows d));
      setitem valid_df "Catégorie" (map Text categories)
    else setitem_scalar valid_df "Catégorie" (Text "autre")
  else mret tt.

(** ** Sample inputs *)

(** A project at /srv/app, one input file in it and one outside it. *)
Definition sample_root : Path := mkPath "/" ["srv"; "app"].
Definition inside_file : Path :=
  mkPath "/" ["srv"; "app"; "data"; "input"; "transactions.csv"].
Definition outside_file : Path := mkPath "/" ["mnt"; "inbox"; "transactions.csv"].

(** A new ledger: nothing in memory, no file yet, the directory readable
    and writable. *)
Definition new_ledger : Ledger := mkLedger [] None true true [].

(** Every text of the model's range has a UTF-8 encoding. *)
Definition utf8 : string → bool := fun _ => true.

(** Two rows and no column: [df.empty] holds although [len(df)] is 2. *)
Definition bare_rows : DataFrame := mkFrame [] [mkRow 0 ∅; mkRow 1 ∅].

(** One valid and one oversized transfer. *)
Definition two_transfers : DataFrame :=
  mkFrame ["Montant"; "Devise"; "IBAN_Emetteur"; "IBAN_Beneficiaire"; "BIC_SWIFT"]
          [mkRow 0 valid_transfer; mkRow 1 large_transfer].

End DataProcessor.

(* ===================================================================== *)
(** * Properties                                                          *)
(* ===================================================================== *)

(** ** Strings *)

Section StringFacts.
Import PyStr.

Lemma chars_of_chars (l : list ascii) : chars (of_chars l) = l.
Proof. apply list_ascii_of_string_of_list_ascii. Qed.

Lemma of_chars_chars (s : string) : of_chars (chars s) = s.
Proof. apply string_of_list_ascii_of_string. Qed.

Lemma chars_app (s1 s2 : string) : chars (s1 ++ s2) = (chars s1 ++ chars s2)%list.
Proof. induction s1 as [|c s1 IH]; simpl; [reflexivity | now rewrite <- IH]. Qed.



Lemma forallb_lookup {A} (p : A → bool) (l : list A) :
  forallb p l = true ↔ ∀ i c, l !! i = Some c → p c = true.
Proof.
  rewrite forallb_forall. split.
  - intros H i c Hi. apply H, list_elem_of_In, list_elem_of_lookup. eauto.
  - intros H c Hc. apply list_elem_of_In, list_elem_of_lookup in Hc as [i Hi]. eauto.
Qed.

Lemma all_chars_nonempty (p : ascii → bool) (s : string) :
  chars s ≠ [] → all_chars p s = forallb p (chars s).
Proof. unfold all_chars. destruct (chars s); [congruence | reflexivity]. Qed.

(** [s[a:b]] consists of characters satisfying [p], for a non-empty range
    inside the string. *)
Lemma all_chars_slice (p : ascii → bool) (a b : nat) (s : string) :
  (a < b ≤ len s)%nat →
  all_chars p (slice a b s) = true ↔
  ∀ i, (a ≤ i < b)%nat → ∃ c, chars s !! i = Some c ∧ p c = true.
Proof.
  unfold len. intros Hab.
  assert (Hlen : length (take (b - a) (drop a (chars s))) = (b - a)%nat).
  { rewrite length_take, length_drop. lia. }
  rewrite all_chars_nonempty; unfold slice; rewrite chars_of_chars.
  2:{ intros E. rewrite E in Hlen. simpl in Hlen. lia. }
  rewrite forallb_lookup. split.
  - intros H i Hi.
    destruct (lookup_lt_is_Some_2 (chars s) i) as [c Hc]; [lia |].
    exists c. split; [assumption |].
    apply (H (i - a)%nat).
    rewrite lookup_take_lt by lia. rewrite lookup_drop.
    now replace (a + (i - a))%nat with i by lia.
  - intros H j c Hj.
    assert (j < b - a)%nat.
    { rewrite <- Hlen. eapply lookup_lt_Some; eauto. }
    rewrite lookup_take_lt, lookup_drop in Hj by lia.
    destruct (H (a + j)%nat) as [c' [Hc' Hp]]; [lia |]. congruence.
Qed.

Lemma slice_from_slice (a : nat) (s : string) : slice_from a s = slice a (len s) s.
Proof.
  unfold slice_from, slice, len. f_equal.
  rewrite take_ge; [reflexivity | rewrite length_drop; lia].
Qed.

End StringFacts.

(** ** Masking (src/utils.py) *)

Section MaskFacts.
Import PyStr Utils.

Lemma chars_repeat_char (c : ascii) (k : Z) :
  chars (repeat_char c k) = replicate (Z.to_nat k) c.
Proof. apply chars_of_chars. Qed.

Lemma mask_long (s : string) (n : nat) :
  (0 < n < len s)%nat →
  chars (mask_sensitive_data s (Z.of_nat n)) =
  (replicate (len s - n) "*"%char ++ drop (len s - n) (chars s))%list.
Proof.
  intros Hn. unfold mask_sensitive_data.
  destruct (String.eqb_spec s "") as [-> | _]; [unfold len in Hn; simpl in Hn; lia |].
  destruct (Z.leb_spec (Z.of_nat (len s)) (Z.of_nat n)); [lia |].
  rewrite chars_app, chars_repeat_char. unfold slice_from_int.
  rewrite chars_of_chars.
  destruct (Z.ltb_spec (- Z.of_nat n) 0); [| lia].
  replace (Z.to_nat (Z.of_nat (len s) - Z.of_nat n)) with (len s - n)%nat by lia.
  replace (Z.to_nat (Z.max 0 (Z.of_nat (len s) + - Z.of_nat n))) with (len s - n)%nat by lia.
  reflexivity.
Qed.

End MaskFacts.

(** C9. For a string [s] of more than 4 characters, [mask_sensitive_data s 4]
    has the length of [s], ends with the last 4 characters of [s], and every
    character before them is the mask character ['*']. *)
Theorem mask_sensitive_data_keeps_last_four (s : string) :
  (4 < PyStr.len s)%nat →
  let masked := PyStr.chars (Utils.mask_sensitive_data s 4) in
  length masked = PyStr.len s
  ∧ drop (PyStr.len s - 4) masked = drop (PyStr.len s - 4) (PyStr.chars s)
  ∧ ∀ i, (i < PyStr.len s - 4)%nat → masked !! i = Some "*"%char.
Proof.
  intros Hlen masked. subst masked.
  change 4%Z with (Z.of_nat 4). rewrite mask_long by lia.
  set (k := (PyStr.len s - 4)%nat).
  assert (Hk : length (replicate k "*"%char) = k) by apply length_replicate.
  repeat split.
  - rewrite length_app, Hk, length_drop. unfold PyStr.len in *. lia.
  - rewrite drop_app_length'; [reflexivity | now rewrite Hk].
  - intros i Hi. rewrite lookup_app_l by lia.
    apply lookup_replicate_2. exact Hi.
Qed.

Lemma mask_sensitive_data_keeps_last_four_iban :
  (4 < PyStr.len "FR1420041010050500013M02606")%nat
  ∧ Utils.mask_sensitive_data "FR1420041010050500013M02606" 4
    = "***********************2606"
  ∧ drop 23 (PyStr.chars (Utils.mask_sensitive_data "FR1420041010050500013M02606" 4))
    = PyStr.chars "2606".
Proof.
  split; [vm_compute; lia |]. split; [reflexivity |].
  exact (proj1 (proj2 (mask_sensitive_data_keeps_last_four
                         "FR1420041010050500013M02606" ltac:(vm_compute; lia)))).
Defined.

(** ** Structural checks (src/validation.py) *)

Section StructuralChecks.
Import PyStr Validation.

Lemma chars_upper (s : string) : chars (upper s) = map to_upper (chars s).
Proof. apply chars_of_chars. Qed.

(** The capital read off the alphabets is the one [upper] computes. *)
Lemma capital_to_upper (c : ascii) : capital c = to_upper c.
Proof.
  destruct c as [b0 b1 b2 b3 b4 b5 b6 b7].
  destruct b0, b1, b2, b3, b4, b5, b6, b7; reflexivity.
Qed.

(** The normal form of the specification is the text the validators
    build with [replace(" ", "")] and [upper()]. *)
Lemma normalize_code (s : string) : normalize s = chars (upper (remove_spaces s)).
Proof.
  unfold upper, remove_spaces. rewrite !chars_of_chars.
  induction s as [| c s IH]; [reflexivity |].
  change (chars (String c s)) with (c :: chars s). cbn [normalize List.filter].
  destruct (Ascii.eqb c " "); cbn [negb map]; [exact IH |].
  now rewrite capital_to_upper, IH.
Qed.

Lemma validate_bic_iff (s : string) :
  fst (validate_bic s) = true ↔ bic_rule uni_alpha uni_alnum s.
Proof.
  unfold validate_bic, bic_rule, chars_between, isalpha, isalnum.
  cbv zeta. rewrite normalize_code.
  set (b := upper (remove_spaces s)).
  change (length (chars b)) with (len b).
  destruct (Nat.eqb_spec (len b) 8) as [H8 | H8];
    [| destruct (Nat.eqb_spec (len b) 11) as [H11 | H11]]; cbn [orb negb andb].
  - replace (len b =? 11)%nat with false by (symmetry; apply Nat.eqb_neq; lia).
    rewrite <- (all_chars_slice uni_alpha 0 4 b) by lia.
    rewrite <- (all_chars_slice uni_alpha 4 6 b) by lia.
    rewrite <- (all_chars_slice uni_alnum 6 8 b) by lia.
    destruct (all_chars uni_alpha (slice 0 4 b)),
             (all_chars uni_alpha (slice 4 6 b)),
             (all_chars uni_alnum (slice 6 8 b)); cbn;
      try (split; [discriminate | intros (_ & ? & ? & ? & _); discriminate]).
    split; [| reflexivity]. intros _. repeat split; auto. intros i Hi. lia.
  - rewrite slice_from_slice.
    rewrite <- (all_chars_slice uni_alpha 0 4 b) by lia.
    rewrite <- (all_chars_slice uni_alpha 4 6 b) by lia.
    rewrite <- (all_chars_slice uni_alnum 6 8 b) by lia.
    rewrite <- (all_chars_slice uni_alnum 8 (len b) b) by lia.
    destruct (all_chars uni_alpha (slice 0 4 b)),
             (all_chars uni_alpha (slice 4 6 b)),
             (all_chars uni_alnum (slice 6 8 b)),
             (all_chars uni_alnum (slice 8 (len b) b)); cbn;
      try (split; [discriminate | intros (_ & ? & ? & ? & ?); discriminate]).
    split; [| reflexivity]. intros _. repeat split; auto.
  - split; [discriminate | intros ([? | ?] & _); contradiction].
Qed.

(** The test [^[A-Z]{2}] says that the first two characters are capitals
    of the 26 letters. *)
Lemma match_two_capitals_iff (s : string) :
  (2 ≤ len s)%nat →
  match_two_capitals s = true ↔
  ∀ i, (0 ≤ i < 2)%nat → ∃ c, chars s !! i = Some c ∧ is_upper c = true.
Proof.
  unfold match_two_capitals, len.
  destruct (chars s) as [| x [| y l]]; simpl; try lia. intros _.
  rewrite andb_true_iff. split.
  - intros [Hx Hy] [| [| i]] Hi; try lia; simpl; eauto.
  - intros H. split.
    + destruct (H 0%nat) as (c & Hc & Hp); [lia |]. simpl in Hc. congruence.
    + destruct (H 1%nat) as (c & Hc & Hp); [lia |]. simpl in Hc. congruence.
Qed.

Lemma validate_iban_iff (s : string) :
  fst (validate_iban s) = true ↔ iban_rule is_upper uni_digit uni_alnum s.
Proof.
  unfold validate_iban, iban_rule, chars_between, isdigit, isalnum.
  cbv zeta. rewrite normalize_code.
  set (b := upper (remove_spaces s)).
  change (length (chars b)) with (len b).
  destruct (Nat.ltb_spec (len b) 5) as [H5 | H5]; cbn [fst].
  { split; [discriminate | intros (? & _); lia]. }
  rewrite slice_from_slice.
  rewrite <- (match_two_capitals_iff b) by lia.
  rewrite <- (all_chars_slice uni_digit 2 4 b) by lia.
  rewrite <- (all_chars_slice uni_alnum 4 (len b) b) by lia.
  replace (take 2 (chars b)) with (take (2 - 0) (drop 0 (chars b))) by reflexivity.
  fold (slice 0 2 b).
  set (o := country_lengths !! slice 0 2 b).
  destruct (match_two_capitals b),
           (all_chars uni_digit (slice 2 4 b)),
           (all_chars uni_alnum (slice 4 (len b) b)); cbn [negb fst];
    try (split; [discriminate | intros (_ & ? & ? & ? & _); discriminate]).
  destruct o as [k |].
  - destruct (Nat.eqb_spec (len b) k) as [E | E]; cbn [negb fst].
    + split; [| reflexivity]. intros _. repeat split; auto. congruence.
    + split; [discriminate |]. intros (_ & _ & _ & _ & H). now specialize (H k eq_refl).
  - cbn [fst]. split; [| reflexivity]. intros _. repeat split; auto. discriminate.
Qed.

(** *** ASCII text

    On the code points below 128 the Unicode tests are the classes
    [[A-Za-z]], [[0-9]] and [[A-Za-z0-9]], and a capital is an alphabetic
    character that [upper] has produced. *)

Lemma ascii_classes (c : ascii) :
  is_ascii c = true →
  uni_alpha c = is_alpha c ∧ uni_digit c = is_digit c ∧ uni_alnum c = is_alnum c.
Proof.
  destruct c as [b0 b1 b2 b3 b4 b5 b6 b7].
  destruct b0, b1, b2, b3, b4, b5, b6, b7; intros H;
    solve [discriminate H | repeat split; reflexivity].
Qed.

Lemma ascii_capital (c : ascii) :
  is_ascii c = true →
  is_ascii (capital c) = true ∧ is_upper (capital c) = is_alpha (capital c).
Proof.
  destruct c as [b0 b1 b2 b3 b4 b5 b6 b7].
  destruct b0, b1, b2, b3, b4, b5, b6, b7; intros H;
    solve [discriminate H | split; reflexivity].
Qed.

(** The normal form of an ASCII text: ASCII characters out of [capital]. *)
Lemma normalize_ascii (s : string) :
  ascii_text s →
  Forall (fun c => is_ascii c = true ∧ is_upper c = is_alpha c) (normalize s).
Proof.
  unfold ascii_text. induction s as [| c s IH]; intros H; [constructor |].
  change (chars (String c s)) with (c :: chars s) in H.
  apply List.Forall_cons_iff in H as [Hc Hs]. cbn [normalize].
  destruct (Ascii.eqb c " "); [now apply IH |].
  constructor; [now apply ascii_capital | now apply IH].
Qed.

Lemma chars_between_ext (a b : nat) (p q : ascii → bool) (l : list ascii) :
  Forall (fun c => p c = q c) l → chars_between a b p l ↔ chars_between a b q l.
Proof.
  intros H. rewrite List.Forall_forall in H.
  assert (E : ∀ i c, l !! i = Some c → p c = q c).
  { intros i c Hc. apply H, list_elem_of_In, list_elem_of_lookup. eauto. }
  unfold chars_between. split; intros Hb i Hi; destruct (Hb i Hi) as (c & Hc & Hp);
    exists c; (split; [exact Hc |]); [rewrite <- (E i c Hc) | rewrite (E i c Hc)]; exact Hp.
Qed.

Lemma bic_rule_ascii (s : string) :
  ascii_text s → bic_rule uni_alpha uni_alnum s ↔ bic_rule is_alpha is_alnum s.
Proof.
  intros H. pose proof (normalize_ascii s H) as Hn. unfold bic_rule. cbv zeta.
  assert (Ha : Forall (fun c => uni_alpha c = is_alpha c) (normalize s)).
  { eapply List.Forall_impl; [| exact Hn]. intros c [Hc _]. now apply ascii_classes. }
  assert (Hb : Forall (fun c => uni_alnum c = is_alnum c) (normalize s)).
  { eapply List.Forall_impl; [| exact Hn]. intros c [Hc _]. now apply ascii_classes. }
  rewrite (chars_between_ext 0 4 _ _ _ Ha), (chars_between_ext 4 6 _ _ _ Ha),
    (chars_between_ext 6 8 _ _ _ Hb), (chars_between_ext 8 _ _ _ _ Hb).
  reflexivity.
Qed.

Lemma iban_rule_ascii (s : string) :
  ascii_text s →
  iban_rule is_upper uni_digit uni_alnum s ↔ iban_rule is_alpha is_digit is_alnum s.
Proof.
  intros H. pose proof (normalize_ascii s H) as Hn. unfold iban_rule. cbv zeta.
  assert (Ha : Forall (fun c => is_upper c = is_alpha c) (normalize s)).
  { eapply List.Forall_impl; [| exact Hn]. now intros c [_ Hc]. }
  assert (Hd : Forall (fun c => uni_digit c = is_digit c) (normalize s)).
  { eapply List.Forall_impl; [| exact Hn]. intros c [Hc _]. now apply ascii_classes. }
  assert (Hb : Forall (fun c => uni_alnum c = is_alnum c) (normalize s)).
  { eapply List.Forall_impl; [| exact Hn]. intros c [Hc _]. now apply ascii_classes. }
  rewrite (chars_between_ext 0 2 _ _ _ Ha), (chars_between_ext 2 4 _ _ _ Hd),
    (chars_between_ext 4 _ _ _ _ Hb).
  reflexivity.
Qed.

(** *** The sample texts *)

Lemma grouped_iban_ascii : ascii_text grouped_iban.
Proof. unfold ascii_text. repeat (constructor; [reflexivity |]). constructor. Qed.

Lemma accented_iban_rule : iban_rule uni_alpha uni_digit uni_alnum accented_iban.
Proof.
  unfold iban_rule. cbv zeta.
  change (normalize accented_iban) with (chars accented_iban).
  change (length (chars accented_iban)) with 10%nat.
  split; [lia |]. unfold chars_between.
  repeat split;
    try (intros i Hi; do 10 (destruct i as [| i]; [try lia; eexists; split; reflexivity |]);
         lia).
  intros k Hk. vm_compute in Hk. discriminate Hk.
Qed.

Lemma superscript_iban_rule : ¬ iban_rule is_alpha is_digit is_alnum superscript_iban.
Proof.
  intros (_ & _ & H & _). destruct (H 2%nat) as (c & Hc & Hd); [lia |].
  vm_compute in Hc. injection Hc as <-. discriminate Hd.
Qed.

End StructuralChecks.

(** C5. [validate_bic] accepts a text exactly when, after removing spaces
    and upper-casing, its length is 8 or 11, characters 1-4 and 5-6 are
    alphabetic, characters 7-8 are alphanumeric and characters 9-11, when
    present, are alphanumeric. "Alphabetic" and "alphanumeric" are the
    tests of [str.isalpha] and [str.isalnum], so that a BIC ending with an
    accented letter is accepted; on ASCII text they are the letters A-Z
    and the letters and digits. The normal form of the rule is computed
    from the alphabets, not by the calls of the validator. "BNPAFRPP" and
    "BNPAFRPPXXX" are accepted, also typed as "bnpa frpp" and
    "Bnpa Frpp Xxx", and "BNPAFRP" is rejected. *)
Theorem validate_bic_structural :
  (∀ s : string,
     fst (Validation.validate_bic s) = true
     ↔ Validation.bic_rule PyStr.uni_alpha PyStr.uni_alnum s)
  ∧ (∀ s : string, Validation.ascii_text s →
       fst (Validation.validate_bic s) = true
       ↔ Validation.bic_rule PyStr.is_alpha PyStr.is_alnum s)
  ∧ fst (Validation.validate_bic "BNPAFRPP") = true
  ∧ fst (Validation.validate_bic "BNPAFRPPXXX") = true
  ∧ fst (Validation.validate_bic "BNPAFRP") = false
  ∧ fst (Validation.validate_bic "bnpa frpp") = true
  ∧ fst (Validation.validate_bic "Bnpa Frpp Xxx") = true
  ∧ Validation.normalize "Bnpa Frpp Xxx" = PyStr.chars "BNPAFRPPXXX"
  ∧ fst (Validation.validate_bic Validation.accented_bic) = true.
Proof.
  split; [exact validate_bic_iff |].
  split; [intros s H; rewrite validate_bic_iff; now apply bic_rule_ascii |].
  repeat split; vm_compute; reflexivity.
Qed.

(** The rule at the lower-case, spaced spelling of a BIC. *)
Lemma validate_bic_structural_witness :
  Validation.ascii_text "bnpa frpp"
  ∧ Validation.bic_rule PyStr.is_alpha PyStr.is_alnum "bnpa frpp"
  ∧ Validation.bic_rule PyStr.uni_alpha PyStr.uni_alnum Validation.accented_bic.
Proof.
  assert (H : Validation.ascii_text "bnpa frpp").
  { unfold Validation.ascii_text. repeat (constructor; [reflexivity |]). constructor. }
  split; [exact H |].
  split.
  - apply (proj1 (proj2 validate_bic_structural) "bnpa frpp" H).
    vm_compute; reflexivity.
  - apply (proj1 validate_bic_structural Validation.accented_bic).
    vm_compute; reflexivity.
Defined.

(** C4 (as the code has it). [validate_iban] accepts a text exactly when,
    after removing spaces and upper-casing, it has at least 5 characters,
    characters 1-2 are capitals A-Z, characters 3-4 are digits in the sense
    of [str.isdigit], the rest is alphanumeric in the sense of
    [str.isalnum] and, if the country code is in the length table, the
    length is the table's. On ASCII text this is the rule of the claim:
    characters 1-2 alphabetic, 3-4 numeric, the rest alphanumeric. The
    normal form of the rule is computed from the alphabets, not by the
    calls of the validator. The 27-character French IBAN, also typed in
    lower case and in groups, and a 10-character IBAN of an unlisted
    country are accepted, "12ABCDEFGH" is rejected. *)
Theorem validate_iban_structural :
  (∀ s : string,
     fst (Validation.validate_iban s) = true
     ↔ Validation.iban_rule PyStr.is_upper PyStr.uni_digit PyStr.uni_alnum s)
  ∧ (∀ s : string, Validation.ascii_text s →
       fst (Validation.validate_iban s) = true
       ↔ Validation.iban_rule PyStr.is_alpha PyStr.is_digit PyStr.is_alnum s)
  ∧ PyStr.len "FR1420041010050500013M02606" = 27%nat
  ∧ fst (Validation.validate_iban "FR1420041010050500013M02606") = true
  ∧ Validation.country_lengths !! "XX" = None
  ∧ PyStr.len "XX12ABCDEF" = 10%nat
  ∧ fst (Validation.validate_iban "XX12ABCDEF") = true
  ∧ fst (Validation.validate_iban "12ABCDEFGH") = false
  ∧ fst (Validation.validate_iban Validation.grouped_iban) = true
  ∧ Validation.normalize Validation.grouped_iban
    = PyStr.chars "FR1420041010050500013M02606".
Proof.
  split; [exact validate_iban_iff |].
  split; [intros s H; rewrite validate_iban_iff; now apply iban_rule_ascii |].
  repeat split; vm_compute; reflexivity.
Qed.

(** The rule of the claim at the IBAN typed in lower case and in groups. *)
Lemma validate_iban_structural_witness :
  Validation.ascii_text Validation.grouped_iban
  ∧ Validation.iban_rule PyStr.is_alpha PyStr.is_digit PyStr.is_alnum
      Validation.grouped_iban.
Proof.
  split; [exact grouped_iban_ascii |].
  apply (proj1 (proj2 validate_iban_structural) Validation.grouped_iban
           grouped_iban_ascii).
  vm_compute; reflexivity.
Defined.

(** C4, against the claim as stated. With two accented capitals for the
    country, every part of the rule holds when "alphabetic" is read as
    [str.isalpha], and the code rejects the text: the country is tested
    against [A-Z]. With two superscript digits for the check digits, the
    rule fails when "numeric" is read as 0-9, and the code accepts the
    text: the check digits are tested with [str.isdigit]. *)
Lemma validate_iban_beyond_ascii :
  fst (Validation.validate_iban Validation.accented_iban) = false
  ∧ Validation.iban_rule PyStr.uni_alpha PyStr.uni_digit PyStr.uni_alnum
      Validation.accented_iban
  ∧ fst (Validation.validate_iban Validation.superscript_iban) = true
  ∧ ¬ Validation.iban_rule PyStr.is_alpha PyStr.is_digit PyStr.is_alnum
        Validation.superscript_iban.
Proof.
  split; [vm_compute; reflexivity |].
  split; [exact accented_iban_rule |].
  split; [vm_compute; reflexivity | exact superscript_iban_rule].
Qed.

(** ** Categorisation (src/categorization.py) *)

Section RegexFacts.
Import PyStr Regex.

Lemma special_is_escaped (c : ascii) :
  is_special c = true → Ascii.eqb c "b" = false ∧ is_alnum c = false.
Proof.
  destruct c as [b0 b1 b2 b3 b4 b5 b6 b7].
  destruct b0, b1, b2, b3, b4, b5, b6, b7; vm_compute; intros H;
    first [discriminate H | split; reflexivity].
Qed.

Lemma ordinary_is_literal (c : ascii) :
  is_special c = false → Ascii.eqb c "\" = false ∧ is_meta c = false.
Proof.
  destruct c as [b0 b1 b2 b3 b4 b5 b6 b7].
  destruct b0, b1, b2, b3, b4, b5, b6, b7; vm_compute; intros H;
    first [discriminate H | split; reflexivity].
Qed.

(** An escaped keyword compiles to its own characters, whatever follows. *)
Lemma parse_escaped (l rest : list ascii) :
  parse (flat_map (fun c => if is_special c then ["\"; c] else [c])%char l ++ rest)
  = (λ p, map Lit l ++ p)%list <$> parse rest.
Proof.
  induction l as [| c l IH]; simpl.
  - now destruct (parse rest).
  - destruct (is_special c) eqn:Hc.
    + destruct (special_is_escaped c Hc) as [Hb Ha].
      cbn [app parse]. change (Ascii.eqb "\" "\") with true. cbn iota.
      rewrite Hb, Ha, IH. now destruct (parse rest).
    + destruct (ordinary_is_literal c Hc) as [Hb Hm].
      cbn [app parse]. rewrite Hb, Hm, IH. now destruct (parse rest).
Qed.

End RegexFacts.

Section CategorisationFacts.
Import PyStr Regex Categorization.

(** The pattern the source builds never fails to compile, and what it
    compiles to has no word boundary: it is the keyword between two
    literal occurrences of the two characters backslash, [b]. *)
Lemma pattern_of_compiles (mot : string) :
  parse (chars (pattern_of mot)) = Some (map Lit (chars ("\b" ++ mot ++ "\b"))).
Proof.
  unfold pattern_of, escape. rewrite !chars_app, chars_of_chars.
  change (chars "\\b") with ["\"; "\"; "b"]%char.
  change (chars "\b") with ["\"; "b"]%char.
  cbn [app parse]. change (Ascii.eqb "\" "\") with true.
  change (Ascii.eqb "\" "b") with false. change (is_alnum "\") with false.
  change (Ascii.eqb "b" "\") with false. change (is_meta "b") with false.
  cbn iota. rewrite parse_escaped. cbn.
  now rewrite map_app.
Qed.

Lemma search_pattern_of (mot libelle : string) :
  search (pattern_of mot) libelle
  = Ok (search_from (map Lit (chars ("\b" ++ mot ++ "\b"))) None (chars libelle)).
Proof. unfold search. now rewrite pattern_of_compiles. Qed.

Lemma any_keyword_total (mots : list string) (libelle : string) :
  ∃ b, any_keyword mots libelle = Ok b.
Proof.
  induction mots as [| mot rest IH]; simpl; [eauto |].
  rewrite search_pattern_of. destruct (search_from _ _ _); eauto.
Qed.

Lemma first_category_total (t : table) (libelle : string) :
  ∃ o, first_category t libelle = Ok o.
Proof.
  induction t as [| [cat mots] rest IH]; simpl; [eauto |].
  destruct (any_keyword_total mots libelle) as [[] ->]; eauto.
Qed.

(** [categoriser_transaction] always returns a label. *)
Lemma categoriser_transaction_total libelle montant categories :
  ∃ label, categoriser_transaction libelle montant categories = Ok label.
Proof.
  unfold categoriser_transaction.
  destruct libelle as [[| c s] |]; eauto.
  match goal with |- context [first_category ?t ?l] =>
    destruct (first_category_total t l) as [[x |] ->] end; eauto.
Qed.

(** An empty or absent description gives the default label, whatever the
    amount and the table. *)
Lemma categoriser_transaction_empty montant categories :
  categoriser_transaction None montant categories = Ok "autre"
  ∧ categoriser_transaction (Some "") montant categories = Ok "autre".
Proof. split; reflexivity. Qed.

End CategorisationFacts.

(** C2. On the description "paiement loyer" and the default keyword table the
    code returns the default label "autre", although the keyword "loyer"
    occurs in it as a whole word and the rule of the specification gives
    "loyer": the pattern asks for the two characters backslash-b around the
    keyword, which only a description that contains them provides. *)
Theorem categoriser_transaction_misses_whole_word :
  ∀ montant : Float.t,
    Categorization.categoriser_transaction (Some "paiement loyer") montant None = Ok "autre"
    ∧ Categorization.spec_categorise (Some "paiement loyer")
        Categorization.CATEGORIES_PAR_DEFAUT = "loyer"
    ∧ Categorization.categoriser_transaction (Some "paiement \bloyer\b") montant None
      = Ok "loyer".
Proof. intros montant. repeat split; vm_compute; reflexivity. Qed.

(** ** Binary64 numbers *)

Section FloatFacts.
Import Float.

Lemma isnan_iff (x : t) : isnan x = true ↔ x = NaN.
Proof.
  split; [| now intros ->].
  unfold isnan, is_nan. rewrite FloatAxioms.eqb_spec. intros H.
  apply Prim2SF_inj. destruct (Prim2SF x) as [s | s | | s m e]; try reflexivity;
    exfalso; revert H; unfold SFeqb, SFcompare; try (destruct s; discriminate).
  destruct s; rewrite Z.compare_refl, Pos.compare_cont_refl; discriminate.
Qed.

Lemma sub_nan_l (m : t) : (NaN - m)%float = NaN.
Proof. apply Prim2SF_inj. rewrite sub_spec. reflexivity. Qed.

Lemma div_nan_l (s : t) : (NaN / s)%float = NaN.
Proof. apply Prim2SF_inj. rewrite div_spec. reflexivity. Qed.

Lemma gtb_nan_l (x : t) : gtb NaN x = false.
Proof.
  unfold gtb. rewrite ltb_spec. change (Prim2SF NaN) with S754_nan.
  unfold SFltb. now destruct (Prim2SF x).
Qed.

Lemma gtb_inf (x : t) : gtb x PInf = false.
Proof.
  unfold gtb. rewrite ltb_spec. change (Prim2SF PInf) with (S754_infinity false).
  unfold SFltb. destruct (Prim2SF x) as [s | s | | s m e]; try reflexivity; now destruct s.
Qed.

(** The order of two numbers, neither of them NaN. *)
Lemma SFcompare_le_lt (a b c : spec_float) :
  SFleb a b = true → SFltb b c = true → SFltb a c = true.
Proof.
  unfold SFleb, SFltb.
  destruct a as [sa | sa | | sa ma ea], b as [sb | sb | | sb mb eb],
           c as [sc | sc | | sc mc ec];
    try destruct sa; try destruct sb; try destruct sc; cbn; try congruence.
  all: destruct (Z.compare_spec ea eb), (Z.compare_spec eb ec), (Z.compare_spec ea ec);
    try congruence; try lia; subst.
  all: rewrite ?Pos.compare_cont_spec; cbn.
  all: destruct (Pos.compare_spec ma mb), (Pos.compare_spec mb mc), (Pos.compare_spec ma mc);
    cbn; try congruence; try lia.
Qed.

Lemma leb_ltb_trans (a b c : t) :
  leb a b = true → PrimFloat.ltb b c = true → PrimFloat.ltb a c = true.
Proof. unfold leb. rewrite leb_spec, !ltb_spec. apply SFcompare_le_lt. Qed.

Lemma gtb_monotone (x m m' : t) : leb m m' = true → gtb x m = false → gtb x m' = false.
Proof.
  intros Hle H. unfold gtb in *. destruct (PrimFloat.ltb m' x) eqn:E; [| reflexivity].
  now rewrite (leb_ltb_trans m m' x Hle E) in H.
Qed.

Lemma eqb_zero (s : t) : PrimFloat.eqb s 0 = true → ∃ b, Prim2SF s = S754_zero b.
Proof.
  rewrite FloatAxioms.eqb_spec. change (Prim2SF 0) with (S754_zero false).
  unfold SFeqb, SFcompare.
  destruct (Prim2SF s) as [b | b | | b m e]; try (now destruct b); eauto; discriminate.
Qed.

(** Division by a zero: NaN for a zero or a NaN, an infinity otherwise. *)
Lemma abs_div_zero (x s y : t) :
  PrimFloat.eqb s 0 = true → PrimFloat.ltb y PInf = true →
  gtb (abs (x / s)) y = gtb (abs x) 0.
Proof.
  intros Hs Hy. destruct (eqb_zero s Hs) as [b Hb].
  unfold gtb in *. rewrite !ltb_spec, !abs_spec, div_spec, Hb in *.
  change (Prim2SF PInf) with (S754_infinity false) in Hy.
  change (Prim2SF 0) with (S754_zero false).
  destruct (Prim2SF x) as [sx | sx | | sx mx ex]; cbn.
  - unfold SFltb. now destruct (Prim2SF y).
  - exact Hy.
  - unfold SFltb. now destruct (Prim2SF y).
  - exact Hy.
Qed.

End FloatFacts.

(** ** Frames and the store *)

Section PandasFacts.
Import Pandas.

Lemma mem_In (x : string) (l : list string) : PyStr.mem x l = true ↔ In x l.
Proof.
  unfold PyStr.mem. rewrite existsb_exists. split.
  - intros (y & Hy & E). apply String.eqb_eq in E. now subst.
  - intros H. exists x. split; [assumption | apply String.eqb_refl].
Qed.

Lemma mem_app_r (x : string) (l : list string) : PyStr.mem x (l ++ [x]) = true.
Proof. apply mem_In, in_or_app. right. now left. Qed.

Lemma bind_run {A B} (m : M A) (f : A → M B) (w : World) :
  (m ≫= f) w = match m w with
               | (Ok a, w') => f a w'
               | (Raise e, w') => (Raise e, w')
               end.
Proof. reflexivity. Qed.

Lemma read_ok (l : ref) (d : DataFrame) (w : World) :
  heap w !! l = Some d → read l w = (Ok d, w).
Proof. intros H. unfold read. now rewrite H. Qed.

Lemma getitem_ok (l : ref) (c : string) (d : DataFrame) (w : World) :
  heap w !! l = Some d → has_column c d = true →
  getitem l c w = (Ok (column c d), w).
Proof. intros H Hc. unfold getitem. rewrite bind_run, (read_ok l d w H), Hc. reflexivity. Qed.

Lemma setitem_ok (l : ref) (c : string) (vals : list cell) (d : DataFrame) (w : World) :
  heap w !! l = Some d → length vals = nrows d →
  setitem l c vals w
  = (Ok tt, mkWorld (<[l := set_column c vals d]> (heap w)) (stdout w) (log w)).
Proof.
  intros H Hl. unfold setitem. rewrite bind_run, (read_ok l d w H).
  now rewrite (proj2 (Nat.eqb_eq _ _) Hl).
Qed.

Lemma setitem_scalar_ok (l : ref) (c : string) (v : cell) (d : DataFrame) (w : World) :
  heap w !! l = Some d →
  setitem_scalar l c v w
  = (Ok tt, mkWorld (<[l := set_column c (replicate (nrows d) v) d]> (heap w))
                    (stdout w) (log w)).
Proof. intros H. unfold setitem_scalar. now rewrite bind_run, (read_ok l d w H). Qed.

Lemma getitem_mask_ok (l : ref) (mask : list bool) (d : DataFrame) (w : World) :
  heap w !! l = Some d → length mask = nrows d →
  getitem_mask l mask w
  = (Ok (length (heap w)), mkWorld (heap w ++ [mask_rows mask d]) (stdout w) (log w)).
Proof.
  intros H Hl. unfold getitem_mask. rewrite bind_run, (read_ok l d w H).
  now rewrite (proj2 (Nat.eqb_eq _ _) Hl).
Qed.

Lemma copy_ok (l : ref) (d : DataFrame) (w : World) :
  heap w !! l = Some d →
  copy l w = (Ok (length (heap w)), mkWorld (heap w ++ [d]) (stdout w) (log w)).
Proof. intros H. unfold copy. now rewrite bind_run, (read_ok l d w H). Qed.

Lemma drop_col_ok (l : ref) (c : string) (d : DataFrame) (w : World) :
  heap w !! l = Some d → has_column c d = true →
  drop_col l c w
  = (Ok (length (heap w)), mkWorld (heap w ++ [drop_column c d]) (stdout w) (log w)).
Proof. intros H Hc. unfold drop_col. now rewrite bind_run, (read_ok l d w H), Hc. Qed.

Lemma drop_inplace_ok (l : ref) (c : string) (d : DataFrame) (w : World) :
  heap w !! l = Some d → has_column c d = true →
  drop_inplace l c w
  = (Ok tt, mkWorld (<[l := drop_column c d]> (heap w)) (stdout w) (log w)).
Proof. intros H Hc. unfold drop_inplace. now rewrite bind_run, (read_ok l d w H), Hc. Qed.

(** *** Columns *)

Lemma get_set_cell (c : string) (v : cell) (r : Row) : get c (fields (set_cell c v r)) = v.
Proof. unfold get, set_cell. simpl. now rewrite lookup_insert_eq. Qed.


Lemma has_column_set_column (c : string) (vals : list cell) (d : DataFrame) :
  has_column c (set_column c vals d) = true.
Proof.
  unfold has_column, set_column, add_column_name. simpl.
  destruct (PyStr.mem c (columns d)) eqn:E; [exact E | apply mem_app_r].
Qed.

Lemma nrows_set_column (c : string) (vals : list cell) (d : DataFrame) :
  length vals = nrows d → nrows (set_column c vals d) = nrows d.
Proof. intros H. unfold nrows, set_column in *. simpl. rewrite length_zip_with. lia. Qed.

Lemma zip_with_map_same {A B C} (f : A → B → C) (g : A → B) (l : list A) :
  zip_with f l (map g l) = map (λ a, f a (g a)) l.
Proof. induction l; simpl; congruence. Qed.

Lemma column_set_column_rows (c : string) (g : Row → cell) (d : DataFrame) :
  column c (set_column c (map g (rows d)) d) = map g (rows d).
Proof.
  unfold column, set_column. simpl. rewrite zip_with_map_same, map_map.
  apply map_ext. intros r. apply get_set_cell.
Qed.

Lemma select_map_same (f : Row → Row) (b : Row → bool) (rs : list Row) :
  select (map f rs) (map b rs) = map f (List.filter b rs).
Proof.
  induction rs as [| r rs IH]; simpl; [reflexivity |].
  destruct (b r); simpl; now rewrite IH.
Qed.

Lemma drop_set_cell (c : string) (v : cell) (r : Row) :
  drop_cell c (set_cell c v r) = drop_cell c r.
Proof. unfold drop_cell, set_cell. simpl. now rewrite delete_insert_eq. Qed.

Lemma drop_cell_absent (c : string) (r : Row) : fields r !! c = None → drop_cell c r = r.
Proof. intros H. destruct r as [l fs]. unfold drop_cell. simpl in *. now rewrite delete_id. Qed.

Lemma numeric_Float (zs : list Float.t) : numeric (map Float zs) = Ok zs.
Proof. induction zs as [| z zs IH]; simpl; [reflexivity | now rewrite IH]. Qed.


Lemma filter_drop_column_other (c : string) (cols : list string) :
  ¬ In c cols → List.filter (λ c', negb (String.eqb c' c)) cols = cols.
Proof.
  induction cols as [| x cols IH]; simpl; [reflexivity |].
  intros H. destruct (String.eqb_spec x c) as [-> | _]; simpl.
  - exfalso. apply H. now left.
  - f_equal. apply IH. tauto.
Qed.

Lemma filter_drop_column_app (c : string) (cols : list string) :
  ¬ In c cols → List.filter (λ c', negb (String.eqb c' c)) (cols ++ [c]) = cols.
Proof.
  intros H. rewrite List.filter_app, (filter_drop_column_other c cols H). simpl.
  rewrite String.eqb_refl. simpl. apply app_nil_r.
Qed.

End PandasFacts.

(** ** Anomaly detection (src/fraud_detection.py) *)

Section FraudFacts.
Import Float Pandas FraudDetection.

Lemma numeric_cell_float (cs : list cell) (xs : list Float.t) :
  numeric cs = Ok xs → xs = map cell_float cs.
Proof.
  revert xs. induction cs as [| c cs IH]; simpl; intros xs H.
  - now inversion H.
  - destruct c as [f | s | b]; simpl in H; try discriminate;
      destruct (numeric cs) as [fs |]; try discriminate;
      inversion H; subst; simpl; f_equal; now apply IH.
Qed.

Lemma zscores_rows (col : string) (d : DataFrame) (xs : list Float.t) :
  numeric (column col d) = Ok xs →
  zscores xs = map (zscore_of col xs) (rows d).
Proof.
  intros H. pose proof (numeric_cell_float _ _ H) as E. unfold zscores.
  set (f := λ x, ((x - Nanops.nanmean xs) / Nanops.nanstd 0 xs)%float).
  rewrite E at 1. unfold column. rewrite !map_map. reflexivity.
Qed.

(** The guard: a new, empty frame. *)
Lemma detect_anomalies_guard (w : World) (df : ref) (d : DataFrame)
      (col : string) (t : Float.t) :
  heap w !! df = Some d →
  guarded col d →
  detect_anomalies df col t w
  = (Ok (length (heap w)), mkWorld (heap w ++ [empty_frame]) (stdout w) (log w)).
Proof.
  intros H Hdeg. unfold detect_anomalies. rewrite bind_run, (read_ok df d w H).
  destruct Hdeg as [-> | ->]; [reflexivity | now rewrite orb_true_r].
Qed.

(** The regular run, step by step: the copy is annotated in place, the
    suspects are selected into a new frame and the annotation is dropped
    in a third one. *)
Lemma detect_anomalies_regular (w : World) (df : ref) (d : DataFrame)
      (col : string) (t : Float.t) (xs : list Float.t) :
  heap w !! df = Some d →
  has_column col d = true →
  forallb isna (column col d) = false →
  numeric (column col d) = Ok xs →
  let annotated :=
    set_column "zscore" (map (λ r, Float (zscore_of col xs r)) (rows d)) d in
  let suspects :=
    mask_rows (map (λ r, gtb (PrimFloat.abs (zscore_of col xs r)) t) (rows d)) annotated in
  detect_anomalies df col t w
  = (Ok (S (S (length (heap w)))),
     mkWorld ((<[length (heap w) := annotated]> (heap w ++ [d]) ++ [suspects])
              ++ [drop_column "zscore" suspects])%list
             (stdout w) (log w)).
Proof.
  intros H Hc Hn Hx annotated suspects.
  unfold detect_anomalies. rewrite bind_run, (read_ok df d w H), Hc, Hn. cbn [negb orb].
  rewrite bind_run, (copy_ok df d w H).
  set (c := length (heap w)).
  set (w1 := mkWorld (heap w ++ [d]) (stdout w) (log w)).
  assert (H1 : heap w1 !! c = Some d).
  { subst w1 c. simpl. now rewrite lookup_app_r, Nat.sub_diag by lia. }
  rewrite bind_run, (getitem_ok c col d w1 H1 Hc).
  rewrite bind_run. unfold lift at 1. rewrite Hx.
  rewrite (zscores_rows col d xs Hx), map_map.
  rewrite bind_run, (setitem_ok c "zscore" _ d w1 H1)
    by (unfold nrows; now rewrite length_map).
  fold annotated.
  match goal with |- (_ ≫= _) ?W = _ => set (w2 := W) end.
  assert (H2 : heap w2 !! c = Some annotated).
  { subst w2. simpl. apply list_lookup_insert_eq. eapply lookup_lt_Some; eauto. }
  rewrite bind_run, (getitem_ok c "zscore" annotated w2 H2)
    by apply has_column_set_column.
  subst annotated. rewrite column_set_column_rows.
  set (annotated := set_column "zscore" _ d) in *.
  rewrite bind_run. unfold lift at 1.
  rewrite <- (map_map (zscore_of col xs) Float), numeric_Float, map_map.
  rewrite bind_run, (getitem_mask_ok c _ annotated w2 H2).
  2:{ subst annotated. rewrite nrows_set_column; unfold nrows; now rewrite !length_map. }
  fold suspects.
  match goal with |- _ ?W = _ => set (w3 := W) end.
  assert (H3 : heap w3 !! length (heap w2) = Some suspects).
  { subst w3. simpl. now rewrite lookup_app_r, Nat.sub_diag by lia. }
  rewrite (drop_col_ok (length (heap w2)) "zscore" suspects w3 H3)
    by apply has_column_set_column.
  subst w3 w2 w1 c. simpl. rewrite length_app, length_insert, length_app. simpl.
  repeat f_equal; lia.
Qed.

End FraudFacts.

Section OutlierFacts.
Import Float Pandas FraudDetection.

Lemma amounts_numeric (cs : list cell) :
  Forall is_amount cs → numeric cs = Ok (map cell_float cs).
Proof.
  induction 1 as [| c cs [v ->] _ IH]; [reflexivity |].
  simpl. now rewrite IH.
Qed.

(** On an amount, the test of the source is the rule of the specification:
    a null has the z-score NaN, which exceeds nothing. *)
Lemma flag_is_outlier (col : string) (xs : list Float.t) (t : Float.t) (r : Row) :
  is_amount (get col (fields r)) →
  gtb (PrimFloat.abs (zscore_of col xs r)) t
  = is_outlier (Nanops.nanmean xs) (Nanops.nanstd 0 xs) t (get col (fields r)).
Proof.
  intros [v Hv]. unfold zscore_of, is_outlier. rewrite Hv. cbn [cell_float].
  destruct (isnan v) eqn:E; [| reflexivity].
  apply isnan_iff in E as ->.
  rewrite sub_nan_l, div_nan_l. apply gtb_nan_l.
Qed.

(** With a zero deviation the test asks whether the value is off the mean. *)
Lemma flag_off_mean (col : string) (xs : list Float.t) (t : Float.t) (r : Row) :
  is_amount (get col (fields r)) →
  PrimFloat.eqb (Nanops.nanstd 0 xs) 0 = true →
  PrimFloat.ltb t PInf = true →
  gtb (PrimFloat.abs (zscore_of col xs r)) t
  = off_mean (Nanops.nanmean xs) (get col (fields r)).
Proof.
  intros [v Hv] Hs Ht. unfold zscore_of, off_mean. rewrite Hv. cbn [cell_float].
  now apply abs_div_zero.
Qed.

Lemma is_outlier_iff (m s t : Float.t) (c : cell) :
  is_outlier m s t c = true ↔
  ∃ v, c = Float v ∧ isnan v = false ∧ gtb (PrimFloat.abs ((v - m) / s)) t = true.
Proof.
  unfold is_outlier. split.
  - destruct c as [v | |]; try discriminate.
    rewrite andb_true_iff, negb_true_iff. eauto.
  - intros (v & -> & Hn & Hgt). now rewrite Hn, Hgt.
Qed.

Lemma filter_ext_In_rows (f g : Row → bool) (rs : list Row) :
  (∀ r, In r rs → f r = g r) → List.filter f rs = List.filter g rs.
Proof.
  induction rs as [| r rs IH]; simpl; intros H; [reflexivity |].
  rewrite (H r) by now left. rewrite IH; [reflexivity |]. intros; apply H; now right.
Qed.

Lemma column_amounts (col : string) (d : DataFrame) (r : Row) :
  Forall is_amount (column col d) → In r (rows d) → is_amount (get col (fields r)).
Proof.
  intros H Hr. rewrite List.Forall_forall in H. apply H.
  unfold column. apply in_map_iff. eauto.
Qed.

(** The rows of the result of a regular run. *)
Lemma result_rows (b : Row → bool) (g : Row → cell) (d : DataFrame) :
  rows (drop_column "zscore"
          (mask_rows (map b (rows d)) (set_column "zscore" (map g (rows d)) d)))
  = map (drop_cell "zscore") (List.filter b (rows d)).
Proof.
  unfold drop_column, mask_rows, set_column. simpl.
  rewrite zip_with_map_same, select_map_same, map_map.
  apply map_ext. intros r. apply drop_set_cell.
Qed.

(** The store after a regular run, read at the result and at the input. *)
Lemma regular_store (h : list DataFrame) (df : ref) (d a s res : DataFrame) :
  h !! df = Some d →
  ((<[length h := a]> (h ++ [d]) ++ [s]) ++ [res])%list !! S (S (length h)) = Some res
  ∧ ((<[length h := a]> (h ++ [d]) ++ [s]) ++ [res])%list !! df = Some d.
Proof.
  intros H. pose proof (lookup_lt_Some _ _ _ H) as Hlt.
  assert (L : length (<[length h := a]> (h ++ [d])%list) = S (length h)).
  { rewrite length_insert, length_app. simpl. lia. }
  split.
  - rewrite lookup_app_r; rewrite length_app, L; simpl; [| lia].
    now replace (S (length h) - (length h + 1))%nat with 0%nat by lia.
  - rewrite !lookup_app_l by (rewrite ?length_app, L; simpl; lia).
    rewrite list_lookup_insert_ne by lia. now rewrite lookup_app_l.
Qed.

End OutlierFacts.

Section DetectionResults.
Import Float Pandas FraudDetection.

(** A regular run on a column of amounts returns the rows the test of the
    source selects, for any reading [flag] of that test on the input rows. *)
Lemma detect_anomalies_selects (w : World) (df : ref) (d : DataFrame) (col : string)
      (t : Float.t) (flag : Row → bool) :
  heap w !! df = Some d →
  has_column col d = true →
  Forall is_amount (column col d) →
  forallb isna (column col d) = false →
  (∀ r, In r (rows d) →
        gtb (PrimFloat.abs (zscore_of col (amounts col d) r)) t = flag r) →
  ∃ r w' res,
    detect_anomalies df col t w = (Ok r, w')
    ∧ heap w' !! r = Some res
    ∧ heap w' !! df = Some d
    ∧ rows res = map (drop_cell "zscore") (List.filter flag (rows d))
    ∧ columns res
      = List.filter (λ c, negb (String.eqb c "zscore"))
                    (add_column_name "zscore" (columns d)).
Proof.
  intros H Hc Ha Hn Hflag.
  pose proof (amounts_numeric _ Ha) as Hx.
  eexists _, _, _. split; [apply (detect_anomalies_regular w df d col t _ H Hc Hn Hx) |].
  cbn [heap]. split; [apply (proj1 (regular_store _ _ _ _ _ _ H)) |].
  split; [apply (proj2 (regular_store _ _ _ _ _ _ H)) |]. split; [| reflexivity].
  rewrite result_rows. f_equal. apply filter_ext_In_rows. exact Hflag.
Qed.

(** A regular run on a column of amounts returns the outliers of the input. *)
Lemma detect_anomalies_rows (w : World) (df : ref) (d : DataFrame) (col : string)
      (t : Float.t) :
  heap w !! df = Some d →
  has_column col d = true →
  Forall is_amount (column col d) →
  forallb isna (column col d) = false →
  ∃ r w' res,
    detect_anomalies df col t w = (Ok r, w')
    ∧ heap w' !! r = Some res
    ∧ heap w' !! df = Some d
    ∧ rows res
      = map (drop_cell "zscore")
            (List.filter (λ row, is_outlier (mean_of col d) (stddev_of col d) t
                                            (get col (fields row)))
                         (rows d))
    ∧ columns res
      = List.filter (λ c, negb (String.eqb c "zscore"))
                    (add_column_name "zscore" (columns d)).
Proof.
  intros H Hc Ha Hn. apply detect_anomalies_selects; auto.
  intros r Hr. apply flag_is_outlier. eapply column_amounts; eauto.
Qed.

Lemma filter_none (f : Row → bool) (rs : list Row) :
  (∀ r, In r rs → f r = false) → List.filter f rs = [].
Proof.
  induction rs as [| r rs IH]; simpl; intros H; [reflexivity |].
  rewrite (H r) by now left. apply IH. intros; apply H; now right.
Qed.

(** A column that holds text makes the run raise, after the copy. *)
Lemma detect_anomalies_raises (w : World) (df : ref) (d : DataFrame) (col : string)
      (t : Float.t) (e : exn) :
  heap w !! df = Some d →
  has_column col d = true →
  forallb isna (column col d) = false →
  numeric (column col d) = Raise e →
  detect_anomalies df col t w
  = (Raise e, mkWorld (heap w ++ [d]) (stdout w) (log w)).
Proof.
  intros H Hc Hn Hx.
  unfold detect_anomalies. rewrite bind_run, (read_ok df d w H), Hc, Hn. cbn [negb orb].
  rewrite bind_run, (copy_ok df d w H).
  match goal with |- (_ ≫= _) ?W = _ => set (w1 := W) end.
  assert (H1 : heap w1 !! length (heap w) = Some d).
  { subst w1. simpl. now rewrite lookup_app_r, Nat.sub_diag by lia. }
  rewrite bind_run, (getitem_ok _ col d w1 H1 Hc).
  rewrite bind_run. unfold lift at 1. now rewrite Hx.
Qed.

(** Whatever the run does, the caller's frame object keeps its value. *)
Lemma detect_anomalies_input_unchanged (w : World) (df : ref) (d : DataFrame)
      (col : string) (t : Float.t) :
  heap w !! df = Some d →
  heap (snd (detect_anomalies df col t w)) !! df = Some d.
Proof.
  intros H.
  destruct (has_column col d) eqn:Hc;
    [destruct (forallb isna (column col d)) eqn:Hn |].
  - rewrite (detect_anomalies_guard w df d col t H) by (now right).
    simpl. now apply lookup_app_l_Some.
  - destruct (numeric (column col d)) as [xs | e] eqn:Hx.
    + rewrite (detect_anomalies_regular w df d col t xs H Hc Hn Hx).
      cbn [snd heap]. apply (proj2 (regular_store _ _ _ _ _ _ H)).
    + rewrite (detect_anomalies_raises w df d col t e H Hc Hn Hx).
      simpl. now apply lookup_app_l_Some.
  - rewrite (detect_anomalies_guard w df d col t H) by (now left).
    simpl. now apply lookup_app_l_Some.
Qed.

(** In a well-formed frame without a column "zscore", adding and dropping
    that column gives the rows and the columns back. *)
Lemma drop_zscore_id (d : DataFrame) (r : Row) :
  well_formed d → ¬ In "zscore"%string (columns d) → In r (rows d) →
  drop_cell "zscore" r = r.
Proof.
  intros Hwf Hz Hr. apply drop_cell_absent.
  destruct (fields r !! "zscore"%string) eqn:E; [| reflexivity].
  exfalso. apply Hz. apply (Hwf r Hr). eauto.
Qed.

Lemma columns_restored (cols : list string) :
  ¬ In "zscore"%string cols →
  List.filter (λ c, negb (String.eqb c "zscore")) (add_column_name "zscore" cols) = cols.
Proof.
  intros Hz. unfold add_column_name.
  destruct (PyStr.mem "zscore" cols) eqn:E.
  - apply mem_In in E. contradiction.
  - now apply filter_drop_column_app.
Qed.

(** A null is no outlier. *)
Lemma null_is_no_outlier (m s t : Float.t) (c : cell) :
  isna c = true → is_outlier m s t c = false.
Proof.
  destruct c as [v | |]; try reflexivity. cbn [isna is_outlier]. now intros ->.
Qed.

End DetectionResults.

(** ** Frames of one column "Montant" *)

Section SampleFacts.
Import Float Pandas FraudDetection.

Lemma get_amount_row (i : nat) (v : Float.t) :
  get "Montant" (fields (amount_row i v)) = Float v.
Proof. unfold get, amount_row. simpl. now rewrite lookup_singleton_eq. Qed.

Lemma drop_zscore_amount_row (i : nat) (v : Float.t) :
  drop_cell "zscore" (amount_row i v) = amount_row i v.
Proof. apply drop_cell_absent. unfold amount_row. simpl. now apply lookup_singleton_ne. Qed.

(** The run on a frame of amount rows, the flags being given by [flags]. *)
Lemma amount_rows_run (rs : list (nat * Float.t)) (t : Float.t) :
  let d := mkFrame ["Montant"] (map (λ '(i, v), amount_row i v) rs) in
  forallb (λ '(_, v), isnan v) rs = false →
  ∃ r w' res,
    detect_anomalies 0%nat "Montant" t (world_of d) = (Ok r, w')
    ∧ heap w' !! r = Some res
    ∧ rows res
      = map (λ '(i, v), amount_row i v)
            (List.filter
               (λ '(_, v), is_outlier (Nanops.nanmean (map snd rs))
                                      (Nanops.nanstd 0 (map snd rs)) t (Float v))
               rs).
Proof.
  intros d Hn.
  assert (Hcol : column "Montant" d = map (λ '(_, v), Float v) rs).
  { unfold column, d. cbn [rows]. rewrite map_map. apply map_ext.
    intros [i v]. apply get_amount_row. }
  assert (Ha : Forall is_amount (column "Montant" d)).
  { rewrite Hcol. apply List.Forall_forall. intros c Hc.
    apply in_map_iff in Hc as ([i v] & <- & _). now exists v. }
  assert (Hx : amounts "Montant" d = map snd rs).
  { unfold amounts. rewrite Hcol, map_map. apply map_ext. now intros [i v]. }
  assert (Hn' : forallb isna (column "Montant" d) = false).
  { rewrite Hcol, <- Hn. clear. induction rs as [| [i v] rs IH]; [reflexivity |].
    cbn [map forallb isna]. now rewrite IH. }
  destruct (detect_anomalies_rows (world_of d) 0%nat d "Montant" t eq_refl eq_refl Ha Hn')
    as (r & w' & res & Hrun & Hres & _ & Hrows & _).
  exists r, w', res. split; [exact Hrun |]. split; [exact Hres |].
  rewrite Hrows. unfold mean_of, stddev_of. rewrite Hx. unfold d. cbn [rows].
  generalize (Nanops.nanmean (map snd rs)) (Nanops.nanstd 0 (map snd rs)).
  intros m s. clear. induction rs as [| [i v] rs IH]; [reflexivity |].
  cbn [map List.filter]. rewrite get_amount_row.
  destruct (is_outlier m s t (Float v)); cbn [map];
    [rewrite drop_zscore_amount_row; f_equal |]; exact IH.
Qed.

End SampleFacts.

(** C1 (as the code has it). On a frame whose amount column exists and
    holds floats (numbers or nulls), [detect_anomalies] returns the input
    rows, less the temporary cell "zscore", whose non-null value [v]
    satisfies [|(v - mean) / stddev| > threshold], where [mean] and
    [stddev] are the mean and the population standard deviation of the
    non-null values and every operation is the binary64 one. *)
Theorem detect_anomalies_flags_outliers
    (w : Pandas.World) (df : Pandas.ref) (d : Pandas.DataFrame) (col : string)
    (t : Float.t) :
  Pandas.heap w !! df = Some d →
  Pandas.has_column col d = true →
  Forall FraudDetection.is_amount (Pandas.column col d) →
  let mean := FraudDetection.mean_of col d in
  let stddev := FraudDetection.stddev_of col d in
  ∃ r w' res,
    FraudDetection.detect_anomalies df col t w = (Ok r, w')
    ∧ Pandas.heap w' !! r = Some res
    ∧ Pandas.rows res
      = map (Pandas.drop_cell "zscore")
            (List.filter
               (λ row, FraudDetection.is_outlier mean stddev t
                         (Pandas.get col (Pandas.fields row)))
               (Pandas.rows d))
    ∧ ∀ c, FraudDetection.is_outlier mean stddev t c = true ↔
           ∃ v, c = Pandas.Float v ∧ Float.isnan v = false
                ∧ Float.gtb (PrimFloat.abs ((v - mean) / stddev)) t = true.
Proof.
  intros H Hc Ha mean stddev.
  destruct (forallb Pandas.isna (Pandas.column col d)) eqn:Hn.
  - (* every amount is null: the guard answers, and no cell is an outlier *)
    eexists _, _, _.
    split; [apply (detect_anomalies_guard w df d col t H); now right |].
    cbn [Pandas.heap].
    split; [now rewrite lookup_app_r, Nat.sub_diag by lia |].
    split; [| apply is_outlier_iff].
    rewrite filter_none; [reflexivity |].
    intros row Hrow. rewrite forallb_forall in Hn.
    apply null_is_no_outlier, Hn. unfold Pandas.column. apply in_map_iff. eauto.
  - destruct (detect_anomalies_rows w df d col t H Hc Ha Hn)
      as (r & w' & res & Hrun & Hres & _ & Hrows & _).
    exists r, w', res. repeat split; auto; apply is_outlier_iff.
Qed.

Section Samples.
Import Float Pandas FraudDetection.

Lemma sample_amounts : Forall is_amount (column "Montant" sample).
Proof.
  unfold column, sample. cbn [rows map]. rewrite !get_amount_row.
  repeat (constructor; [eexists; reflexivity |]). constructor.
Qed.

Lemma sample_not_null : forallb isna (column "Montant" sample) = false.
Proof. unfold column, sample. cbn [rows map]. now rewrite !get_amount_row. Qed.

(** The mean is 208 and the population deviation 396 (dividing by N - 1
    would give 442.7...); the z-score of 10 is -1/2, that of 1000 is 2. *)
Lemma sample_statistics :
  mean_of "Montant" sample = 208%float
  ∧ stddev_of "Montant" sample = 396%float
  ∧ ((10 - 208) / 396 = -0.5)%float
  ∧ ((1000 - 208) / 396 = 2)%float.
Proof.
  unfold mean_of, stddev_of, amounts, column, sample. cbn [rows map].
  rewrite !get_amount_row. repeat split; vm_compute; reflexivity.
Qed.

Lemma sample_outliers (t : Float.t) :
  map (drop_cell "zscore")
      (List.filter
         (λ row, is_outlier (mean_of "Montant" sample) (stddev_of "Montant" sample) t
                            (get "Montant" (fields row)))
         (rows sample))
  = ((if gtb 0.5 t
      then [amount_row 0 10; amount_row 1 10; amount_row 2 10; amount_row 3 10]
      else []) ++ (if gtb 2 t then [amount_row 4 1000] else []))%list.
Proof.
  destruct sample_statistics as (-> & -> & _).
  unfold sample. cbn [rows List.filter]. rewrite !get_amount_row.
  change (is_outlier 208 396 t (Float 10)) with (gtb 0.5 t).
  change (is_outlier 208 396 t (Float 1000)) with (gtb 2 t).
  destruct (gtb 0.5 t), (gtb 2 t); cbn [map app]; now rewrite ?drop_zscore_amount_row.
Qed.

End Samples.

(** On the sample, at threshold 1.5, the theorem selects the row of 1000. *)
Lemma detect_anomalies_flags_outliers_witness :
  Pandas.heap (FraudDetection.world_of FraudDetection.sample) !! 0%nat
  = Some FraudDetection.sample
  ∧ Pandas.has_column "Montant" FraudDetection.sample = true
  ∧ Forall FraudDetection.is_amount (Pandas.column "Montant" FraudDetection.sample)
  ∧ ∃ r w' res,
      FraudDetection.detect_anomalies 0 "Montant" 1.5
        (FraudDetection.world_of FraudDetection.sample) = (Ok r, w')
      ∧ Pandas.heap w' !! r = Some res
      ∧ Pandas.rows res = [FraudDetection.amount_row 4 1000].
Proof.
  split; [reflexivity |]. split; [reflexivity |].
  split; [exact sample_amounts |].
  destruct (detect_anomalies_flags_outliers
              (FraudDetection.world_of FraudDetection.sample) 0%nat
              FraudDetection.sample "Montant" 1.5%float
              eq_refl eq_refl sample_amounts)
    as (r & w' & res & Hrun & Hres & Hrows & _).
  exists r, w', res. split; [exact Hrun |]. split; [exact Hres |].
  rewrite Hrows, sample_outliers. reflexivity.
Defined.

(** C1, the example of the claim: on [10, 10, 10, 10, 1000] the mean is 208,
    the population deviation 396 and the z-score of 1000 exactly 2, so at
    threshold 3.0 the run returns no row: the row of 1000 is not flagged. *)
Lemma detect_anomalies_sample_threshold_3 :
  ∃ r w' res,
    FraudDetection.detect_anomalies 0 "Montant" 3
      (FraudDetection.world_of FraudDetection.sample) = (Ok r, w')
    ∧ Pandas.heap w' !! r = Some res
    ∧ Pandas.rows res = []
    ∧ ¬ In (FraudDetection.amount_row 4 1000) (Pandas.rows res)
    ∧ FraudDetection.mean_of "Montant" FraudDetection.sample = 208%float
    ∧ FraudDetection.stddev_of "Montant" FraudDetection.sample = 396%float
    ∧ ((1000 - 208) / 396 = 2)%float.
Proof.
  destruct (detect_anomalies_rows (FraudDetection.world_of FraudDetection.sample) 0%nat
              FraudDetection.sample "Montant" 3%float
              eq_refl eq_refl sample_amounts sample_not_null)
    as (r & w' & res & Hrun & Hres & _ & Hrows & _).
  rewrite sample_outliers in Hrows. cbn in Hrows.
  exists r, w', res. repeat split; auto; try apply sample_statistics.
  rewrite Hrows. intros [].
Qed.

(** At threshold 10.0 nothing is flagged either. *)
Lemma detect_anomalies_sample_threshold_10 :
  ∃ r w' res,
    FraudDetection.detect_anomalies 0 "Montant" 10
      (FraudDetection.world_of FraudDetection.sample) = (Ok r, w')
    ∧ Pandas.heap w' !! r = Some res
    ∧ Pandas.rows res = [].
Proof.
  destruct (detect_anomalies_rows (FraudDetection.world_of FraudDetection.sample) 0%nat
              FraudDetection.sample "Montant" 10%float
              eq_refl eq_refl sample_amounts sample_not_null)
    as (r & w' & res & Hrun & Hres & _ & Hrows & _).
  rewrite sample_outliers in Hrows. cbn in Hrows.
  exists r, w', res. auto.
Qed.

(** At the threshold the rounded z-score decides. For nine amounts of 100
    and one of 103.5 the exact z-score of 103.5 is 3, which does not exceed
    3.0; the computed mean is 100.34999999999999, the computed deviation
    1.0499999999999998 and the computed z-score 3.0000000000000058, and the
    row is returned at threshold 3.0. *)
Lemma detect_anomalies_rounds_at_threshold :
  FraudDetection.mean_of "Montant" FraudDetection.hundreds_sample
  = 100.34999999999999%float
  ∧ FraudDetection.stddev_of "Montant" FraudDetection.hundreds_sample
    = 1.0499999999999998%float
  ∧ ((103.5 - 100.34999999999999) / 1.0499999999999998 = 3.0000000000000058)%float
  ∧ ∃ r w' res,
      FraudDetection.detect_anomalies 0 "Montant" 3
        (FraudDetection.world_of FraudDetection.hundreds_sample) = (Ok r, w')
      ∧ Pandas.heap w' !! r = Some res
      ∧ Pandas.rows res = [FraudDetection.amount_row 9 103.5].
Proof.
  assert (Hcol : Pandas.column "Montant" FraudDetection.hundreds_sample
                 = map Pandas.Float
                       [100; 100; 100; 100; 100; 100; 100; 100; 100; 103.5]%float).
  { unfold Pandas.column, FraudDetection.hundreds_sample. cbn [Pandas.rows map].
    now rewrite !get_amount_row. }
  unfold FraudDetection.mean_of, FraudDetection.stddev_of, FraudDetection.amounts.
  rewrite Hcol.
  split; [vm_compute; reflexivity |]. split; [vm_compute; reflexivity |].
  split; [vm_compute; reflexivity |].
  destruct (amount_rows_run
              [(0%nat, 100%float); (1%nat, 100%float); (2%nat, 100%float);
               (3%nat, 100%float); (4%nat, 100%float); (5%nat, 100%float);
               (6%nat, 100%float); (7%nat, 100%float); (8%nat, 100%float);
               (9%nat, 103.5%float)] 3%float eq_refl)
    as (r & w' & res & Hrun & Hres & Hrows).
  exists r, w', res. split; [exact Hrun |]. split; [exact Hres |]. exact Hrows.
Qed.

Section DegenerateSamples.
Import Float Pandas FraudDetection.

Lemma constant_column :
  column "Montant" constant_sample = [Float 5; Float 5; Float 5].
Proof. unfold column, constant_sample. cbn [rows map]. now rewrite !get_amount_row. Qed.

Lemma constant_amounts : Forall is_amount (column "Montant" constant_sample).
Proof. rewrite constant_column. repeat (constructor; [eexists; reflexivity |]). constructor. Qed.

(** Three amounts of 5: the mean is 5 and the deviation 0.0. *)
Lemma constant_statistics :
  mean_of "Montant" constant_sample = 5%float
  ∧ stddev_of "Montant" constant_sample = 0%float.
Proof.
  unfold mean_of, stddev_of, amounts. rewrite constant_column.
  split; vm_compute; reflexivity.
Qed.

Lemma null_column : column "Montant" null_sample = [Float NaN].
Proof.
  unfold column, null_sample, get. cbn [rows map fields].
  now rewrite lookup_insert_eq.
Qed.

Lemma null_sample_guarded : guarded "Montant" null_sample.
Proof. right. now rewrite null_column. Qed.

Lemma tiny_column : column "Montant" tiny_sample = [Float 0; Float 1e-200].
Proof. unfold column, tiny_sample. cbn [rows map]. now rewrite !get_amount_row. Qed.

End DegenerateSamples.

(** C8 (as the code has it). When the column is missing or all its values
    are null, [detect_anomalies] returns the empty frame and raises
    nothing. Nothing guards the division by the standard deviation: on a
    column of amounts whose computed deviation is 0.0, at a threshold below
    plus infinity, the rows returned are those whose amount is off the
    computed mean (their z-score is an infinity; that of the others is
    NaN), so no row is returned when every amount equals the computed
    mean. *)
Theorem detect_anomalies_degenerate_inputs
    (w : Pandas.World) (df : Pandas.ref) (d : Pandas.DataFrame) (col : string)
    (t : Float.t) :
  Pandas.heap w !! df = Some d →
  (FraudDetection.guarded col d →
   ∃ r w',
     FraudDetection.detect_anomalies df col t w = (Ok r, w')
     ∧ Pandas.heap w' !! r = Some Pandas.empty_frame)
  ∧ (Pandas.has_column col d = true →
     forallb Pandas.isna (Pandas.column col d) = false →
     Forall FraudDetection.is_amount (Pandas.column col d) →
     PrimFloat.eqb (FraudDetection.stddev_of col d) 0 = true →
     PrimFloat.ltb t Float.PInf = true →
     ∃ r w' res,
       FraudDetection.detect_anomalies df col t w = (Ok r, w')
       ∧ Pandas.heap w' !! r = Some res
       ∧ Pandas.rows res
         = map (Pandas.drop_cell "zscore")
               (List.filter
                  (λ row, FraudDetection.off_mean (FraudDetection.mean_of col d)
                            (Pandas.get col (Pandas.fields row)))
                  (Pandas.rows d))
       ∧ ((∀ row, In row (Pandas.rows d) →
             FraudDetection.off_mean (FraudDetection.mean_of col d)
               (Pandas.get col (Pandas.fields row)) = false) →
          Pandas.rows res = [])).
Proof.
  intros H. split.
  - intros Hg. eexists _, _.
    split; [apply (detect_anomalies_guard w df d col t H Hg) |].
    cbn [Pandas.heap]. now rewrite lookup_app_r, Nat.sub_diag by lia.
  - intros Hc Hn Ha Hs Ht.
    destruct (detect_anomalies_selects w df d col t
                (λ row, FraudDetection.off_mean (FraudDetection.mean_of col d)
                          (Pandas.get col (Pandas.fields row)))
                H Hc Ha Hn)
      as (r & w' & res & Hrun & Hres & _ & Hrows & _).
    { intros row Hrow. apply flag_off_mean; auto. eapply column_amounts; eauto. }
    exists r, w', res. repeat split; auto.
    intros Hall. rewrite Hrows, filter_none; [reflexivity | exact Hall].
Qed.

(** A frame whose only amount is null: the empty frame. Three amounts of
    5: the deviation is 0.0, every amount is the mean and no row is
    returned at threshold 3.0. *)
Lemma detect_anomalies_degenerate_inputs_witness :
  FraudDetection.guarded "Montant" FraudDetection.null_sample
  ∧ (∃ r w',
       FraudDetection.detect_anomalies 0 "Montant" 3
         (FraudDetection.world_of FraudDetection.null_sample) = (Ok r, w')
       ∧ Pandas.heap w' !! r = Some Pandas.empty_frame)
  ∧ PrimFloat.eqb (FraudDetection.stddev_of "Montant" FraudDetection.constant_sample) 0
    = true
  ∧ ∃ r w' res,
      FraudDetection.detect_anomalies 0 "Montant" 3
        (FraudDetection.world_of FraudDetection.constant_sample) = (Ok r, w')
      ∧ Pandas.heap w' !! r = Some res
      ∧ Pandas.rows res = [].
Proof.
  split; [exact null_sample_guarded |].
  split.
  { exact (proj1 (detect_anomalies_degenerate_inputs
                    (FraudDetection.world_of FraudDetection.null_sample) 0%nat
                    FraudDetection.null_sample "Montant" 3%float eq_refl)
                 null_sample_guarded). }
  assert (Hs : PrimFloat.eqb
                 (FraudDetection.stddev_of "Montant" FraudDetection.constant_sample) 0
               = true).
  { now rewrite (proj2 constant_statistics). }
  split; [exact Hs |].
  destruct (proj2 (detect_anomalies_degenerate_inputs
                     (FraudDetection.world_of FraudDetection.constant_sample) 0%nat
                     FraudDetection.constant_sample "Montant" 3%float eq_refl)
                  eq_refl ltac:(now rewrite constant_column) constant_amounts Hs eq_refl)
    as (r & w' & res & Hrun & Hres & _ & Hnone).
  exists r, w', res. split; [exact Hrun |]. split; [exact Hres |].
  apply Hnone. rewrite (proj1 constant_statistics).
  unfold FraudDetection.constant_sample. cbn [Pandas.rows].
  intros row Hrow.
  repeat (destruct Hrow as [<- | Hrow]; [now rewrite get_amount_row |]).
  destruct Hrow.
Defined.

(** C8, against the claim as stated. Three amounts of 0.1 have the same
    value, yet their computed mean is 0.10000000000000002 and their
    computed deviation is not 0.0: every z-score is -1 and the three rows
    are returned at threshold 0.5. The amounts 0.0 and 1e-200 have the
    computed deviation 0.0, their squared deviations being too small for a
    binary64 number: the z-scores are the two infinities and both rows are
    returned at threshold 3.0. *)
Lemma detect_anomalies_flags_degenerate_columns :
  (FraudDetection.mean_of "Montant" FraudDetection.tenths_sample = 0.10000000000000002%float
   ∧ PrimFloat.eqb (FraudDetection.stddev_of "Montant" FraudDetection.tenths_sample) 0
     = false
   ∧ ((0.1 - FraudDetection.mean_of "Montant" FraudDetection.tenths_sample)
      / FraudDetection.stddev_of "Montant" FraudDetection.tenths_sample = -1)%float
   ∧ ∃ r w' res,
       FraudDetection.detect_anomalies 0 "Montant" 0.5
         (FraudDetection.world_of FraudDetection.tenths_sample) = (Ok r, w')
       ∧ Pandas.heap w' !! r = Some res
       ∧ Pandas.rows res = Pandas.rows FraudDetection.tenths_sample)
  ∧ (FraudDetection.stddev_of "Montant" FraudDetection.tiny_sample = 0%float
     ∧ ∃ r w' res,
         FraudDetection.detect_anomalies 0 "Montant" 3
           (FraudDetection.world_of FraudDetection.tiny_sample) = (Ok r, w')
         ∧ Pandas.heap w' !! r = Some res
         ∧ Pandas.rows res = Pandas.rows FraudDetection.tiny_sample).
Proof.
  split.
  - assert (Hcol : Pandas.column "Montant" FraudDetection.tenths_sample
                   = [Pandas.Float 0.1; Pandas.Float 0.1; Pandas.Float 0.1]).
    { unfold Pandas.column, FraudDetection.tenths_sample. cbn [Pandas.rows map].
      now rewrite !get_amount_row. }
    unfold FraudDetection.mean_of, FraudDetection.stddev_of, FraudDetection.amounts.
    rewrite Hcol.
    split; [vm_compute; reflexivity |]. split; [vm_compute; reflexivity |].
    split; [vm_compute; reflexivity |].
    destruct (amount_rows_run [(0%nat, 0.1%float); (1%nat, 0.1%float); (2%nat, 0.1%float)] 0.5%float eq_refl)
      as (r & w' & res & Hrun & Hres & Hrows).
    exists r, w', res. split; [exact Hrun |]. split; [exact Hres |]. exact Hrows.
  - unfold FraudDetection.stddev_of, FraudDetection.amounts. rewrite tiny_column.
    split; [vm_compute; reflexivity |].
    destruct (amount_rows_run [(0%nat, 0%float); (1%nat, 1e-200%float)] 3%float eq_refl)
      as (r & w' & res & Hrun & Hres & Hrows).
    exists r, w', res. split; [exact Hrun |]. split; [exact Hres |]. exact Hrows.
Qed.

(** C10 (as the code has it). [detect_anomalies] never changes the frame
    object it is given. When the frame is well formed, has no column named
    "zscore", and the amounts are floats (numbers or nulls), every row of
    the result is a row of the input; if moreover the amount column exists
    and holds at least one number, the result has exactly the columns of
    the input. When the amount column is missing or entirely null, the
    result is the empty frame, which has no row and no column. *)
Theorem detect_anomalies_frame
    (w : Pandas.World) (df : Pandas.ref) (d : Pandas.DataFrame) (col : string)
    (t : Float.t) :
  Pandas.heap w !! df = Some d →
  Pandas.heap (snd (FraudDetection.detect_anomalies df col t w)) !! df = Some d
  ∧ (Pandas.well_formed d →
     ¬ In "zscore" (Pandas.columns d) →
     Forall FraudDetection.is_amount (Pandas.column col d) →
     ∃ r w' res,
       FraudDetection.detect_anomalies df col t w = (Ok r, w')
       ∧ Pandas.heap w' !! r = Some res
       ∧ (∀ row, In row (Pandas.rows res) → In row (Pandas.rows d))
       ∧ (Pandas.has_column col d = true →
          forallb Pandas.isna (Pandas.column col d) = false →
          Pandas.columns res = Pandas.columns d))
  ∧ (FraudDetection.guarded col d →
     ∃ r w' res,
       FraudDetection.detect_anomalies df col t w = (Ok r, w')
       ∧ Pandas.heap w' !! r = Some res
       ∧ res = Pandas.empty_frame
       ∧ Pandas.rows res = []
       ∧ Pandas.columns res = []).
Proof.
  intros H. split; [now apply detect_anomalies_input_unchanged |].
  assert (Hguard :
    FraudDetection.guarded col d →
    ∃ r w' res,
      FraudDetection.detect_anomalies df col t w = (Ok r, w')
      ∧ Pandas.heap w' !! r = Some res
      ∧ res = Pandas.empty_frame
      ∧ Pandas.rows res = []
      ∧ Pandas.columns res = []).
  { intros Hg. eexists _, _, _.
    split; [apply (detect_anomalies_guard w df d col t H Hg) |].
    cbn [Pandas.heap].
    split; [now rewrite lookup_app_r, Nat.sub_diag by lia |].
    repeat split. }
  split; [| exact Hguard].
  intros Hwf Hz Ha.
  destruct (Pandas.has_column col d) eqn:Hc.
  2:{ destruct (Hguard (or_introl Hc)) as (r & w' & res & Hrun & Hres & -> & _).
      exists r, w', Pandas.empty_frame. repeat split; auto.
      - intros row [].
      - discriminate. }
  destruct (forallb Pandas.isna (Pandas.column col d)) eqn:Hn.
  { destruct (Hguard (or_intror Hn)) as (r & w' & res & Hrun & Hres & -> & _).
    exists r, w', Pandas.empty_frame. repeat split; auto.
    - intros row [].
    - discriminate. }
  destruct (detect_anomalies_rows w df d col t H Hc Ha Hn)
    as (r & w' & res & Hrun & Hres & _ & Hrows & Hcols).
  exists r, w', res. repeat split; auto.
  - intros row Hrow. rewrite Hrows in Hrow.
    apply in_map_iff in Hrow as (row' & <- & Hin).
    apply List.filter_In in Hin as [Hin _].
    now rewrite (drop_zscore_id d row' Hwf Hz Hin).
  - intros _ _. rewrite Hcols. now apply columns_restored.
Qed.

Section FrameSamples.
Import Float Pandas FraudDetection.

Lemma sample_well_formed : well_formed sample.
Proof.
  intros r Hr c. unfold sample in *. cbn [rows columns] in *.
  assert (E : ∃ i v, r = amount_row i v).
  { repeat (destruct Hr as [<- | Hr]; [eauto |]). destruct Hr. }
  destruct E as (i & v & ->). unfold amount_row. cbn [fields].
  destruct (decide (c = "Montant")) as [-> | Hne].
  - rewrite lookup_singleton_eq. split; [intros _; now left | eauto].
  - rewrite lookup_singleton_ne by congruence. split.
    + intros [x Hx]. discriminate.
    + intros [<- | []]. congruence.
Qed.

Lemma sample_no_zscore : ¬ In "zscore" (columns sample).
Proof. intros [H | []]. discriminate. Qed.

End FrameSamples.

(** On the sample at threshold 1.5: the input object is unchanged, the one
    returned row is an input row and the columns are the input's. On the
    frame whose only amount is null: the empty frame. *)
Lemma detect_anomalies_frame_witness :
  Pandas.heap (FraudDetection.world_of FraudDetection.sample) !! 0%nat
  = Some FraudDetection.sample
  ∧ Pandas.well_formed FraudDetection.sample
  ∧ ¬ In "zscore" (Pandas.columns FraudDetection.sample)
  ∧ Forall FraudDetection.is_amount (Pandas.column "Montant" FraudDetection.sample)
  ∧ Pandas.has_column "Montant" FraudDetection.sample = true
  ∧ forallb Pandas.isna (Pandas.column "Montant" FraudDetection.sample) = false
  ∧ Pandas.heap (snd (FraudDetection.detect_anomalies 0 "Montant" 1.5
                        (FraudDetection.world_of FraudDetection.sample))) !! 0%nat
    = Some FraudDetection.sample
  ∧ (∃ r w' res,
       FraudDetection.detect_anomalies 0 "Montant" 1.5
         (FraudDetection.world_of FraudDetection.sample) = (Ok r, w')
       ∧ Pandas.heap w' !! r = Some res
       ∧ (∀ row, In row (Pandas.rows res) → In row (Pandas.rows FraudDetection.sample))
       ∧ Pandas.columns res = ["Montant"])
  ∧ FraudDetection.guarded "Montant" FraudDetection.null_sample
  ∧ ∃ r w' res,
      FraudDetection.detect_anomalies 0 "Montant" 1.5
        (FraudDetection.world_of FraudDetection.null_sample) = (Ok r, w')
      ∧ Pandas.heap w' !! r = Some res
      ∧ res = Pandas.empty_frame.
Proof.
  split; [reflexivity |]. split; [exact sample_well_formed |].
  split; [exact sample_no_zscore |]. split; [exact sample_amounts |].
  split; [reflexivity |]. split; [exact sample_not_null |].
  destruct (detect_anomalies_frame
              (FraudDetection.world_of FraudDetection.sample) 0%nat
              FraudDetection.sample "Montant" 1.5%float eq_refl) as (Hin & Hout & _).
  split; [exact Hin |].
  split.
  { destruct (Hout sample_well_formed sample_no_zscore sample_amounts)
      as (r & w' & res & Hrun & Hres & Hrows & Hcols).
    exists r, w', res. split; [exact Hrun |]. split; [exact Hres |].
    split; [exact Hrows |]. exact (Hcols eq_refl sample_not_null). }
  split; [exact null_sample_guarded |].
  destruct (detect_anomalies_frame
              (FraudDetection.world_of FraudDetection.null_sample) 0%nat
              FraudDetection.null_sample "Montant" 1.5%float eq_refl) as (_ & _ & Hg).
  destruct (Hg null_sample_guarded) as (r & w' & res & Hrun & Hres & Hempty & _).
  exists r, w', res. split; [exact Hrun |]. split; [exact Hres |]. exact Hempty.
Defined.

(** C10, against the claim as stated: a frame with the columns "Montant" and
    "Devise" whose only amount is null gets back a frame without any column. *)
Lemma detect_anomalies_null_sample_loses_columns :
  ∃ r w' res,
    FraudDetection.detect_anomalies 0 "Montant" 3
      (FraudDetection.world_of FraudDetection.null_sample) = (Ok r, w')
    ∧ Pandas.heap w' !! r = Some res
    ∧ Pandas.columns res = []
    ∧ Pandas.columns res ≠ Pandas.columns FraudDetection.null_sample.
Proof.
  eexists _, _, _.
  split.
  { apply (detect_anomalies_guard _ 0%nat FraudDetection.null_sample);
      [reflexivity | exact null_sample_guarded]. }
  split; [reflexivity |]. split; [reflexivity | discriminate].
Qed.


(** ** Transaction validation (src/validation.py) *)

Section TransactionFacts.
Import PyStr Pandas Validation.
Variable float_repr : Float.t → string.

Lemma print_return (line : debug) (b : bool) (w : World) :
  (print [line];; mret b) w = (Ok b, mkWorld (heap w) (stdout w ++ [line]) (log w)).
Proof. reflexivity. Qed.

Lemma no_null_amount (row : gmap string cell) :
  has_null row = false → isna (get "Montant" row) = false.
Proof.
  unfold has_null, required_cols. cbn [existsb]. intros H.
  now apply orb_false_iff in H as [H _].
Qed.

(** [validate_transaction] computes the verdict, prints its reason and
    returns its boolean; it raises exactly when the amount is a [str] on a
    row whose required fields are all present and non-null. *)
Lemma validate_transaction_run (row : gmap string cell) (rules : Rules) (w : World) :
  validate_transaction float_repr row rules w
  = if raises_type_error row then (Raise TypeError, w)
    else (Ok (fst (verdict float_repr row rules)),
          mkWorld (heap w) (stdout w ++ [snd (verdict float_repr row rules)]) (log w)).
Proof.
  unfold validate_transaction, verdict, raises_type_error.
  fold (has_required row). fold (has_null row).
  destruct (has_required row); cbn [negb andb]; [| apply print_return].
  destruct (has_null row) eqn:Hnull; cbn [negb andb]; [apply print_return |].
  rewrite (no_null_amount row Hnull). cbn [negb].
  fold (threshold rules). fold (whitelist rules). fold (currency_of float_repr row).
  rewrite bind_run. unfold lift, cell_gt, check_order. cbn [List.find fails].
  destruct (get "Montant" row) as [f | s | [|]] eqn:Hm; cbn [to_float is_text cell_float];
    [| reflexivity | |].
  all: match goal with |- context [Float.gtb ?a ?b] => destruct (Float.gtb a b) end;
    [cbn [reason]; rewrite ?Hm; apply print_return |].
  all: destruct (negb (bool_decide (whitelist rules = []))
                 && negb (mem (currency_of float_repr row) (whitelist rules)));
    [apply print_return |].
  all: destruct (validate_iban (py_str float_repr (get "IBAN_Emetteur" row)))
         as [ok1 msg1] eqn:E1; cbn [fst snd]; destruct ok1; cbn [negb];
    [| cbn [reason]; rewrite E1; apply print_return].
  all: destruct (validate_iban (py_str float_repr (get "IBAN_Beneficiaire" row)))
         as [ok2 msg2] eqn:E2; cbn [fst snd]; destruct ok2; cbn [negb];
    [| cbn [reason]; rewrite E2; apply print_return].
  all: destruct (validate_bic (py_str float_repr (get "BIC_SWIFT" row)))
         as [ok3 msg3] eqn:E3; cbn [fst snd]; destruct ok3; cbn [negb];
    [| cbn [reason]; rewrite E3]; apply print_return.
Qed.

End TransactionFacts.

Section VerdictFacts.
Import PyStr Pandas Validation.
Variable float_repr : Float.t → string.

Lemma find_first {A} (f : A → bool) (before after : list A) (c : A) :
  (∀ c', In c' before → f c' = false) → f c = true →
  List.find f (before ++ c :: after) = Some c.
Proof.
  induction before as [| x before IH]; simpl; intros Hb Hc.
  - now rewrite Hc.
  - rewrite (Hb x) by now left. apply IH; auto.
Qed.

Lemma find_none {A} (f : A → bool) (l : list A) :
  (∀ c, In c l → f c = false) → List.find f l = None.
Proof.
  induction l as [| x l IH]; simpl; intros H; [reflexivity |].
  rewrite (H x) by now left. apply IH; auto.
Qed.

Lemma verdict_missing (row : gmap string cell) (rules : Rules) :
  has_required row = false →
  verdict float_repr row rules = (false, ColonnesManquantes required_cols).
Proof. intros H. unfold verdict. now rewrite H. Qed.

Lemma verdict_null (row : gmap string cell) (rules : Rules) :
  has_required row = true → has_null row = true →
  verdict float_repr row rules = (false, ValeursNulles).
Proof. intros H1 H2. unfold verdict. now rewrite H1, H2. Qed.

Lemma verdict_first_failure (row : gmap string cell) (rules : Rules)
      (before after : list check) (c : check) :
  has_required row = true → has_null row = false →
  check_order = (before ++ c :: after)%list →
  (∀ c', In c' before → fails float_repr row rules c' = false) →
  fails float_repr row rules c = true →
  verdict float_repr row rules = (false, reason float_repr row rules c).
Proof.
  intros H1 H2 Ho Hb Hc. unfold verdict. rewrite H1, H2, Ho. cbn [negb].
  now rewrite find_first.
Qed.

Lemma verdict_valid (row : gmap string cell) (rules : Rules) :
  has_required row = true → has_null row = false →
  (∀ c, fails float_repr row rules c = false) →
  verdict float_repr row rules = (true, TransactionValide).
Proof.
  intros H1 H2 Hc. unfold verdict. rewrite H1, H2. cbn [negb].
  now rewrite find_none.
Qed.

End VerdictFacts.

Section TransferSamples.
Import PyStr Pandas Validation.

Lemma large_transfer_verdict :
  verdict plain_repr large_transfer sample_rules
  = (false, MontantDepasse (Float 15000000) 10000000%float).
Proof.
  rewrite (verdict_first_failure plain_repr large_transfer sample_rules
             [] [CurrencyWhitelist; IssuerIBAN; BeneficiaryIBAN; BICFormat]
             AmountThreshold);
    try reflexivity.
  intros c' [].
Qed.

Lemma large_transfer_no_type_error : raises_type_error large_transfer = false.
Proof. reflexivity. Qed.

Lemma null_transfer_verdict :
  verdict plain_repr null_transfer sample_rules = (false, ValeursNulles).
Proof. apply verdict_null; reflexivity. Qed.

Lemma null_transfer_no_type_error : raises_type_error null_transfer = false.
Proof. reflexivity. Qed.

End TransferSamples.

(** C3 (as the code has it). [validate_transaction] returns the boolean
    of the verdict and prints its reason; it raises only on a row whose
    amount is text, all required fields being present and non-null. The
    verdict rejects a row with a required field missing, then a row with a
    required field null; otherwise the checks run in the order amount
    threshold, currency whitelist, issuer IBAN, beneficiary IBAN, BIC, the
    first failing check rejects the row with its own reason, and a row that
    fails none is valid. *)
Theorem validate_transaction_verdict
    (float_repr : Float.t → string) (row : gmap string Pandas.cell)
    (rules : Validation.Rules) (w : Pandas.World) :
  let v := Validation.verdict float_repr row rules in
  Validation.validate_transaction float_repr row rules w
  = (if Validation.raises_type_error row then (Raise TypeError, w)
     else (Ok (fst v),
           Pandas.mkWorld (Pandas.heap w) (Pandas.stdout w ++ [snd v]) (Pandas.log w)))
  ∧ (Validation.has_required row = false →
     v = (false, Pandas.ColonnesManquantes Validation.required_cols))
  ∧ (Validation.has_required row = true → Validation.has_null row = true →
     v = (false, Pandas.ValeursNulles))
  ∧ (Validation.has_required row = true → Validation.has_null row = false →
     ∀ before c after,
       Validation.check_order = (before ++ c :: after)%list →
       (∀ c', In c' before → Validation.fails float_repr row rules c' = false) →
       Validation.fails float_repr row rules c = true →
       v = (false, Validation.reason float_repr row rules c))
  ∧ (Validation.has_required row = true → Validation.has_null row = false →
     (∀ c, Validation.fails float_repr row rules c = false) →
     v = (true, Pandas.TransactionValide)).
Proof.
  intros v. subst v. split; [apply validate_transaction_run |].
  split; [apply verdict_missing |]. split; [apply verdict_null |].
  split; [| apply verdict_valid].
  intros H1 H2 before c after. now apply verdict_first_failure.
Qed.

(** The transfer of 15,000,000 under a maximum of 10,000,000: the amount
    check is the first of the order and fails, [False] is returned and the
    printed line names the amount and the maximum. *)
Lemma validate_transaction_verdict_witness :
  Validation.has_required Validation.large_transfer = true
  ∧ Validation.has_null Validation.large_transfer = false
  ∧ Validation.raises_type_error Validation.large_transfer = false
  ∧ Validation.fails Validation.plain_repr Validation.large_transfer
      Validation.sample_rules Validation.AmountThreshold = true
  ∧ Validation.validate_transaction Validation.plain_repr Validation.large_transfer
      Validation.sample_rules Validation.initial_world
    = (Ok false,
       Pandas.mkWorld []
         [Pandas.MontantDepasse (Pandas.Float 15000000) 10000000%float]
         []).
Proof.
  assert (Hfail : Validation.fails Validation.plain_repr Validation.large_transfer
                    Validation.sample_rules Validation.AmountThreshold = true).
  { cbn [Validation.fails].
    reflexivity. }
  split; [reflexivity |]. split; [reflexivity |]. split; [reflexivity |].
  split; [exact Hfail |].
  destruct (validate_transaction_verdict Validation.plain_repr Validation.large_transfer
              Validation.sample_rules Validation.initial_world)
    as (Hrun & _ & _ & Hfirst & _).
  rewrite Hrun, large_transfer_no_type_error.
  rewrite (Hfirst eq_refl eq_refl []
             Validation.AmountThreshold
             [Validation.CurrencyWhitelist; Validation.IssuerIBAN;
              Validation.BeneficiaryIBAN; Validation.BICFormat]
             eq_refl ltac:(intros c' []) Hfail).
  reflexivity.
Defined.

(** C3, against the claim as stated: the value returned for a row with a null
    amount and for a row over the maximum is the same bare [False]; the two
    reasons differ, and exist only as printed lines. *)
Lemma validate_transaction_returns_no_reason :
  fst (Validation.validate_transaction Validation.plain_repr Validation.null_transfer
         Validation.sample_rules Validation.initial_world)
  = fst (Validation.validate_transaction Validation.plain_repr Validation.large_transfer
           Validation.sample_rules Validation.initial_world)
  ∧ fst (Validation.validate_transaction Validation.plain_repr Validation.null_transfer
           Validation.sample_rules Validation.initial_world) = Ok false
  ∧ Pandas.stdout (snd (Validation.validate_transaction Validation.plain_repr
                          Validation.null_transfer Validation.sample_rules
                          Validation.initial_world))
    = [Pandas.ValeursNulles]
  ∧ Pandas.stdout (snd (Validation.validate_transaction Validation.plain_repr
                          Validation.large_transfer Validation.sample_rules
                          Validation.initial_world))
    = [Pandas.MontantDepasse (Pandas.Float 15000000) 10000000%float].
Proof.
  rewrite !validate_transaction_run.
  rewrite null_transfer_no_type_error, large_transfer_no_type_error.
  rewrite null_transfer_verdict, large_transfer_verdict.
  repeat split.
Qed.

(** ** Row validation over a frame (src/data_processor.py) *)

Section ValidateDataSteps.
Import PyStr Pandas Validation DataProcessor.
Variable validation_rules : Rules.
Variable float_repr : Float.t → string.

#[local] Abbreviation row_accepted := (row_accepted validation_rules float_repr).
#[local] Abbreviation checked := (checked validation_rules float_repr).
#[local] Abbreviation masked := (masked float_repr).

Lemma log_event_run (event : string) (w : World) :
  log_event event w = (Ok tt, mkWorld (heap w) (stdout w) (log w ++ [event])).
Proof. reflexivity. Qed.

Lemma add_missing_ok (df : ref) (cols : list string) (d : DataFrame) (w : World) :
  heap w !! df = Some d →
  add_missing df cols w
  = (Ok tt, mkWorld (<[df := fold_left fill_missing cols d]> (heap w)) (stdout w) (log w)).
Proof.
  revert d w. induction cols as [| col cols IH]; intros d w H.
  - simpl. rewrite list_insert_id by exact H. now destruct w.
  - cbn [add_missing fold_left]. rewrite bind_run, (read_ok df d w H), bind_run.
    unfold fill_missing at 2.
    pose proof (lookup_lt_Some _ _ _ H) as Hlt.
    destruct (has_column col d).
    + unfold mret, M_ret. now apply IH.
    + rewrite (setitem_scalar_ok df col _ d w H).
      match goal with |- add_missing _ _ ?W = _ =>
        rewrite (IH (set_column col (replicate (nrows d) (Float Float.NaN)) d) W)
      end; [simpl; now rewrite list_insert_insert_eq |].
      simpl. now apply list_lookup_insert_eq.
Qed.

(** One turn of the loop: the verdict of the row, an exception counting as
    a rejection; the store is not touched. *)
Lemma validate_row_ok (r : Row) (w : World) :
  ∃ out lg,
    validate_row validation_rules float_repr r w
    = (Ok (row_accepted r), mkWorld (heap w) (stdout w ++ out) (log w ++ lg)).
Proof.
  unfold validate_row, try_except, DataProcessor.row_accepted, accepted.
  rewrite bind_run, validate_transaction_run.
  destruct (raises_type_error (fields r)); cbn [negb andb].
  - exists [], ["validation_error"]. cbn. now rewrite app_nil_r.
  - destruct (verdict float_repr (fields r) validation_rules) as [[] line]; cbn.
    + exists [line], []. now rewrite app_nil_r.
    + exists [line], ["transaction_invalid"]. reflexivity.
Qed.

Lemma validate_rows_ok (rs : list Row) (w : World) :
  ∃ out lg,
    validate_rows validation_rules float_repr rs w
    = (Ok (map row_accepted rs), mkWorld (heap w) (stdout w ++ out) (log w ++ lg)).
Proof.
  revert w. induction rs as [| r rs IH]; intros w.
  - exists [], []. cbn. rewrite !app_nil_r. now destruct w.
  - cbn [validate_rows]. rewrite bind_run.
    destruct (validate_row_ok r w) as (out1 & lg1 & ->).
    rewrite bind_run.
    destruct (IH (mkWorld (heap w) (stdout w ++ out1) (log w ++ lg1)))
      as (out2 & lg2 & ->).
    exists (out1 ++ out2)%list, (lg1 ++ lg2)%list. cbn. now rewrite !app_assoc.
Qed.

Lemma column_length (c : string) (d : DataFrame) : length (column c d) = nrows d.
Proof. unfold column, nrows. apply length_map. Qed.

Lemma mask_column_ok (l : ref) (col : string) (d : DataFrame) (w : World) :
  heap w !! l = Some d →
  mask_column float_repr l col w
  = (Ok tt, mkWorld (<[l := masked col d]> (heap w)) (stdout w) (log w)).
Proof.
  intros H. unfold mask_column, DataProcessor.masked.
  rewrite bind_run, (read_ok l d w H).
  destruct (has_column col d) eqn:Hc.
  - rewrite bind_run, (getitem_ok l col d w H Hc).
    apply setitem_ok; [exact H |]. now rewrite length_map, column_length.
  - rewrite list_insert_id by exact H. now destruct w.
Qed.

Lemma cell_true_Bool (f : Row → bool) (rs : list Row) :
  map cell_true (map (λ r, Bool (f r)) rs) = map f rs.
Proof. rewrite map_map. reflexivity. Qed.

Lemma cell_false_Bool (f : Row → bool) (rs : list Row) :
  map (λ c, negb (cell_true c)) (map (λ r, Bool (f r)) rs) = map (λ r, negb (f r)) rs.
Proof. rewrite map_map. reflexivity. Qed.

End ValidateDataSteps.

Section ValidateDataRun.
Import PyStr Pandas Validation DataProcessor.
Variable validation_rules : Rules.
Variable float_repr : Float.t → string.

#[local] Abbreviation row_accepted := (row_accepted validation_rules float_repr).
#[local] Abbreviation checked := (checked validation_rules float_repr).
#[local] Abbreviation valid_part := (valid_part validation_rules float_repr).
#[local] Abbreviation invalid_part := (invalid_part validation_rules float_repr).
#[local] Abbreviation masked := (masked float_repr).

(** Rewrites a lookup in a store built from insertions and extensions. *)
Ltac store_lookup :=
  cbn [heap];
  repeat first
    [ rewrite list_lookup_insert_eq by (rewrite ?length_insert, ?length_app; simpl; lia)
    | rewrite list_lookup_insert_ne by lia
    | rewrite lookup_app_l by (rewrite ?length_insert, ?length_app; simpl; lia)
    | rewrite lookup_app_r by (rewrite ?length_insert, ?length_app; simpl; lia) ];
  rewrite ?length_insert, ?length_app; cbn [length];
  try match goal with
      | |- [_] !! ?i = Some _ => replace i with 0%nat by lia; reflexivity
      end;
  try reflexivity; try assumption.

(** The empty input: two new empty frames. *)
Lemma _validate_data_empty (df : ref) (d : DataFrame) (w : World) :
  heap w !! df = Some d → is_empty d = true →
  _validate_data validation_rules float_repr df w
  = (Ok (length (heap w), S (length (heap w))),
     mkWorld (heap w ++ [empty_frame] ++ [empty_frame]) (stdout w)
             (log w ++ ["validation_start"] ++ ["validation_skipped_empty"])).
Proof.
  intros H He. unfold _validate_data.
  rewrite bind_run, (read_ok df d w H), bind_run, log_event_run, He.
  unfold mbind, M_bind, mret, M_ret, log_event, new_frame. cbn.
  rewrite length_app. cbn. rewrite Nat.add_1_r, <- !app_assoc. reflexivity.
Qed.

(** The regular run: the input object receives the expected columns and
    the column "is_valid"; the two results are new objects. *)
Lemma _validate_data_trace (df : ref) (d : DataFrame) (w : World)
      (res : outcome (ref * ref) * World) :
  heap w !! df = Some d → is_empty d = false →
  _validate_data validation_rules float_repr df w = res →
  fst res = Ok (S (length (heap w)), S (S (S (length (heap w)))))
  ∧ heap (snd res) !! S (length (heap w)) = Some (valid_part d)
  ∧ heap (snd res) !! S (S (S (length (heap w)))) = Some (invalid_part d)
  ∧ heap (snd res) !! df = Some (checked d).
Proof.
  intros H He Hres. pose proof (lookup_lt_Some _ _ _ H) as Hlt.
  unfold _validate_data in Hres.
  rewrite bind_run, (read_ok df d w H), bind_run, log_event_run, He in Hres.
  cbv beta iota in Hres.
  match type of Hres with (_ ≫= _) ?W = _ => set (w1 := W) in Hres end.
  rewrite bind_run, (add_missing_ok df expected_cols d w1 H) in Hres.
  fold (with_expected d) in Hres. set (d1 := with_expected d) in *.
  match type of Hres with (_ ≫= _) ?W = _ => set (w2 := W) in Hres end.
  assert (H2 : heap w2 !! df = Some d1) by (subst w2 w1; store_lookup).
  rewrite bind_run, (read_ok df d1 w2 H2), bind_run in Hres.
  destruct (validate_rows_ok validation_rules float_repr (rows d1) w2)
    as (out & lg & Hvr).
  rewrite Hvr in Hres. clear Hvr.
  match type of Hres with (_ ≫= _) ?W = _ => set (w3 := W) in Hres end.
  assert (H3 : heap w3 !! df = Some d1) by exact H2.
  rewrite map_map in Hres.
  rewrite bind_run, (setitem_ok df "is_valid" _ d1 w3 H3) in Hres
    by (unfold nrows; now rewrite length_map).
  set (n := length (heap w)) in *.
  set (d2 := set_column "is_valid" (map (λ x, Bool (row_accepted x)) (rows d1)) d1) in *.
  assert (Hv2 : has_column "is_valid" d2 = true) by apply has_column_set_column.
  assert (Hn2 : nrows d2 = nrows d1).
  { apply nrows_set_column. unfold nrows. now rewrite length_map. }
  match type of Hres with (_ ≫= _) ?W = _ => set (w4 := W) in Hres end.
  assert (L4 : length (heap w4) = n).
  { subst w4 w3 w2 w1. cbn [heap]. now rewrite !length_insert. }
  assert (H4 : heap w4 !! df = Some d2) by (subst w4 w3 w2 w1; store_lookup).
  clearbody w4. clear w3 H3 w2 H2 w1 out lg.
  (* the valid rows, selected then copied *)
  rewrite bind_run, (getitem_ok df "is_valid" d2 w4 H4 Hv2) in Hres.
  unfold d2 in Hres at 1. rewrite column_set_column_rows, cell_true_Bool in Hres.
  fold d2 in Hres.
  set (sv := mask_rows (map row_accepted (rows d1)) d2) in *.
  rewrite bind_run, (getitem_mask_ok df _ d2 w4 H4) in Hres
    by (rewrite Hn2; unfold nrows; now rewrite length_map).
  fold sv in Hres. rewrite L4 in Hres.
  match type of Hres with (_ ≫= _) ?W = _ => set (w5 := W) in Hres end.
  assert (L5 : length (heap w5) = S n).
  { subst w5. cbn [heap]. rewrite length_app, L4. simpl. lia. }
  assert (H5 : heap w5 !! n = Some sv).
  { subst w5. cbn [heap]. rewrite lookup_app_r by lia. now rewrite L4, Nat.sub_diag. }
  assert (D5 : heap w5 !! df = Some d2).
  { subst w5. cbn [heap]. now rewrite lookup_app_l by lia. }
  clearbody w5. clear w4 L4 H4.
  rewrite bind_run, (copy_ok n sv w5 H5), L5 in Hres.
  match type of Hres with (_ ≫= _) ?W = _ => set (w6 := W) in Hres end.
  assert (L6 : length (heap w6) = S (S n)).
  { subst w6. cbn [heap]. rewrite length_app, L5. simpl. lia. }
  assert (A6 : heap w6 !! S n = Some sv).
  { subst w6. cbn [heap]. rewrite lookup_app_r by lia. now rewrite L5, Nat.sub_diag. }
  assert (D6 : heap w6 !! df = Some d2).
  { subst w6. cbn [heap]. now rewrite lookup_app_l by lia. }
  clearbody w6. clear w5 L5 H5 D5.
  (* the invalid rows, selected then copied *)
  rewrite bind_run, (getitem_ok df "is_valid" d2 w6 D6 Hv2) in Hres.
  unfold d2 in Hres at 1. rewrite column_set_column_rows, cell_false_Bool in Hres.
  fold d2 in Hres.
  set (si := mask_rows (map (λ r, negb (row_accepted r)) (rows d1)) d2) in *.
  rewrite bind_run, (getitem_mask_ok df _ d2 w6 D6) in Hres
    by (rewrite Hn2; unfold nrows; now rewrite length_map).
  fold si in Hres. rewrite L6 in Hres.
  match type of Hres with (_ ≫= _) ?W = _ => set (w7 := W) in Hres end.
  assert (L7 : length (heap w7) = S (S (S n))).
  { subst w7. cbn [heap]. rewrite length_app, L6. simpl. lia. }
  assert (H7 : heap w7 !! S (S n) = Some si).
  { subst w7. cbn [heap]. rewrite lookup_app_r by lia. now rewrite L6, Nat.sub_diag. }
  assert (A7 : heap w7 !! S n = Some sv).
  { subst w7. cbn [heap]. now rewrite lookup_app_l by lia. }
  assert (D7 : heap w7 !! df = Some d2).
  { subst w7. cbn [heap]. now rewrite lookup_app_l by lia. }
  clearbody w7. clear w6 L6 A6 D6.
  rewrite bind_run, (copy_ok (S (S n)) si w7 H7), L7 in Hres.
  match type of Hres with (_ ≫= _) ?W = _ => set (w8 := W) in Hres end.
  assert (L8 : length (heap w8) = S (S (S (S n)))).
  { subst w8. cbn [heap]. rewrite length_app, L7. simpl. lia. }
  assert (A8 : heap w8 !! S n = Some sv).
  { subst w8. cbn [heap]. now rewrite lookup_app_l by lia. }
  assert (B8 : heap w8 !! S (S (S n)) = Some si).
  { subst w8. cbn [heap]. rewrite lookup_app_r by lia. now rewrite L7, Nat.sub_diag. }
  assert (D8 : heap w8 !! df = Some d2).
  { subst w8. cbn [heap]. now rewrite lookup_app_l by lia. }
  clearbody w8. clear w7 L7 H7 A7 D7.
  (* "is_valid" dropped and the IBAN columns masked, in place *)
  rewrite bind_run, (drop_inplace_ok (S n) "is_valid" sv w8 A8 Hv2) in Hres.
  match type of Hres with (_ ≫= _) ?W = _ => set (w9 := W) in Hres end.
  assert (B9 : heap w9 !! S (S (S n)) = Some si).
  { subst w9. cbn [heap]. now rewrite list_lookup_insert_ne by lia. }
  rewrite bind_run, (drop_inplace_ok (S (S (S n))) "is_valid" si w9 B9 Hv2) in Hres.
  match type of Hres with (_ ≫= _) ?W = _ => set (w10 := W) in Hres end.
  assert (A10 : heap w10 !! S n = Some (drop_column "is_valid" sv)).
  { subst w10 w9. cbn [heap]. rewrite list_lookup_insert_ne by lia.
    apply list_lookup_insert_eq. lia. }
  rewrite bind_run, (mask_column_ok float_repr (S n) "IBAN_Emetteur" _ w10 A10) in Hres.
  match type of Hres with (_ ≫= _) ?W = _ => set (w11 := W) in Hres end.
  assert (B11 : heap w11 !! S (S (S n)) = Some (drop_column "is_valid" si)).
  { subst w11 w10 w9. cbn [heap]. rewrite list_lookup_insert_ne by lia.
    apply list_lookup_insert_eq. rewrite length_insert. lia. }
  rewrite bind_run,
    (mask_column_ok float_repr (S (S (S n))) "IBAN_Emetteur" _ w11 B11) in Hres.
  match type of Hres with (_ ≫= _) ?W = _ => set (w12 := W) in Hres end.
  assert (A12 : heap w12 !! S n
                = Some (masked "IBAN_Emetteur" (drop_column "is_valid" sv))).
  { subst w12 w11. cbn [heap]. rewrite list_lookup_insert_ne by lia.
    apply list_lookup_insert_eq. subst w10 w9. cbn [heap]. rewrite !length_insert. lia. }
  rewrite bind_run, (mask_column_ok float_repr (S n) "IBAN_Beneficiaire" _ w12 A12) in Hres.
  match type of Hres with (_ ≫= _) ?W = _ => set (w13 := W) in Hres end.
  assert (B13 : heap w13 !! S (S (S n))
                = Some (masked "IBAN_Emetteur" (drop_column "is_valid" si))).
  { subst w13 w12. cbn [heap]. rewrite list_lookup_insert_ne by lia.
    apply list_lookup_insert_eq. subst w11 w10 w9. cbn [heap]. rewrite !length_insert. lia. }
  rewrite bind_run,
    (mask_column_ok float_repr (S (S (S n))) "IBAN_Beneficiaire" _ w13 B13) in Hres.
  rewrite bind_run, log_event_run in Hres.
  subst res. split; [reflexivity |].
  unfold mret, M_ret. cbn [snd heap].
  subst w13 w12 w11 w10 w9. cbn [heap].
  split; [| split].
  - rewrite list_lookup_insert_ne by lia.
    apply list_lookup_insert_eq. rewrite !length_insert. lia.
  - apply list_lookup_insert_eq. rewrite !length_insert. lia.
  - rewrite !list_lookup_insert_ne by lia. exact D8.
Qed.

End ValidateDataRun.

Section PartitionFacts.
Import PyStr Pandas Validation DataProcessor.
Variable validation_rules : Rules.
Variable float_repr : Float.t → string.

#[local] Abbreviation row_accepted := (row_accepted validation_rules float_repr).
#[local] Abbreviation checked := (checked validation_rules float_repr).
#[local] Abbreviation valid_part := (valid_part validation_rules float_repr).
#[local] Abbreviation invalid_part := (invalid_part validation_rules float_repr).
#[local] Abbreviation masked := (masked float_repr).
#[local] Abbreviation finish := (finish float_repr).

Lemma labels_zip_with (c : string) (rs : list Row) (vals : list cell) :
  length vals = length rs →
  map label (zip_with (λ r v, set_cell c v r) rs vals) = map label rs.
Proof.
  revert vals. induction rs as [| r rs IH]; intros [| v vals] Hl; simpl in *;
    try reflexivity; try discriminate.
  f_equal. apply IH. lia.
Qed.

Lemma labels_set_column (c : string) (vals : list cell) (d : DataFrame) :
  length vals = nrows d → labels (set_column c vals d) = labels d.
Proof. intros Hl. unfold labels, set_column. simpl. now apply labels_zip_with. Qed.

Lemma labels_fill_missing (d : DataFrame) (col : string) :
  labels (fill_missing d col) = labels d.
Proof.
  unfold fill_missing. destruct (has_column col d); [reflexivity |].
  apply labels_set_column. apply length_replicate.
Qed.

Lemma labels_with_expected (d : DataFrame) : labels (with_expected d) = labels d.
Proof.
  unfold with_expected. generalize expected_cols. intros cols. revert d.
  induction cols as [| col cols IH]; intros d; simpl; [reflexivity |].
  now rewrite IH, labels_fill_missing.
Qed.

Lemma labels_masked (col : string) (d : DataFrame) : labels (masked col d) = labels d.
Proof.
  unfold DataProcessor.masked. destruct (has_column col d); [| reflexivity].
  apply labels_set_column. now rewrite length_map, column_length.
Qed.

Lemma labels_drop_column (c : string) (d : DataFrame) : labels (drop_column c d) = labels d.
Proof. unfold labels, drop_column. simpl. now rewrite map_map. Qed.

Lemma labels_finish (d : DataFrame) : labels (finish d) = labels d.
Proof. unfold DataProcessor.finish. now rewrite !labels_masked, labels_drop_column. Qed.

Lemma labels_selected (b : Row → bool) (d : DataFrame) :
  labels (mask_rows (map b (rows (with_expected d))) (checked d))
  = map label (List.filter b (rows (with_expected d))).
Proof.
  unfold labels, mask_rows, DataProcessor.checked, set_column. simpl.
  rewrite zip_with_map_same, select_map_same, map_map. reflexivity.
Qed.

Lemma labels_valid_part (d : DataFrame) :
  labels (valid_part d) = map label (List.filter row_accepted (rows (with_expected d))).
Proof. unfold DataProcessor.valid_part. now rewrite labels_finish, labels_selected. Qed.

Lemma labels_invalid_part (d : DataFrame) :
  labels (invalid_part d)
  = map label (List.filter (λ r, negb (row_accepted r)) (rows (with_expected d))).
Proof. unfold DataProcessor.invalid_part. now rewrite labels_finish, labels_selected. Qed.

Lemma filter_split_length {A} (f : A → bool) (l : list A) :
  (length (List.filter f l) + length (List.filter (λ a, negb (f a)) l) = length l)%nat.
Proof.
  induction l as [| a l IH]; simpl; [reflexivity |].
  destruct (f a); simpl; lia.
Qed.

Lemma filter_split_permutation {A} (f : A → bool) (l : list A) :
  Permutation (List.filter f l ++ List.filter (λ a, negb (f a)) l) l.
Proof.
  induction l as [| a l IH]; simpl; [constructor |].
  destruct (f a); simpl.
  - now constructor.
  - symmetry. apply Permutation_cons_app. now symmetry.
Qed.

(** A row is accepted exactly when [validate_transaction] returns [True]
    on it; a raising row is not. *)
Lemma row_accepted_iff (r : Row) (w : World) :
  row_accepted r = true ↔
  fst (validate_transaction float_repr (fields r) validation_rules w) = Ok true.
Proof.
  unfold DataProcessor.row_accepted, accepted. rewrite validate_transaction_run.
  destruct (raises_type_error (fields r)); cbn [negb andb fst].
  - split; discriminate.
  - destruct (fst (verdict float_repr (fields r) validation_rules));
      split; congruence.
Qed.

End PartitionFacts.

Section PartitionSamples.
Import PyStr Pandas Validation DataProcessor.

Lemma valid_transfer_verdict :
  verdict plain_repr valid_transfer sample_rules = (true, TransactionValide).
Proof.
  apply verdict_valid; try reflexivity.
  intros [| | | |]; reflexivity.
Qed.

Lemma valid_transfer_accepted :
  row_accepted sample_rules plain_repr (mkRow 0 valid_transfer) = true.
Proof.
  unfold row_accepted, accepted. cbn [fields].
  rewrite valid_transfer_verdict. reflexivity.
Qed.

Lemma large_transfer_rejected :
  row_accepted sample_rules plain_repr (mkRow 1 large_transfer) = false.
Proof.
  unfold row_accepted, accepted. cbn [fields].
  rewrite large_transfer_verdict. reflexivity.
Qed.

Lemma two_transfers_filled : with_expected two_transfers = two_transfers.
Proof. reflexivity. Qed.

End PartitionSamples.

(** C6 (as the code has it). For a frame that has at least one column, or
    no row, [_validate_data] returns two frames that partition the rows of
    the input, once the expected columns are filled in: the valid frame
    carries the labels of the rows on which [validate_transaction] returns
    [True], the invalid frame the labels of all the others, a row whose
    validation raises among them; the labels of the two together are those
    of the input, each as often as there, and the row counts add up. *)
Theorem _validate_data_partition
    (validation_rules : Validation.Rules) (float_repr : Float.t → string)
    (w : Pandas.World) (df : Pandas.ref) (d : Pandas.DataFrame) :
  Pandas.heap w !! df = Some d →
  Pandas.columns d ≠ [] ∨ Pandas.rows d = [] →
  let filled := DataProcessor.with_expected d in
  let ok := DataProcessor.row_accepted validation_rules float_repr in
  ∃ valid_df invalid_df w' dv di,
    DataProcessor._validate_data validation_rules float_repr df w
    = (Ok (valid_df, invalid_df), w')
    ∧ Pandas.heap w' !! valid_df = Some dv
    ∧ Pandas.heap w' !! invalid_df = Some di
    ∧ Pandas.labels filled = Pandas.labels d
    ∧ Pandas.labels dv = map Pandas.label (List.filter ok (Pandas.rows filled))
    ∧ Pandas.labels di
      = map Pandas.label (List.filter (λ r, negb (ok r)) (Pandas.rows filled))
    ∧ (∀ r w0, ok r = true ↔
         fst (Validation.validate_transaction float_repr (Pandas.fields r)
                validation_rules w0) = Ok true)
    ∧ (Pandas.nrows dv + Pandas.nrows di = Pandas.nrows d)%nat
    ∧ Permutation (Pandas.labels dv ++ Pandas.labels di) (Pandas.labels d).
Proof.
  intros H Hshape filled ok.
  assert (Hfilled : Pandas.labels filled = Pandas.labels d)
    by apply labels_with_expected.
  assert (Hcount : ∀ dv di,
    Pandas.labels dv = map Pandas.label (List.filter ok (Pandas.rows filled)) →
    Pandas.labels di
    = map Pandas.label (List.filter (λ r, negb (ok r)) (Pandas.rows filled)) →
    (Pandas.nrows dv + Pandas.nrows di = Pandas.nrows d)%nat
    ∧ Permutation (Pandas.labels dv ++ Pandas.labels di) (Pandas.labels d)).
  { intros dv di Hv Hi. split.
    - unfold Pandas.nrows.
      rewrite <- (length_map Pandas.label (Pandas.rows dv)),
              <- (length_map Pandas.label (Pandas.rows di)),
              <- (length_map Pandas.label (Pandas.rows d)).
      fold (Pandas.labels dv) (Pandas.labels di) (Pandas.labels d).
      rewrite Hv, Hi, <- Hfilled. unfold Pandas.labels. rewrite !length_map.
      apply filter_split_length.
    - rewrite Hv, Hi, <- Hfilled. unfold Pandas.labels. rewrite <- map_app.
      apply Permutation_map, filter_split_permutation. }
  destruct (Pandas.is_empty d) eqn:He.
  - assert (Hrows : Pandas.rows d = []).
    { destruct Hshape as [Hc | Hr]; [| exact Hr].
      unfold Pandas.is_empty in He.
      destruct (Pandas.columns d); [congruence |].
      destruct (Pandas.rows d); [reflexivity | discriminate]. }
    assert (Hnil : Pandas.rows filled = []).
    { unfold Pandas.labels in Hfilled. rewrite Hrows in Hfilled.
      now apply map_eq_nil in Hfilled. }
    eexists _, _, _, Pandas.empty_frame, Pandas.empty_frame.
    split; [apply (_validate_data_empty validation_rules float_repr df d w H He) |].
    cbn [Pandas.heap].
    split; [now rewrite lookup_app_r, Nat.sub_diag by lia |].
    split.
    { rewrite lookup_app_r by lia.
      now replace (S (length (Pandas.heap w)) - length (Pandas.heap w))%nat
        with 1%nat by lia. }
    split; [exact Hfilled |]. rewrite Hnil.
    split; [reflexivity |]. split; [reflexivity |].
    split; [intros r w0; apply row_accepted_iff |].
    apply Hcount; now rewrite Hnil.
  - destruct (DataProcessor._validate_data validation_rules float_repr df w)
      as [o w'] eqn:Hrun.
    destruct (_validate_data_trace validation_rules float_repr df d w (o, w') H He Hrun)
      as (Ho & Hv & Hi & _).
    cbn [fst snd] in Ho, Hv, Hi. subst o.
    eexists _, _, w', _, _. split; [reflexivity |].
    split; [exact Hv |]. split; [exact Hi |]. split; [exact Hfilled |].
    split; [apply labels_valid_part |]. split; [apply labels_invalid_part |].
    split; [intros r w0; apply row_accepted_iff |].
    apply Hcount; [apply labels_valid_part | apply labels_invalid_part].
Qed.

Lemma two_transfers_stored :
  Pandas.heap (FraudDetection.world_of DataProcessor.two_transfers) !! 0%nat
  = Some DataProcessor.two_transfers.
Proof. reflexivity. Qed.

Lemma two_transfers_shape :
  Pandas.columns DataProcessor.two_transfers ≠ []
  ∨ Pandas.rows DataProcessor.two_transfers = [].
Proof. left. discriminate. Qed.

(** A valid transfer and an oversized one: the first lands in the valid
    frame, the second in the invalid one. *)
Lemma _validate_data_partition_witness :
  Pandas.heap (FraudDetection.world_of DataProcessor.two_transfers) !! 0%nat
  = Some DataProcessor.two_transfers
  ∧ (Pandas.columns DataProcessor.two_transfers ≠ []
     ∨ Pandas.rows DataProcessor.two_transfers = [])
  ∧ ∃ valid_df invalid_df w' dv di,
      DataProcessor._validate_data Validation.sample_rules Validation.plain_repr 0
        (FraudDetection.world_of DataProcessor.two_transfers)
      = (Ok (valid_df, invalid_df), w')
      ∧ Pandas.heap w' !! valid_df = Some dv
      ∧ Pandas.heap w' !! invalid_df = Some di
      ∧ Pandas.labels dv = [0%nat]
      ∧ Pandas.labels di = [1%nat]
      ∧ (Pandas.nrows dv + Pandas.nrows di = 2)%nat.
Proof.
  split; [exact two_transfers_stored |]. split; [exact two_transfers_shape |].
  destruct (_validate_data_partition Validation.sample_rules Validation.plain_repr
              (FraudDetection.world_of DataProcessor.two_transfers) 0%nat
              DataProcessor.two_transfers two_transfers_stored two_transfers_shape)
    as (valid_df & invalid_df & w' & dv & di & Hrun & Hv & Hi & _ & Lv & Li & _ & Hn & _).
  exists valid_df, invalid_df, w', dv, di.
  rewrite two_transfers_filled in Lv, Li.
  unfold DataProcessor.two_transfers in Lv, Li. cbn [Pandas.rows List.filter] in Lv, Li.
  rewrite valid_transfer_accepted, large_transfer_rejected in Lv, Li.
  repeat split; assumption.
Defined.

(** C6, against the claim as stated: a frame with two rows and no column is
    "empty" for the guard of [_validate_data], which returns two empty
    frames: the two rows are in neither. *)
Lemma _validate_data_bare_rows_lost :
  ∃ valid_df invalid_df w' dv di,
    DataProcessor._validate_data Validation.sample_rules Validation.plain_repr 0
      (FraudDetection.world_of DataProcessor.bare_rows)
    = (Ok (valid_df, invalid_df), w')
    ∧ Pandas.heap w' !! valid_df = Some dv
    ∧ Pandas.heap w' !! invalid_df = Some di
    ∧ Pandas.nrows DataProcessor.bare_rows = 2%nat
    ∧ (Pandas.nrows dv + Pandas.nrows di = 0)%nat
    ∧ (Pandas.nrows dv + Pandas.nrows di ≠ Pandas.nrows DataProcessor.bare_rows)%nat.
Proof.
  eexists _, _, _, _, _.
  split.
  { apply (_validate_data_empty Validation.sample_rules Validation.plain_repr 0%nat
             DataProcessor.bare_rows); reflexivity. }
  cbn. repeat split; discriminate.
Qed.

(** ** The recovery ledger (src/data_processor.py) *)

Section LedgerFacts.
Import PyStr DataProcessor.
Variable project_root : Path.
Variable encodable : string → bool.

Lemma read_entries_chars (text : string) : read_entries text = entries_from [] (chars text).
Proof. reflexivity. Qed.

Lemma entries_from_app (l cur rest : list ascii) (nl : ascii) :
  is_newline nl = true →
  entries_from cur ((l ++ [nl]) ++ rest)
  = (entries_from cur (l ++ [nl]) ++ entries_from [] rest)%list.
Proof.
  intros Hnl. revert cur. induction l as [| c l IH]; intros cur.
  - unfold entries_from. cbn [app split_lines]. rewrite Hnl. cbn [map List.filter].
    destruct (negb (String.eqb (strip (of_chars (rev cur))) "")); reflexivity.
  - unfold entries_from in *. cbn [app split_lines].
    destruct (is_newline c).
    + cbn [map List.filter]. rewrite (IH []).
      destruct (negb (String.eqb (strip (of_chars (rev cur))) "")); reflexivity.
    + apply IH.
Qed.

Lemma split_lines_line (l cur : list ascii) (nl : ascii) :
  is_newline nl = true → Forall (fun c => is_newline c = false) l →
  split_lines cur (l ++ [nl]) = [(rev cur ++ l)%list; []].
Proof.
  intros Hnl Hl. revert cur. induction Hl as [| c l Hc _ IH]; intros cur.
  - cbn [app split_lines]. rewrite Hnl. now rewrite app_nil_r.
  - cbn [app split_lines]. rewrite Hc, IH. cbn [rev]. now rewrite <- app_assoc.
Qed.

Lemma newline_is_newline : is_newline (ascii_of_nat 10) = true.
Proof. reflexivity. Qed.

Lemma chars_newline : chars newline = [ascii_of_nat 10].
Proof. reflexivity. Qed.

(** A safe identifier written as a line is read back as itself. *)
Lemma read_entries_line (id : string) :
  line_safe id → read_entries (id ++ newline) = [id].
Proof.
  intros (Hne & Hstrip & Hnl).
  rewrite read_entries_chars, chars_app, chars_newline. unfold entries_from.
  rewrite (split_lines_line _ [] _ newline_is_newline Hnl).
  cbn [rev app map]. rewrite of_chars_chars, Hstrip.
  cbn [List.filter]. destruct (String.eqb_spec id ""); [contradiction |].
  reflexivity.
Qed.

(** Appending to a clean file adds the entries of what is appended. *)
Lemma read_entries_append (text more : string) :
  clean_text text → read_entries (text ++ more) = (read_entries text ++ read_entries more)%list.
Proof.
  intros [-> | [t ->]]; [reflexivity |].
  rewrite !read_entries_chars, !chars_app, chars_newline.
  apply entries_from_app. reflexivity.
Qed.

Lemma clean_text_append (text id : string) : clean_text ((text ++ id) ++ newline).
Proof. right. eauto. Qed.

Lemma string_app_assoc (a b c : string) : (a ++ b ++ c = (a ++ b) ++ c)%string.
Proof.
  rewrite <- (of_chars_chars (a ++ b ++ c)), <- (of_chars_chars ((a ++ b) ++ c)).
  now rewrite !chars_app, app_assoc.
Qed.

Lemma save_known (p : Path) (rel : Path) (st : Ledger) :
  relative_to p project_root = Ok rel →
  mem (str_path rel) (processed_files st) = true →
  _save_processed_file project_root encodable p st = st.
Proof. intros Hrel Hin. unfold _save_processed_file. now rewrite Hrel, Hin. Qed.

Lemma save_new_memory (p : Path) (rel : Path) (st : Ledger) :
  relative_to p project_root = Ok rel →
  mem (str_path rel) (processed_files st) = false →
  processed_files (_save_processed_file project_root encodable p st)
  = (processed_files st ++ [str_path rel])%list.
Proof.
  intros Hrel Hin. unfold _save_processed_file. rewrite Hrel, Hin. cbn.
  destruct (ledger_writable st); [| reflexivity].
  now destruct (encodable (str_path rel ++ newline)).
Qed.

Lemma save_new_file (p : Path) (rel : Path) (st : Ledger) :
  relative_to p project_root = Ok rel →
  mem (str_path rel) (processed_files st) = false →
  ledger_writable st = true →
  encodable (str_path rel ++ newline) = true →
  ledger_file (_save_processed_file project_root encodable p st)
  = Some (default "" (ledger_file st) ++ str_path rel ++ newline).
Proof.
  intros Hrel Hin Hw He. unfold _save_processed_file. rewrite Hrel, Hin. cbn.
  now rewrite Hw, He.
Qed.

(** A save does not change what can be read. *)
Lemma save_readable (p : Path) (st : Ledger) :
  ledger_readable (_save_processed_file project_root encodable p st) = ledger_readable st.
Proof.
  unfold _save_processed_file.
  destruct (relative_to p project_root) as [rel | e]; [| reflexivity].
  destruct (mem (str_path rel) (processed_files st)); [reflexivity |]. cbn.
  destruct (ledger_writable st); [| reflexivity].
  now destruct (encodable (str_path rel ++ newline)).
Qed.

(** After a save, the identifier is in memory. *)
Lemma save_in_memory (p : Path) (rel : Path) (st : Ledger) :
  relative_to p project_root = Ok rel →
  mem (str_path rel)
      (processed_files (_save_processed_file project_root encodable p st)) = true.
Proof.
  intros Hrel. destruct (mem (str_path rel) (processed_files st)) eqn:Hin.
  - now rewrite (save_known p rel st Hrel Hin).
  - rewrite (save_new_memory p rel st Hrel Hin). apply mem_app_r.
Qed.

Lemma save_nodup (p : Path) (st : Ledger) :
  NoDup (processed_files st) →
  NoDup (processed_files (_save_processed_file project_root encodable p st)).
Proof.
  intros Hnd. destruct (relative_to p project_root) as [rel | e] eqn:Hrel.
  - destruct (mem (str_path rel) (processed_files st)) eqn:Hin.
    + now rewrite (save_known p rel st Hrel Hin).
    + rewrite (save_new_memory p rel st Hrel Hin).
      apply NoDup_app. split; [exact Hnd |]. split.
      * intros x Hx Hk. apply list_elem_of_In in Hx, Hk.
        destruct Hk as [Hk | []]. subst x. apply mem_In in Hx. congruence.
      * apply NoDup_singleton.
  - unfold _save_processed_file. now rewrite Hrel.
Qed.

Lemma ledger_entries_file (st : Ledger) :
  ledger_entries st
  = match ledger_file st with
    | Some t => if ledger_readable st then read_entries t else []
    | None => []
    end.
Proof.
  unfold ledger_entries, _load_processed_files. cbn.
  destruct (ledger_file st); [| reflexivity]. now destruct (ledger_readable st).
Qed.

Lemma ledger_entries_default (st : Ledger) :
  ledger_readable st = true →
  ledger_entries st = read_entries (default "" (ledger_file st)).
Proof. intros Hr. rewrite ledger_entries_file, Hr. now destruct (ledger_file st). Qed.

(** A line that cannot be encoded leaves the entries of the file as they
    were: the file is at most created, empty. *)
Lemma save_not_encodable (p : Path) (rel : Path) (st : Ledger) :
  relative_to p project_root = Ok rel →
  mem (str_path rel) (processed_files st) = false →
  encodable (str_path rel ++ newline) = false →
  ledger_entries (_save_processed_file project_root encodable p st) = ledger_entries st
  ∧ errors (_save_processed_file project_root encodable p st)
    = (errors st ++ ["recovery_log_write_failed"])%list.
Proof.
  intros Hrel Hin He. rewrite !ledger_entries_file, save_readable.
  unfold _save_processed_file. rewrite Hrel, Hin. cbn. rewrite He.
  destruct (ledger_writable st); cbn; [| now split].
  split; [| reflexivity].
  destruct (ledger_file st); cbn; [reflexivity |]. now destruct (ledger_readable st).
Qed.

(** With a writable, consistent ledger and a safe identifier that can be
    encoded, a save keeps memory and file consistent and the identifier is
    among the entries of the file. *)
Lemma save_on_file (p : Path) (rel : Path) (st : Ledger) :
  relative_to p project_root = Ok rel →
  ledger_writable st = true → encodable (str_path rel ++ newline) = true →
  line_safe (str_path rel) → consistent st →
  In (str_path rel) (ledger_entries (_save_processed_file project_root encodable p st))
  ∧ consistent (_save_processed_file project_root encodable p st).
Proof.
  intros Hrel Hw He Hsafe (Hr & Hsync & Hclean).
  destruct (mem (str_path rel) (processed_files st)) eqn:Hin.
  - rewrite (save_known p rel st Hrel Hin). split; [| now repeat split].
    rewrite <- Hsync. now apply mem_In.
  - assert (E : ledger_entries (_save_processed_file project_root encodable p st)
                = (ledger_entries st ++ [str_path rel])%list).
    { rewrite ledger_entries_file, save_readable, Hr,
        (save_new_file p rel st Hrel Hin Hw He).
      rewrite read_entries_append by exact Hclean.
      now rewrite read_entries_line, <- ledger_entries_default. }
    split; [rewrite E; apply in_or_app; right; now left |].
    split; [now rewrite save_readable |]. split.
    + now rewrite E, (save_new_memory p rel st Hrel Hin), Hsync.
    + rewrite (save_new_file p rel st Hrel Hin Hw He). cbn [default].
      rewrite string_app_assoc. apply clean_text_append.
Qed.

End LedgerFacts.

Section LedgerSamples.
Import PyStr DataProcessor.

Lemma inside_file_relative :
  relative_to inside_file sample_root
  = Ok (mkPath "" ["data"; "input"; "transactions.csv"]).
Proof. reflexivity. Qed.

Lemma inside_file_safe : line_safe "data/input/transactions.csv".
Proof.
  split; [discriminate |]. split; [reflexivity |].
  apply List.Forall_forall. intros c Hc.
  repeat (destruct Hc as [<- | Hc]; [reflexivity |]). destruct Hc.
Qed.

Lemma new_ledger_consistent : consistent new_ledger.
Proof. split; [reflexivity |]. split; [reflexivity | now left]. Qed.

End LedgerSamples.

(** C7 (as the code has it). For a path [p] under the project root, after
    [_save_processed_file p] the identifier of [p] is in the in-memory set,
    [_is_processed p] returns [True], a second [_save_processed_file p]
    changes neither the memory nor the file, and a set without duplicates
    stays so. If moreover the ledger file can be read and written, agrees
    with the memory, and the identifier is a clean line that can be encoded
    in UTF-8, the identifier is among the entries of the file, memory and
    file still agree, the file holds no identifier twice if the memory did
    not, and a processor that loads the file afresh finds [p] processed.
    A new identifier that cannot be encoded is logged as a write failure
    and the entries of the file stay as they were. *)
Theorem save_processed_file_recorded_once
    (project_root p rel : DataProcessor.Path) (encodable : string → bool)
    (st : DataProcessor.Ledger) :
  DataProcessor.relative_to p project_root = Ok rel →
  let id := DataProcessor.str_path rel in
  let st1 := DataProcessor._save_processed_file project_root encodable p st in
  In id (DataProcessor.processed_files st1)
  ∧ DataProcessor._is_processed project_root p st1 = (true, st1)
  ∧ DataProcessor._save_processed_file project_root encodable p st1 = st1
  ∧ (NoDup (DataProcessor.processed_files st) →
     NoDup (DataProcessor.processed_files st1))
  ∧ (DataProcessor.ledger_writable st = true →
     encodable (id ++ PyStr.newline) = true →
     DataProcessor.line_safe id →
     DataProcessor.consistent st →
     In id (DataProcessor.ledger_entries st1)
     ∧ DataProcessor.consistent st1
     ∧ (NoDup (DataProcessor.processed_files st) →
        NoDup (DataProcessor.ledger_entries st1))
     ∧ fst (DataProcessor._is_processed project_root p
              (DataProcessor._load_processed_files st1)) = true)
  ∧ (encodable (id ++ PyStr.newline) = false →
     ¬ In id (DataProcessor.processed_files st) →
     DataProcessor.ledger_entries st1 = DataProcessor.ledger_entries st
     ∧ DataProcessor.errors st1
       = (DataProcessor.errors st ++ ["recovery_log_write_failed"])%list).
Proof.
  intros Hrel id st1.
  pose proof (save_in_memory project_root encodable p rel st Hrel) as Hmem.
  fold id st1 in Hmem.
  split; [now apply mem_In |].
  split; [unfold DataProcessor._is_processed; now rewrite Hrel; fold id; rewrite Hmem |].
  split; [now apply (save_known project_root encodable p rel st1 Hrel) |].
  split; [apply save_nodup |].
  split.
  - intros Hw He Hsafe Hcons.
    destruct (save_on_file project_root encodable p rel st Hrel Hw He Hsafe Hcons)
      as [Hin Hc].
    fold st1 in Hin, Hc. split; [exact Hin |]. split; [exact Hc |].
    split.
    + intros Hnd. destruct Hc as (_ & <- & _). now apply save_nodup.
    + unfold DataProcessor._is_processed. rewrite Hrel. cbn [fst].
      apply mem_In. exact Hin.
  - intros He Hnew. apply (save_not_encodable project_root encodable p rel st Hrel); auto.
    fold id. destruct (PyStr.mem id (DataProcessor.processed_files st)) eqn:E;
      [| reflexivity].
    exfalso. apply Hnew. now apply mem_In.
Qed.

(** A first save on a new ledger: one line in the file, one entry in memory. *)
Lemma save_processed_file_recorded_once_witness :
  DataProcessor.relative_to DataProcessor.inside_file DataProcessor.sample_root
  = Ok (DataProcessor.mkPath "" ["data"; "input"; "transactions.csv"])
  ∧ DataProcessor.ledger_writable DataProcessor.new_ledger = true
  ∧ DataProcessor.utf8 ("data/input/transactions.csv" ++ PyStr.newline) = true
  ∧ DataProcessor.line_safe "data/input/transactions.csv"
  ∧ DataProcessor.consistent DataProcessor.new_ledger
  ∧ NoDup (DataProcessor.processed_files DataProcessor.new_ledger)
  ∧ let st1 := DataProcessor._save_processed_file DataProcessor.sample_root
                 DataProcessor.utf8 DataProcessor.inside_file DataProcessor.new_ledger in
    DataProcessor.processed_files st1 = ["data/input/transactions.csv"]
    ∧ DataProcessor.ledger_file st1
      = Some ("data/input/transactions.csv" ++ PyStr.newline)
    ∧ In "data/input/transactions.csv" (DataProcessor.processed_files st1)
    ∧ DataProcessor._is_processed DataProcessor.sample_root DataProcessor.inside_file st1
      = (true, st1)
    ∧ DataProcessor._save_processed_file DataProcessor.sample_root DataProcessor.utf8
        DataProcessor.inside_file st1 = st1
    ∧ NoDup (DataProcessor.processed_files st1)
    ∧ In "data/input/transactions.csv" (DataProcessor.ledger_entries st1)
    ∧ fst (DataProcessor._is_processed DataProcessor.sample_root
             DataProcessor.inside_file (DataProcessor._load_processed_files st1)) = true.
Proof.
  split; [exact inside_file_relative |]. split; [reflexivity |]. split; [reflexivity |].
  split; [exact inside_file_safe |]. split; [exact new_ledger_consistent |].
  split; [constructor |].
  destruct (save_processed_file_recorded_once
              DataProcessor.sample_root DataProcessor.inside_file
              (DataProcessor.mkPath "" ["data"; "input"; "transactions.csv"])
              DataProcessor.utf8 DataProcessor.new_ledger inside_file_relative)
    as (Hin & Hproc & Hagain & Hnd & Hfile & _).
  destruct (Hfile eq_refl eq_refl inside_file_safe new_ledger_consistent)
    as (Hentry & _ & _ & Hnext).
  split; [reflexivity |]. split; [reflexivity |].
  split; [exact Hin |]. split; [exact Hproc |]. split; [exact Hagain |].
  split; [apply Hnd; constructor |]. split; [exact Hentry | exact Hnext].
Defined.

(** C7, against the claim as stated: for a file outside the project root the
    relative identifier does not exist; the save records nothing, in memory
    or on file, and [_is_processed] answers [False]. *)
Lemma save_processed_file_outside_root :
  let st1 := DataProcessor._save_processed_file DataProcessor.sample_root
               DataProcessor.utf8 DataProcessor.outside_file DataProcessor.new_ledger in
  DataProcessor.relative_to DataProcessor.outside_file DataProcessor.sample_root
  = Raise ValueError
  ∧ DataProcessor.processed_files st1 = []
  ∧ DataProcessor.ledger_file st1 = None
  ∧ DataProcessor.errors st1 = ["recovery_log_write_failed"]
  ∧ fst (DataProcessor._is_processed DataProcessor.sample_root
           DataProcessor.outside_file st1) = false.
Proof. repeat split. Qed.

(* ===================================================================== *)
(** * Further properties                                                  *)
(* ===================================================================== *)

(** ** Masking, for any number of characters shown (src/utils.py) *)

Section MoreMaskFacts.
Import PyStr Utils.

Lemma chars_inj (a b : string) : chars a = chars b → a = b.
Proof. intros H. now rewrite <- (of_chars_chars a), <- (of_chars_chars b), H. Qed.

Lemma len_positive (s : string) : s ≠ "" → (0 < len s)%nat.
Proof. destruct s; [congruence | unfold len; simpl; lia]. Qed.

(** A string no longer than the number of characters to show. *)
Lemma mask_short (s : string) (k : Z) :
  (Z.of_nat (len s) <= k)%Z →
  chars (mask_sensitive_data s k) = replicate (len s) "*"%char.
Proof.
  intros Hk. unfold mask_sensitive_data.
  destruct (String.eqb_spec s "") as [-> | _]; [reflexivity |].
  destruct (Z.leb_spec (Z.of_nat (len s)) k); [| lia].
  now rewrite chars_repeat_char, Nat2Z.id.
Qed.

(** A longer string, the count being positive. *)
Lemma mask_tail (s : string) (k : Z) :
  (1 <= k < Z.of_nat (len s))%Z →
  chars (mask_sensitive_data s k)
  = (replicate (len s - Z.to_nat k) "*"%char ++ drop (len s - Z.to_nat k) (chars s))%list.
Proof.
  intros Hk. replace k with (Z.of_nat (Z.to_nat k)) at 1 by lia.
  apply mask_long. lia.
Qed.

Lemma mask_length (s : string) (k : Z) :
  (1 <= k)%Z → len (mask_sensitive_data s k) = len s.
Proof.
  intros Hk. unfold len at 1.
  destruct (Z.le_gt_cases (Z.of_nat (len s)) k) as [Hs | Hs].
  - rewrite (mask_short s k Hs). apply length_replicate.
  - rewrite (mask_tail s k) by lia.
    rewrite length_app, length_replicate, length_drop. unfold len. lia.
Qed.

(** A count of zero or less: the stars are followed by the input from
    position [-k] on. *)
Lemma mask_nonpositive (s : string) (k : Z) :
  s ≠ "" → (k <= 0)%Z →
  mask_sensitive_data s k
  = repeat_char "*" (Z.of_nat (len s) - k) ++ of_chars (drop (Z.to_nat (- k)) (chars s)).
Proof.
  intros Hs Hk. pose proof (len_positive s Hs) as Hl. unfold mask_sensitive_data.
  destruct (String.eqb_spec s "") as [-> | _]; [congruence |].
  destruct (Z.leb_spec (Z.of_nat (len s)) k); [lia |].
  unfold slice_from_int. destruct (Z.ltb_spec (- k) 0); [lia | reflexivity].
Qed.

End MoreMaskFacts.

(** X1. Whatever the positive number [k] of characters to show,
    [mask_sensitive_data s k] has the length of [s] and holds a star at every
    position but the last [k]; a string of at most [k] characters becomes
    stars only, and a longer one keeps its last [k] characters. *)
Theorem mask_sensitive_data_shape (s : string) (k : Z) :
  (1 <= k)%Z →
  let masked := PyStr.chars (Utils.mask_sensitive_data s k) in
  length masked = PyStr.len s
  ∧ (∀ i : nat, (Z.of_nat i + k < Z.of_nat (PyStr.len s))%Z → masked !! i = Some "*"%char)
  ∧ ((Z.of_nat (PyStr.len s) <= k)%Z → masked = replicate (PyStr.len s) "*"%char)
  ∧ ((k < Z.of_nat (PyStr.len s))%Z →
     drop (PyStr.len s - Z.to_nat k) masked
     = drop (PyStr.len s - Z.to_nat k) (PyStr.chars s)).
Proof.
  intros Hk masked. subst masked.
  split; [exact (mask_length s k Hk) |].
  split; [| split; [apply mask_short |]].
  - intros i Hi. rewrite (mask_tail s k) by lia.
    rewrite lookup_app_l by (rewrite length_replicate; lia).
    apply lookup_replicate_2. lia.
  - intros Hs. rewrite (mask_tail s k) by lia.
    rewrite drop_app_length'; [reflexivity | now rewrite length_replicate].
Qed.

(** An IBAN with 6 characters shown, and a 3-character text with 4. *)
Lemma mask_sensitive_data_shape_witness :
  Utils.mask_sensitive_data "FR1420041010050500013M02606" 6 = "*********************M02606"
  ∧ Utils.mask_sensitive_data "nan" 4 = "***"
  ∧ length (PyStr.chars (Utils.mask_sensitive_data "FR1420041010050500013M02606" 6))
    = PyStr.len "FR1420041010050500013M02606".
Proof.
  split; [reflexivity |]. split; [reflexivity |].
  exact (proj1 (mask_sensitive_data_shape "FR1420041010050500013M02606" 6
                  ltac:(lia))).
Defined.

(** X2. Masking is idempotent for a positive count: masking a masked
    string again changes nothing. *)
Theorem mask_sensitive_data_idempotent (s : string) (k : Z) :
  (1 <= k)%Z →
  Utils.mask_sensitive_data (Utils.mask_sensitive_data s k) k
  = Utils.mask_sensitive_data s k.
Proof.
  intros Hk. apply chars_inj.
  set (m := Utils.mask_sensitive_data s k).
  assert (Hm : PyStr.len m = PyStr.len s) by exact (mask_length s k Hk).
  destruct (Z.le_gt_cases (Z.of_nat (PyStr.len s)) k) as [Hs | Hs].
  - rewrite (mask_short m k) by lia. rewrite Hm. subst m.
    now rewrite (mask_short s k Hs).
  - rewrite (mask_tail m k) by lia. rewrite Hm. subst m.
    rewrite (mask_tail s k) by lia.
    rewrite drop_app_length'; [reflexivity | now rewrite length_replicate].
Qed.

Lemma mask_sensitive_data_idempotent_witness :
  Utils.mask_sensitive_data (Utils.mask_sensitive_data "CI00112345678901234567890123" 4) 4
  = "************************0123".
Proof.
  rewrite (mask_sensitive_data_idempotent "CI00112345678901234567890123" 4 ltac:(lia)).
  reflexivity.
Defined.

(** X3. With a count of zero nothing is hidden: the result is as many stars
    as the input has characters, followed by the whole input. With a
    negative count [k] the input is shown from its character [-k] on. *)
Theorem mask_sensitive_data_zero_shows_all (s : string) (k : Z) :
  s ≠ "" → (k <= 0)%Z →
  Utils.mask_sensitive_data s k
  = PyStr.repeat_char "*" (Z.of_nat (PyStr.len s) - k)
    ++ PyStr.of_chars (drop (Z.to_nat (- k)) (PyStr.chars s))
  ∧ (k = 0%Z →
     Utils.mask_sensitive_data s k = PyStr.repeat_char "*" (Z.of_nat (PyStr.len s)) ++ s).
Proof.
  intros Hs Hk. split; [now apply mask_nonpositive |].
  intros ->. rewrite (mask_nonpositive s 0 Hs) by lia.
  change (Z.to_nat (- 0)) with 0%nat. now rewrite drop_0, Z.sub_0_r, of_chars_chars.
Qed.

Lemma mask_sensitive_data_zero_shows_all_witness :
  Utils.mask_sensitive_data "FR7612345" 0 = "*********FR7612345".
Proof.
  rewrite (proj2 (mask_sensitive_data_zero_shows_all "FR7612345" 0
                    ltac:(discriminate) ltac:(lia)) eq_refl).
  reflexivity.
Defined.

(** ** The two structural validators (src/validation.py) *)

Section NormalForms.
Import PyStr Validation.

Lemma to_upper_to_lower (c : ascii) : to_upper (to_lower c) = to_upper c.
Proof.
  destruct c as [b0 b1 b2 b3 b4 b5 b6 b7].
  destruct b0, b1, b2, b3, b4, b5, b6, b7; reflexivity.
Qed.

Lemma space_to_lower (c : ascii) : Ascii.eqb (to_lower c) " " = Ascii.eqb c " ".
Proof.
  destruct c as [b0 b1 b2 b3 b4 b5 b6 b7].
  destruct b0, b1, b2, b3, b4, b5, b6, b7; reflexivity.
Qed.

Lemma chars_lower (s : string) : chars (lower s) = map to_lower (chars s).
Proof. apply chars_of_chars. Qed.

Lemma chars_remove_spaces (s : string) :
  chars (remove_spaces s) = List.filter (fun c => negb (Ascii.eqb c " ")) (chars s).
Proof. apply chars_of_chars. Qed.

(** The form on which both validators decide. *)
Lemma chars_normal_form (s : string) :
  chars (upper (remove_spaces s))
  = map to_upper (List.filter (fun c => negb (Ascii.eqb c " ")) (chars s)).
Proof. now rewrite chars_upper, chars_remove_spaces. Qed.

Lemma normal_form_lower (s : string) :
  upper (remove_spaces (lower s)) = upper (remove_spaces s).
Proof.
  apply chars_inj. rewrite !chars_normal_form, chars_lower.
  induction (chars s) as [| c l IH]; [reflexivity |].
  cbn [map List.filter]. rewrite space_to_lower.
  destruct (Ascii.eqb c " "); cbn [negb map]; [exact IH |].
  now rewrite to_upper_to_lower, IH.
Qed.

Lemma normal_form_space (a b : string) :
  upper (remove_spaces (a ++ " " ++ b)) = upper (remove_spaces (a ++ b)).
Proof.
  apply chars_inj. rewrite !chars_normal_form, !chars_app, !List.filter_app.
  reflexivity.
Qed.

(** A message that starts with another character than the one expected. *)
Lemma prefix_differs (c d : ascii) (p q x : string) :
  c ≠ d → (String c p ++ x)%string ≠ String d q.
Proof. intros Hcd H. change (String c (p ++ x) = String d q) in H. congruence. Qed.

End NormalForms.

(** X4. [validate_iban] and [validate_bic] ignore the case of letters and
    any space: lower-casing the input, or inserting a space anywhere in it,
    changes neither the boolean nor the message. *)
Theorem validators_ignore_case_and_spaces (s a b : string) :
  Validation.validate_iban (PyStr.lower s) = Validation.validate_iban s
  ∧ Validation.validate_iban (a ++ " " ++ b) = Validation.validate_iban (a ++ b)
  ∧ Validation.validate_bic (PyStr.lower s) = Validation.validate_bic s
  ∧ Validation.validate_bic (a ++ " " ++ b) = Validation.validate_bic (a ++ b).
Proof.
  unfold Validation.validate_iban, Validation.validate_bic.
  rewrite normal_form_lower, normal_form_space. repeat split.
Qed.

(** X5. The message tells the verdict: [validate_iban] returns [True]
    exactly when its message is "IBAN valide", [validate_bic] exactly when
    its message is "BIC valide"; every rejection has another message. *)
Theorem validators_message_tells_verdict (s : string) :
  (fst (Validation.validate_iban s) = true
   ↔ snd (Validation.validate_iban s) = "IBAN valide")
  ∧ (fst (Validation.validate_bic s) = true
     ↔ snd (Validation.validate_bic s) = "BIC valide").
Proof.
  unfold Validation.validate_iban, Validation.validate_bic.
  split;
    repeat match goal with
           | |- context [if ?b then _ else _] => destruct b
           | |- context [match ?o with Some _ => _ | None => _ end] => destruct o
           end;
    cbn [fst snd]; split; intros H; try reflexivity; try discriminate H;
    exfalso; revert H; apply prefix_differs; discriminate.
Qed.

Section CheckDigits.
Import PyStr Validation.

Lemma alpha_not_space (c : ascii) : is_alpha c = true → Ascii.eqb c " " = false.
Proof.
  destruct c as [b0 b1 b2 b3 b4 b5 b6 b7].
  destruct b0, b1, b2, b3, b4, b5, b6, b7; vm_compute; intros H;
    first [discriminate H | reflexivity].
Qed.

Lemma digit_is_kept (c : ascii) :
  is_digit c = true → Ascii.eqb c " " = false ∧ to_upper c = c.
Proof.
  destruct c as [b0 b1 b2 b3 b4 b5 b6 b7].
  destruct b0, b1, b2, b3, b4, b5, b6, b7; vm_compute; intros H;
    first [discriminate H | split; reflexivity].
Qed.

(** A digit 0-9 passes [str.isdigit]. *)
Lemma digit_uni (c : ascii) : is_digit c = true → uni_digit c = true.
Proof. intros H. unfold uni_digit. now rewrite H. Qed.

(** The normal form of a text that starts with two letters and two digits. *)
Lemma normal_form_head (a b d1 d2 : ascii) (rest : list ascii) :
  is_alpha a = true → is_alpha b = true → is_digit d1 = true → is_digit d2 = true →
  upper (remove_spaces (of_chars (a :: b :: d1 :: d2 :: rest)))
  = of_chars (to_upper a :: to_upper b :: d1 :: d2
              :: map to_upper (List.filter (fun c => negb (Ascii.eqb c " ")) rest)).
Proof.
  intros Ha Hb H1 H2. apply chars_inj.
  rewrite chars_normal_form, !chars_of_chars. cbn [List.filter].
  rewrite (alpha_not_space a Ha), (alpha_not_space b Hb).
  destruct (digit_is_kept d1 H1) as [-> E1], (digit_is_kept d2 H2) as [-> E2].
  cbn [negb map]. now rewrite E1, E2.
Qed.

End CheckDigits.

(** X6. [validate_iban] does not verify the check digits: in a text that
    starts with two letters and two digits, replacing the two digits by any
    other two digits changes neither the boolean nor the message. *)
Theorem validate_iban_ignores_check_digits
    (a b d1 d2 e1 e2 : ascii) (rest : list ascii) :
  PyStr.is_alpha a = true → PyStr.is_alpha b = true →
  PyStr.is_digit d1 = true → PyStr.is_digit d2 = true →
  PyStr.is_digit e1 = true → PyStr.is_digit e2 = true →
  Validation.validate_iban (PyStr.of_chars (a :: b :: d1 :: d2 :: rest))
  = Validation.validate_iban (PyStr.of_chars (a :: b :: e1 :: e2 :: rest)).
Proof.
  intros Ha Hb H1 H2 H3 H4. unfold Validation.validate_iban.
  rewrite (normal_form_head a b d1 d2 rest Ha Hb H1 H2).
  rewrite (normal_form_head a b e1 e2 rest Ha Hb H3 H4).
  set (A := PyStr.to_upper a). set (B := PyStr.to_upper b).
  set (R := map PyStr.to_upper _).
  unfold PyStr.len, Validation.match_two_capitals, PyStr.isdigit, PyStr.isalnum,
    PyStr.all_chars, PyStr.slice, PyStr.slice_from.
  rewrite !chars_of_chars.
  change (take (4 - 2) (drop 2 (A :: B :: d1 :: d2 :: R))) with [d1; d2].
  change (take (4 - 2) (drop 2 (A :: B :: e1 :: e2 :: R))) with [e1; e2].
  change (drop 4 (A :: B :: d1 :: d2 :: R)) with R.
  change (drop 4 (A :: B :: e1 :: e2 :: R)) with R.
  change (take (2 - 0) (drop 0 (A :: B :: d1 :: d2 :: R))) with [A; B].
  change (take (2 - 0) (drop 0 (A :: B :: e1 :: e2 :: R))) with [A; B].
  cbn [forallb length].
  rewrite (digit_uni d1 H1), (digit_uni d2 H2), (digit_uni e1 H3), (digit_uni e2 H4).
  reflexivity.
Qed.

(** The French IBAN of the examples, and the same with check digits 00. *)
Lemma validate_iban_ignores_check_digits_witness :
  Validation.validate_iban "FR1420041010050500013M02606"
  = Validation.validate_iban "FR0020041010050500013M02606"
  ∧ Validation.validate_iban "FR0020041010050500013M02606" = (true, "IBAN valide").
Proof.
  split; [| reflexivity].
  exact (validate_iban_ignores_check_digits "F" "R" "1" "4" "0" "0"
           (PyStr.chars "20041010050500013M02606")
           eq_refl eq_refl eq_refl eq_refl eq_refl eq_refl).
Defined.

(** ** Transaction validation and its rules (src/validation.py) *)

Section RulesFacts.
Import PyStr Pandas Validation.
Variable float_repr : Float.t → string.

(** The boolean of the verdict, check by check. *)
Lemma verdict_bool (row : gmap string cell) (rules : Rules) :
  fst (verdict float_repr row rules)
  = has_required row && negb (has_null row)
    && negb (fails float_repr row rules AmountThreshold)
    && negb (fails float_repr row rules CurrencyWhitelist)
    && negb (fails float_repr row rules IssuerIBAN)
    && negb (fails float_repr row rules BeneficiaryIBAN)
    && negb (fails float_repr row rules BICFormat).
Proof.
  unfold verdict, check_order. cbn [List.find].
  destruct (has_required row), (has_null row); cbn [negb andb fst]; try reflexivity.
  destruct (fails float_repr row rules AmountThreshold); [reflexivity |].
  destruct (fails float_repr row rules CurrencyWhitelist); [reflexivity |].
  destruct (fails float_repr row rules IssuerIBAN); [reflexivity |].
  destruct (fails float_repr row rules BeneficiaryIBAN); [reflexivity |].
  destruct (fails float_repr row rules BICFormat); reflexivity.
Qed.

(** What the caller receives: an exception, or the boolean of the verdict. *)
Lemma validate_transaction_result (row : gmap string cell) (rules : Rules) (w : World) :
  fst (validate_transaction float_repr row rules w)
  = if raises_type_error row then Raise TypeError
    else Ok (fst (verdict float_repr row rules)).
Proof. rewrite validate_transaction_run. now destruct (raises_type_error row). Qed.

Lemma validate_transaction_true (row : gmap string cell) (rules : Rules) (w : World) :
  fst (validate_transaction float_repr row rules w) = Ok true
  ↔ raises_type_error row = false ∧ fst (verdict float_repr row rules) = true.
Proof.
  rewrite validate_transaction_result.
  destruct (raises_type_error row); split; try easy.
  - intros H. split; [reflexivity | congruence].
  - intros [_ ->]. reflexivity.
Qed.

End RulesFacts.

(** X7. Without a section "validation" in the configuration the rules are
    empty: the maximum is infinite and no currency list applies, so no
    amount and no currency is ever refused. [validate_transaction] then
    returns [True] exactly when the five required fields are present and
    non-null and the two IBANs and the BIC are well formed (and still raises
    [TypeError] on an amount that is text). *)
Theorem validate_transaction_without_rules
    (float_repr : Float.t → string) (config : Validation.Config)
    (row : gmap string Pandas.cell) (w : Pandas.World) :
  Validation.validation config = None →
  fst (Validation.validate_transaction float_repr row
         (Validation.load_validation_rules config) w)
  = if Validation.raises_type_error row then Raise TypeError
    else Ok (Validation.has_required row && negb (Validation.has_null row)
             && fst (Validation.validate_iban
                       (Validation.py_str float_repr (Pandas.get "IBAN_Emetteur" row)))
             && fst (Validation.validate_iban
                       (Validation.py_str float_repr (Pandas.get "IBAN_Beneficiaire" row)))
             && fst (Validation.validate_bic
                       (Validation.py_str float_repr (Pandas.get "BIC_SWIFT" row)))).
Proof.
  intros Hc. unfold Validation.load_validation_rules. rewrite Hc. cbn [default].
  rewrite validate_transaction_result, verdict_bool.
  cbn [Validation.fails]. unfold Validation.threshold, Validation.whitelist.
  cbn [Validation.max_transaction_amount Validation.allowed_currencies default map].
  rewrite gtb_inf. cbn [negb andb bool_decide].
  rewrite !negb_involutive, !andb_true_r. reflexivity.
Qed.

(** The transfer of 15,000,000 is accepted when no rule is configured. *)
Lemma validate_transaction_without_rules_witness :
  Validation.validation (Validation.mkConfig None) = None
  ∧ fst (Validation.validate_transaction Validation.plain_repr Validation.large_transfer
           (Validation.load_validation_rules (Validation.mkConfig None))
           Validation.initial_world) = Ok true.
Proof.
  split; [reflexivity |].
  rewrite (validate_transaction_without_rules Validation.plain_repr
             (Validation.mkConfig None) Validation.large_transfer
             Validation.initial_world eq_refl).
  reflexivity.
Defined.

(** X8. Raising the maximum amount, or removing it, never turns an accepted
    transaction into a refused one. *)
Theorem validate_transaction_monotone_in_maximum
    (float_repr : Float.t → string) (row : gmap string Pandas.cell)
    (m m' : Float.t) (currencies : option (list string)) (w : Pandas.World) :
  Float.leb m m' = true →
  fst (Validation.validate_transaction float_repr row
         (Validation.mkRules (Some m) currencies) w) = Ok true →
  fst (Validation.validate_transaction float_repr row
         (Validation.mkRules (Some m') currencies) w) = Ok true
  ∧ fst (Validation.validate_transaction float_repr row
           (Validation.mkRules None currencies) w) = Ok true.
Proof.
  intros Hm. rewrite !validate_transaction_true, !verdict_bool.
  cbn [Validation.fails]. unfold Validation.threshold, Validation.whitelist.
  cbn [Validation.max_transaction_amount Validation.allowed_currencies default
       from_option].
  unfold Datatypes.id. intros [Hr Hv].
  destruct (Float.gtb (Pandas.cell_float (Pandas.get "Montant" row)) m) eqn:Hgt.
  { destruct (Validation.has_required row), (Validation.has_null row);
      cbn [negb andb] in Hv; discriminate Hv. }
  rewrite (gtb_monotone _ m m' Hm Hgt), gtb_inf. auto.
Qed.

(** The transfer of 5,000,000, accepted under a maximum of 10,000,000, is
    accepted under a maximum of 20,000,000. *)
Lemma validate_transaction_monotone_in_maximum_witness :
  fst (Validation.validate_transaction Validation.plain_repr Validation.valid_transfer
         (Validation.mkRules (Some 20000000%float) (Some ["XOF"; "EUR"; "USD"]))
         Validation.initial_world) = Ok true.
Proof.
  refine (proj1 (validate_transaction_monotone_in_maximum Validation.plain_repr
                   Validation.valid_transfer 10000000%float 20000000%float
                   (Some ["XOF"; "EUR"; "USD"]) Validation.initial_world _ _)).
  - reflexivity.
  - apply validate_transaction_true. split; [reflexivity |].
    change (Validation.mkRules _ _) with Validation.sample_rules.
    now rewrite valid_transfer_verdict.
Defined.

(** X9. [validate_transaction] reads the five required fields and nothing
    else: two rows that agree on them get the same result and the same
    printed line, whatever their other fields hold. *)
Theorem validate_transaction_reads_required_only
    (float_repr : Float.t → string) (row row' : gmap string Pandas.cell)
    (rules : Validation.Rules) (w : Pandas.World) :
  (∀ col, In col Validation.required_cols → row !! col = row' !! col) →
  Validation.validate_transaction float_repr row rules w
  = Validation.validate_transaction float_repr row' rules w.
Proof.
  intros H.
  assert (H1 := H "Montant" ltac:(cbn; tauto)).
  assert (H2 := H "Devise" ltac:(cbn; tauto)).
  assert (H3 := H "IBAN_Emetteur" ltac:(cbn; tauto)).
  assert (H4 := H "IBAN_Beneficiaire" ltac:(cbn; tauto)).
  assert (H5 := H "BIC_SWIFT" ltac:(cbn; tauto)).
  unfold Validation.validate_transaction, Validation.required_cols, Pandas.get.
  cbn [forallb existsb].
  rewrite H1, H2, H3, H4, H5. reflexivity.
Qed.

(** The valid transfer with a description added. *)
Lemma validate_transaction_reads_required_only_witness :
  Validation.validate_transaction Validation.plain_repr
    (<["Description" := Pandas.Text "loyer"]> Validation.valid_transfer)
    Validation.sample_rules Validation.initial_world
  = Validation.validate_transaction Validation.plain_repr Validation.valid_transfer
      Validation.sample_rules Validation.initial_world.
Proof.
  apply validate_transaction_reads_required_only.
  intros col Hcol. apply lookup_insert_ne.
  cbn in Hcol. intuition (subst; discriminate).
Defined.

(** ** Categorisation: what the keyword test accepts (src/categorization.py) *)

Section LiteralSearch.
Import PyStr Regex Categorization.

(** A pattern of literal characters matches where the text continues with
    exactly these characters. *)
Lemma match_here_lits (l : list ascii) (prev : option ascii) (s : list ascii) :
  match_here (map Lit l) prev s = true ↔ ∃ rest, s = (l ++ rest)%list.
Proof.
  revert prev s. induction l as [| c l IH]; intros prev s; cbn [map match_here].
  - split; [intros _; now exists s | reflexivity].
  - destruct s as [| c' s'].
    + split; [discriminate | intros [rest H]; discriminate].
    + rewrite andb_true_iff, IH. split.
      * intros [E [rest ->]]. apply Ascii.eqb_eq in E. subst. now exists rest.
      * intros [rest H]. injection H as -> ->. split; [apply Ascii.eqb_refl | eauto].
Qed.

(** Searching for it is looking for these characters somewhere in the text. *)
Lemma search_from_lits (l : list ascii) (prev : option ascii) (s : list ascii) :
  search_from (map Lit l) prev s = true ↔ ∃ a b, s = (a ++ l ++ b)%list.
Proof.
  revert prev. induction s as [| c s IH]; intros prev; cbn [search_from];
    rewrite orb_true_iff, match_here_lits.
  - split.
    + intros [[rest H] | H]; [| discriminate]. now exists [], rest.
    + intros (a & b & H). left. destruct a; [now exists b | discriminate].
  - rewrite IH. split.
    + intros [[rest H] | (a & b & H)].
      * now exists [], rest.
      * exists (c :: a), b. now rewrite H.
    + intros (a & b & H). destruct a as [| x a].
      * left. now exists b.
      * right. injection H as -> ->. eauto.
Qed.

Lemma to_lower_backslash (c : ascii) : to_lower c = "\"%char → c = "\"%char.
Proof.
  destruct c as [b0 b1 b2 b3 b4 b5 b6 b7].
  destruct b0, b1, b2, b3, b4, b5, b6, b7; vm_compute; intros H;
    first [discriminate H | reflexivity].
Qed.

Lemma backslash_lower (libelle : string) :
  In "\"%char (chars (lower libelle)) → In "\"%char (chars libelle).
Proof.
  rewrite chars_lower, in_map_iff. intros (c & E & Hc).
  now rewrite <- (to_lower_backslash c E).
Qed.

(** The test of one keyword, as a condition on the text. *)
Lemma search_pattern_of_iff (mot libelle : string) :
  search (pattern_of mot) libelle = Ok true
  ↔ ∃ a b, chars libelle = (a ++ chars ("\b" ++ mot ++ "\b") ++ b)%list.
Proof.
  rewrite search_pattern_of, <- search_from_lits. split.
  - intros H. injection H as H. exact H.
  - intros ->. reflexivity.
Qed.

Lemma any_keyword_no_backslash (mots : list string) (libelle : string) :
  ¬ In "\"%char (chars libelle) → any_keyword mots libelle = Ok false.
Proof.
  intros Hb. induction mots as [| mot rest IH]; cbn [any_keyword]; [reflexivity |].
  rewrite search_pattern_of.
  destruct (search_from _ None (chars libelle)) eqn:E; [| exact IH].
  exfalso. apply search_from_lits in E as (a & b & E). apply Hb.
  rewrite E, chars_app. apply in_or_app. right. now left.
Qed.

Lemma first_category_no_backslash (t : table) (libelle : string) :
  ¬ In "\"%char (chars libelle) → first_category t libelle = Ok None.
Proof.
  intros Hb. induction t as [| [cat mots] rest IH]; cbn [first_category]; [reflexivity |].
  now rewrite (any_keyword_no_backslash mots libelle Hb).
Qed.

Lemma first_category_in_table (t : table) (libelle cat : string) :
  first_category t libelle = Ok (Some cat) → In cat (map fst t).
Proof.
  induction t as [| [c mots] rest IH]; cbn [first_category]; [discriminate |].
  destruct (any_keyword mots libelle) as [[] | e]; try discriminate.
  - intros H. injection H as ->. now left.
  - intros H. right. now apply IH.
Qed.

(** The function on a description that is not empty. *)
Lemma categoriser_transaction_nonempty (libelle : string) montant categories :
  libelle ≠ "" →
  categoriser_transaction (Some libelle) montant categories
  = match first_category (table_in_use categories) (lower libelle) with
    | Raise e => Raise e
    | Ok (Some categorie) => Ok categorie
    | Ok None => Ok "autre"
    end.
Proof. intros H. destruct libelle; [congruence | reflexivity]. Qed.

End LiteralSearch.

(** X10. The keyword test is a search for literal text: for every keyword
    and every description, [re.search] on the pattern the source builds
    succeeds exactly when the description contains the two characters
    backslash and b, the keyword character for character (its regular
    expression operators, if any, stand for themselves), and again
    backslash and b. The pattern never fails to compile. *)
Theorem keyword_test_is_literal (mot libelle : string) :
  (∃ found, Regex.search (Categorization.pattern_of mot) libelle = Ok found)
  ∧ (Regex.search (Categorization.pattern_of mot) libelle = Ok true
     ↔ ∃ a b, PyStr.chars libelle
              = (a ++ PyStr.chars "\b" ++ PyStr.chars mot ++ PyStr.chars "\b" ++ b)%list).
Proof.
  split; [rewrite search_pattern_of; eauto |].
  rewrite search_pattern_of_iff, !chars_app.
  split; intros (a & b & H); exists a, b; rewrite H; now rewrite <- !app_assoc.
Qed.

(** X11. A description without a backslash is never categorised: whatever
    the keyword table and the amount, the result is "autre". *)
Theorem categoriser_transaction_needs_backslash
    (libelle : string) (montant : Float.t) (categories : option Categorization.table) :
  ¬ In "\"%char (PyStr.chars libelle) →
  Categorization.categoriser_transaction (Some libelle) montant categories = Ok "autre".
Proof.
  intros Hb. destruct (String.eqb_spec libelle "") as [-> | Hne]; [reflexivity |].
  rewrite categoriser_transaction_nonempty by exact Hne.
  rewrite first_category_no_backslash; [reflexivity |].
  intros H. apply Hb. now apply backslash_lower.
Qed.

(** A salary payment, under a table that lists its very words. *)
Lemma categoriser_transaction_needs_backslash_witness :
  Categorization.categoriser_transaction (Some "virement salaire mars")
    2500%float (Some [("salaire", ["virement salaire mars"; "salaire"])])
  = Ok "autre".
Proof.
  apply categoriser_transaction_needs_backslash.
  vm_compute. intuition discriminate.
Defined.

(** X12. [categoriser_transaction] raises no exception on a description
    that is a string or absent, and its result is "autre" or a category of
    the table in use (the default table when none, or an empty one, is
    given). *)
Theorem categoriser_transaction_range
    (libelle : option string) (montant : Float.t) (categories : option Categorization.table) :
  ∃ categorie,
    Categorization.categoriser_transaction libelle montant categories = Ok categorie
    ∧ (categorie = "autre"
       ∨ In categorie (map fst (Categorization.table_in_use categories))).
Proof.
  destruct libelle as [libelle |]; [| exists "autre"; auto].
  destruct (String.eqb_spec libelle "") as [-> | Hne]; [exists "autre"; auto |].
  rewrite categoriser_transaction_nonempty by exact Hne.
  destruct (first_category_total (Categorization.table_in_use categories)
              (PyStr.lower libelle)) as [[cat |] E]; rewrite E.
  - exists cat. split; [reflexivity |]. right. eapply first_category_in_table; eauto.
  - exists "autre". auto.
Qed.

(** ** Loading a custom keyword table (src/categorization.py) *)

Section CustomTable.
Import PyStr Categorization.

Lemma to_lower_idempotent (c : ascii) : to_lower (to_lower c) = to_lower c.
Proof.
  destruct c as [b0 b1 b2 b3 b4 b5 b6 b7].
  destruct b0, b1, b2, b3, b4, b5, b6, b7; reflexivity.
Qed.

Lemma lower_idempotent (s : string) : lower (lower s) = lower s.
Proof.
  apply chars_inj. rewrite !chars_lower, map_map.
  apply map_ext. intros c. apply to_lower_idempotent.
Qed.

(** Assigning to a key that is not there appends the entry. *)
Lemma dict_set_new (k : string) (v : list string) (t : table) :
  ¬ In k (map fst t) → dict_set k v t = (t ++ [(k, v)])%list.
Proof.
  induction t as [| [k' v'] t IH]; cbn [dict_set map fst app In]; [reflexivity |].
  intros H. destruct (String.eqb_spec k' k) as [-> | _]; [tauto |].
  f_equal. apply IH. tauto.
Qed.

(** Assigning never changes the keys that are there, nor their order. *)
Lemma dict_set_keys (k : string) (v : list string) (t : table) :
  map fst (dict_set k v t)
  = if mem k (map fst t) then map fst t else (map fst t ++ [k])%list.
Proof.
  induction t as [| [k' v'] t IH]; [reflexivity |].
  cbn [dict_set map fst]. unfold mem in *. cbn [existsb].
  rewrite (String.eqb_sym k k').
  destruct (String.eqb k' k); cbn [orb map fst]; [reflexivity |].
  rewrite IH. now destruct (existsb (String.eqb k) (map fst t)).
Qed.

Lemma dict_set_NoDup (k : string) (v : list string) (t : table) :
  NoDup (map fst t) → NoDup (map fst (dict_set k v t)).
Proof.
  intros H. rewrite dict_set_keys. destruct (mem k (map fst t)) eqn:E; [exact H |].
  apply NoDup_app. split; [exact H |]. split; [| apply NoDup_singleton].
  intros x Hx Hk. apply list_elem_of_In in Hx, Hk. destruct Hk as [<- | []].
  apply mem_In in Hx. congruence.
Qed.

(** An entry of the table after an assignment is the new one or an old one. *)
Lemma dict_set_In (k : string) (v : list string) (t : table) (e : string * list string) :
  In e (dict_set k v t) → e = (k, v) ∨ In e t.
Proof.
  induction t as [| [k' v'] t IH]; cbn [dict_set In].
  - intros [<- | []]. now left.
  - destruct (String.eqb_spec k' k) as [-> | _]; cbn [In].
    + intros [<- | H]; auto.
    + intros [<- | H]; auto. destruct (IH H); auto.
Qed.

(** The loop of the comprehension, from any dictionary built so far. *)
Lemma load_NoDup (config acc : table) :
  NoDup (map fst acc) →
  NoDup (map fst (fold_left (fun acc '(cat, mots) =>
                               dict_set (lower cat) (map lower mots) acc) config acc)).
Proof.
  revert acc. induction config as [| [cat mots] config IH]; intros acc H; [exact H |].
  cbn [fold_left]. apply IH. now apply dict_set_NoDup.
Qed.

Lemma load_lower_case (config acc : table) :
  (∀ cat mots, In (cat, mots) acc →
     lower cat = cat ∧ ∀ kw, In kw mots → lower kw = kw) →
  ∀ cat mots,
    In (cat, mots) (fold_left (fun acc '(cat, mots) =>
                                 dict_set (lower cat) (map lower mots) acc) config acc) →
    lower cat = cat ∧ ∀ kw, In kw mots → lower kw = kw.
Proof.
  revert acc. induction config as [| [c m] config IH]; intros acc H; [exact H |].
  cbn [fold_left]. apply IH. intros cat mots Hin.
  apply dict_set_In in Hin as [E | Hin]; [| now apply H].
  injection E as -> ->. split; [apply lower_idempotent |].
  intros kw Hkw. apply in_map_iff in Hkw as (x & <- & _). apply lower_idempotent.
Qed.

(** Without two categories that differ only by case, the loop appends the
    lower-cased entries in order. *)
Lemma load_distinct (config acc : table) :
  NoDup (map fst acc ++ map (fun e => lower (fst e)) config) →
  fold_left (fun acc '(cat, mots) => dict_set (lower cat) (map lower mots) acc) config acc
  = (acc ++ map (fun e => (lower (fst e), map lower (snd e))) config)%list.
Proof.
  revert acc. induction config as [| [cat mots] config IH]; intros acc H.
  - cbn. now rewrite app_nil_r.
  - cbn [fold_left map fst snd] in *.
    assert (Hnew : ¬ In (lower cat) (map fst acc)).
    { intros Hin. apply NoDup_app in H as (_ & H & _).
      apply (H (lower cat)); [now apply list_elem_of_In | left]. }
    rewrite (dict_set_new _ _ _ Hnew), IH.
    + now rewrite <- app_assoc.
    + rewrite map_app. cbn [map fst]. now rewrite <- app_assoc.
Qed.

Lemma map_lower_case (t : table) :
  (∀ cat mots, In (cat, mots) t →
     lower cat = cat ∧ ∀ kw, In kw mots → lower kw = kw) →
  map (fun e => (lower (fst e), map lower (snd e))) t = t
  ∧ map (fun e => lower (fst e)) t = map fst t.
Proof.
  induction t as [| [cat mots] t IH]; intros H; [split; reflexivity |].
  destruct (H cat mots (or_introl eq_refl)) as [Hc Hm].
  destruct IH as [IH1 IH2]; [intros c m Hin; apply H; now right |].
  cbn [map fst snd]. rewrite IH1, IH2, Hc. split; [| reflexivity].
  f_equal. f_equal. rewrite <- (map_id mots) at 2.
  apply map_ext_in. exact Hm.
Qed.

End CustomTable.

(** X13. [charger_categories_personnalisees] returns a table in lower
    case (categories and keywords) whose categories are pairwise distinct;
    loading the result again gives it back; and when no two categories of
    the configuration differ only by case, the result is the configuration
    entry for entry, lower-cased. *)
Theorem charger_categories_personnalisees_normalises (config : Categorization.table) :
  let t := Categorization.charger_categories_personnalisees config in
  NoDup (map fst t)
  ∧ (∀ cat mots, In (cat, mots) t →
       PyStr.lower cat = cat ∧ ∀ kw, In kw mots → PyStr.lower kw = kw)
  ∧ Categorization.charger_categories_personnalisees t = t
  ∧ (NoDup (map (fun e => PyStr.lower (fst e)) config) →
     t = map (fun e => (PyStr.lower (fst e), map PyStr.lower (snd e))) config).
Proof.
  intros t. subst t. unfold Categorization.charger_categories_personnalisees.
  match goal with |- context [fold_left ?f config []] => set (t := fold_left f config []) end.
  assert (Hnd : NoDup (map fst t)) by (apply load_NoDup; constructor).
  assert (Hlow : ∀ cat mots, In (cat, mots) t →
            PyStr.lower cat = cat ∧ ∀ kw, In kw mots → PyStr.lower kw = kw).
  { apply load_lower_case. intros cat mots []. }
  destruct (map_lower_case t Hlow) as [E1 E2].
  split; [exact Hnd |]. split; [exact Hlow |]. split.
  - rewrite load_distinct; cbn [map app]; [exact E1 | now rewrite E2].
  - intros H. subst t. now rewrite load_distinct.
Qed.

(** ** The threshold and the columns of the result (src/fraud_detection.py) *)

Section FlaggedRows.
Import Float Pandas FraudDetection.

(** A run on a column of amounts, all null or not: the rows returned. *)
Lemma detect_anomalies_outliers (w : World) (df : ref) (d : DataFrame) (col : string)
      (t : Float.t) :
  heap w !! df = Some d →
  has_column col d = true →
  Forall is_amount (column col d) →
  ∃ r w' res,
    detect_anomalies df col t w = (Ok r, w')
    ∧ heap w' !! r = Some res
    ∧ rows res
      = map (drop_cell "zscore")
            (List.filter (λ row, is_outlier (mean_of col d) (stddev_of col d) t
                                            (get col (fields row)))
                         (rows d))
    ∧ (columns res = List.filter (λ c, negb (String.eqb c "zscore")) (columns d)
       ∨ forallb isna (column col d) = true ∧ res = empty_frame).
Proof.
  intros H Hc Ha.
  destruct (forallb isna (column col d)) eqn:Hn.
  - eexists _, _, _.
    split; [apply (detect_anomalies_guard w df d col t H); now right |].
    cbn [heap]. split; [now rewrite lookup_app_r, Nat.sub_diag by lia |].
    split; [| right; split; reflexivity].
    cbn [rows empty_frame]. rewrite filter_none; [reflexivity |].
    intros row Hrow. rewrite forallb_forall in Hn.
    apply null_is_no_outlier, Hn. unfold column. apply in_map_iff. eauto.
  - destruct (detect_anomalies_rows w df d col t H Hc Ha Hn)
      as (r & w' & res & Hrun & Hres & _ & Hrows & Hcols).
    exists r, w', res. split; [exact Hrun |]. split; [exact Hres |].
    split; [exact Hrows |]. left. rewrite Hcols. unfold add_column_name.
    destruct (PyStr.mem "zscore" (columns d)); [reflexivity |].
    rewrite List.filter_app. cbn. apply app_nil_r.
Qed.

(** An outlier at a threshold is one at any lower threshold. *)
Lemma is_outlier_lower (m s t t' : Float.t) (c : cell) :
  leb t t' = true → is_outlier m s t' c = true → is_outlier m s t c = true.
Proof.
  intros Ht. rewrite !is_outlier_iff. intros (v & Hv & Hn & Hgt).
  exists v. repeat split; auto. unfold gtb in *. now apply (leb_ltb_trans t t').
Qed.

End FlaggedRows.

(** X16. Raising the threshold can only remove rows from the result: every
    row returned at a threshold is returned at any lower threshold. *)
Theorem detect_anomalies_monotone_in_threshold
    (w : Pandas.World) (df : Pandas.ref) (d : Pandas.DataFrame) (col : string)
    (t t' : Float.t) :
  Pandas.heap w !! df = Some d →
  Pandas.has_column col d = true →
  Forall FraudDetection.is_amount (Pandas.column col d) →
  Float.leb t t' = true →
  ∃ r w1 low r' w2 high,
    FraudDetection.detect_anomalies df col t w = (Ok r, w1)
    ∧ Pandas.heap w1 !! r = Some low
    ∧ FraudDetection.detect_anomalies df col t' w = (Ok r', w2)
    ∧ Pandas.heap w2 !! r' = Some high
    ∧ ∀ row, In row (Pandas.rows high) → In row (Pandas.rows low).
Proof.
  intros H Hc Ha Ht.
  destruct (detect_anomalies_outliers w df d col t H Hc Ha)
    as (r & w1 & low & Hrun & Hres & Hrows & _).
  destruct (detect_anomalies_outliers w df d col t' H Hc Ha)
    as (r' & w2 & high & Hrun' & Hres' & Hrows' & _).
  exists r, w1, low, r', w2, high. repeat (split; [assumption |]).
  intros row. rewrite Hrows, Hrows', !in_map_iff.
  intros (x & Hx & Hin). exists x. split; [exact Hx |].
  apply List.filter_In in Hin as [Hin Hout]. apply List.filter_In. split; [exact Hin |].
  now apply (is_outlier_lower _ _ t t').
Qed.

(** The sample at the thresholds 1.5 and 3.0. *)
Lemma detect_anomalies_monotone_in_threshold_witness :
  ∃ r w1 low r' w2 high,
    FraudDetection.detect_anomalies 0 "Montant" 1.5
      (FraudDetection.world_of FraudDetection.sample) = (Ok r, w1)
    ∧ Pandas.heap w1 !! r = Some low
    ∧ FraudDetection.detect_anomalies 0 "Montant" 3
        (FraudDetection.world_of FraudDetection.sample) = (Ok r', w2)
    ∧ Pandas.heap w2 !! r' = Some high
    ∧ ∀ row, In row (Pandas.rows high) → In row (Pandas.rows low).
Proof.
  exact (detect_anomalies_monotone_in_threshold
           (FraudDetection.world_of FraudDetection.sample) 0%nat
           FraudDetection.sample "Montant" 1.5%float 3%float
           eq_refl eq_refl sample_amounts eq_refl).
Defined.

(** X17. The result never has a column named "zscore": when the input
    has the amounts and at least one number, the columns of the result are
    those of the input without "zscore", and no returned row holds a cell
    under that name. A column "zscore" of the caller is therefore lost. *)
Theorem detect_anomalies_drops_zscore_column
    (w : Pandas.World) (df : Pandas.ref) (d : Pandas.DataFrame) (col : string)
    (t : Float.t) :
  Pandas.heap w !! df = Some d →
  Pandas.has_column col d = true →
  Forall FraudDetection.is_amount (Pandas.column col d) →
  forallb Pandas.isna (Pandas.column col d) = false →
  ∃ r w' res,
    FraudDetection.detect_anomalies df col t w = (Ok r, w')
    ∧ Pandas.heap w' !! r = Some res
    ∧ Pandas.columns res
      = List.filter (λ c, negb (String.eqb c "zscore")) (Pandas.columns d)
    ∧ ¬ In "zscore" (Pandas.columns res)
    ∧ (∀ row, In row (Pandas.rows res) → Pandas.fields row !! "zscore" = None)
    ∧ (In "zscore" (Pandas.columns d) → Pandas.columns res ≠ Pandas.columns d).
Proof.
  intros H Hc Ha Hn.
  destruct (detect_anomalies_outliers w df d col t H Hc Ha)
    as (r & w' & res & Hrun & Hres & Hrows & [Hcols | [Hall _]]); [| congruence].
  exists r, w', res. split; [exact Hrun |]. split; [exact Hres |].
  split; [exact Hcols |].
  assert (Hz : ¬ In "zscore" (Pandas.columns res)).
  { rewrite Hcols. intros Hin. apply List.filter_In in Hin as [_ Hin].
    now rewrite String.eqb_refl in Hin. }
  split; [exact Hz |]. split.
  - intros row Hrow. rewrite Hrows in Hrow.
    apply in_map_iff in Hrow as (x & <- & _). apply lookup_delete_eq.
  - intros Hin E. apply Hz. now rewrite E.
Qed.

Section ScoredSample.
Import Float Pandas FraudDetection.

Lemma scored_column :
  column "Montant" scored_sample = [Float 1; Float 3].
Proof.
  unfold column, scored_sample, get. cbn [rows map fields].
  now rewrite !lookup_insert_eq.
Qed.

Lemma scored_amounts : Forall is_amount (column "Montant" scored_sample).
Proof. rewrite scored_column. repeat (constructor; [eexists; reflexivity |]). constructor. Qed.

Lemma scored_not_null : forallb isna (column "Montant" scored_sample) = false.
Proof. now rewrite scored_column. Qed.

End ScoredSample.

(** A frame with the columns "Montant" and "zscore": the result has the
    column "Montant" only. *)
Lemma detect_anomalies_drops_zscore_column_witness :
  Pandas.columns FraudDetection.scored_sample = ["Montant"; "zscore"]
  ∧ ∃ r w' res,
      FraudDetection.detect_anomalies 0 "Montant" 3
        (FraudDetection.world_of FraudDetection.scored_sample) = (Ok r, w')
      ∧ Pandas.heap w' !! r = Some res
      ∧ Pandas.columns res = ["Montant"]
      ∧ Pandas.columns res ≠ Pandas.columns FraudDetection.scored_sample.
Proof.
  split; [reflexivity |].
  destruct (detect_anomalies_drops_zscore_column
              (FraudDetection.world_of FraudDetection.scored_sample) 0%nat
              FraudDetection.scored_sample "Montant" 3%float
              eq_refl eq_refl scored_amounts scored_not_null)
    as (r & w' & res & Hrun & Hres & Hcols & _ & _ & Hlost).
  exists r, w', res. split; [exact Hrun |]. split; [exact Hres |].
  split; [exact Hcols |]. apply Hlost. right. now left.
Defined.

(** ** The recovery ledger over several files and runs (src/data_processor.py) *)

Section MoreLedgerFacts.
Import PyStr DataProcessor.
Variable project_root : Path.
Variable encodable : string → bool.

(** A save changes the in-memory list by appending at most one identifier. *)
Lemma save_memory (p : Path) (st : Ledger) :
  processed_files (_save_processed_file project_root encodable p st) = processed_files st
  ∨ ∃ rel, relative_to p project_root = Ok rel
           ∧ processed_files (_save_processed_file project_root encodable p st)
             = (processed_files st ++ [str_path rel])%list.
Proof.
  destruct (relative_to p project_root) as [rel | e] eqn:Hrel.
  - destruct (mem (str_path rel) (processed_files st)) eqn:Hin.
    + left. now rewrite (save_known project_root encodable p rel st Hrel Hin).
    + right. exists rel. split; [reflexivity |].
      now apply save_new_memory.
  - left. unfold _save_processed_file. now rewrite Hrel.
Qed.

Lemma save_writable (p : Path) (st : Ledger) :
  ledger_writable (_save_processed_file project_root encodable p st) = ledger_writable st.
Proof.
  unfold _save_processed_file.
  destruct (relative_to p project_root); [| reflexivity].
  destruct (mem _ _); [reflexivity |]. cbn.
  destruct (ledger_writable st) eqn:E; [| exact E].
  now destruct (encodable _).
Qed.

Lemma mem_app (x : string) (l1 l2 : list string) :
  mem x (l1 ++ l2) = mem x l1 || mem x l2.
Proof. unfold mem. apply existsb_app. Qed.

Lemma saves_writable (ps : list Path) (st : Ledger) :
  ledger_writable (fold_left (λ st p, _save_processed_file project_root encodable p st) ps st)
  = ledger_writable st.
Proof.
  revert st. induction ps as [| p ps IH]; intros st; [reflexivity |].
  cbn [fold_left]. now rewrite IH, save_writable.
Qed.

(** What is in memory stays in memory. *)
Lemma save_keeps (p : Path) (st : Ledger) (id : string) :
  mem id (processed_files st) = true →
  mem id (processed_files (_save_processed_file project_root encodable p st)) = true.
Proof.
  intros H. destruct (save_memory p st) as [-> | (rel & _ & ->)]; [exact H |].
  now rewrite mem_app, H.
Qed.

Lemma saves_keep (ps : list Path) (st : Ledger) (id : string) :
  mem id (processed_files st) = true →
  mem id (processed_files
            (fold_left (λ st p, _save_processed_file project_root encodable p st) ps st)) = true.
Proof.
  revert st. induction ps as [| p ps IH]; intros st H; [exact H |].
  cbn [fold_left]. apply IH. now apply save_keeps.
Qed.

(** Saving safe identifiers that can be encoded, one after the other,
    keeps memory and file in agreement, and each of them ends up in
    memory. *)
Lemma saves_consistent (ps : list Path) (st : Ledger) :
  ledger_writable st = true → consistent st →
  (∀ p, In p ps → ∃ rel, relative_to p project_root = Ok rel
                         ∧ line_safe (str_path rel)
                         ∧ encodable (str_path rel ++ newline) = true) →
  let st' := fold_left (λ st p, _save_processed_file project_root encodable p st) ps st in
  consistent st'
  ∧ ∀ p rel, In p ps → relative_to p project_root = Ok rel →
             mem (str_path rel) (processed_files st') = true.
Proof.
  revert st. induction ps as [| p ps IH]; intros st Hw Hc Hsafe; cbn [fold_left].
  - split; [exact Hc | intros p rel []].
  - destruct (Hsafe p (or_introl eq_refl)) as (rel & Hrel & Hline & Henc).
    destruct (save_on_file project_root encodable p rel st Hrel Hw Henc Hline Hc)
      as [_ Hc1].
    destruct (IH (_save_processed_file project_root encodable p st)) as [Hc' Hin'].
    + now rewrite save_writable.
    + exact Hc1.
    + intros q Hq. apply Hsafe. now right.
    + split; [exact Hc' |]. intros q rq [<- | Hq] Hrq.
      * apply saves_keep. rewrite Hrel in Hrq. injection Hrq as <-.
        now apply save_in_memory.
      * exact (Hin' q rq Hq Hrq).
Qed.

End MoreLedgerFacts.

(** X20. Files saved one after the other are all found again by a
    processor that starts afterwards: from a ledger whose file can be read
    and written and agrees with the memory, after [_save_processed_file] on
    each file of a list (each under the project root, with an identifier
    that is a clean line and can be encoded in UTF-8), the list loaded from
    the file is the list in memory, and [_is_processed] on the reloaded
    ledger answers [True] for every file of the list and for every file
    that was processed before. *)
Theorem saved_files_survive_restart
    (project_root : DataProcessor.Path) (encodable : string → bool)
    (ps : list DataProcessor.Path) (st : DataProcessor.Ledger) :
  DataProcessor.ledger_writable st = true →
  DataProcessor.consistent st →
  (∀ p, In p ps → ∃ rel, DataProcessor.relative_to p project_root = Ok rel
                         ∧ DataProcessor.line_safe (DataProcessor.str_path rel)
                         ∧ encodable (DataProcessor.str_path rel ++ PyStr.newline)
                           = true) →
  let st' := fold_left (λ st p, DataProcessor._save_processed_file project_root
                                  encodable p st) ps st in
  let restarted := DataProcessor._load_processed_files st' in
  DataProcessor.processed_files restarted = DataProcessor.processed_files st'
  ∧ (∀ p, In p ps → fst (DataProcessor._is_processed project_root p restarted) = true)
  ∧ (∀ q, fst (DataProcessor._is_processed project_root q st) = true →
          fst (DataProcessor._is_processed project_root q restarted) = true).
Proof.
  intros Hw Hc Hsafe st' restarted.
  destruct (saves_consistent project_root encodable ps st Hw Hc Hsafe)
    as [(_ & Hsync & _) Hin].
  fold st' in Hsync, Hin.
  assert (E : DataProcessor.processed_files restarted = DataProcessor.processed_files st').
  { symmetry. exact Hsync. }
  split; [exact E |]. split.
  - intros p Hp. destruct (Hsafe p Hp) as (rel & Hrel & _).
    unfold DataProcessor._is_processed. rewrite Hrel, E. cbn [fst].
    now apply (Hin p rel).
  - intros q. unfold DataProcessor._is_processed.
    destruct (DataProcessor.relative_to q project_root) as [rel |]; cbn [fst];
      [| discriminate].
    rewrite E. apply saves_keep.
Qed.

Section RestartSample.
Import PyStr DataProcessor.

Lemma second_file_safe : line_safe "data/input/releve.pdf".
Proof.
  split; [discriminate |]. split; [reflexivity |].
  apply List.Forall_forall. intros c Hc.
  repeat (destruct Hc as [<- | Hc]; [reflexivity |]). destruct Hc.
Qed.

Lemma two_files_safe :
  ∀ p, In p [inside_file; mkPath "/" ["srv"; "app"; "data"; "input"; "releve.pdf"]] →
       ∃ rel, relative_to p sample_root = Ok rel ∧ line_safe (str_path rel)
              ∧ utf8 (str_path rel ++ newline) = true.
Proof.
  intros p [<- | [<- | []]].
  - eexists. split; [exact inside_file_relative |]. split; [exact inside_file_safe |].
    reflexivity.
  - eexists. split; [reflexivity |]. split; [exact second_file_safe | reflexivity].
Qed.

End RestartSample.

(** Two files saved on a new ledger: both are found after a restart. *)
Lemma saved_files_survive_restart_witness :
  let files := [DataProcessor.inside_file;
                DataProcessor.mkPath "/" ["srv"; "app"; "data"; "input"; "releve.pdf"]] in
  let st' := fold_left (λ st p, DataProcessor._save_processed_file
                                  DataProcessor.sample_root DataProcessor.utf8 p st)
                       files DataProcessor.new_ledger in
  DataProcessor.processed_files st'
  = ["data/input/transactions.csv"; "data/input/releve.pdf"]
  ∧ DataProcessor.processed_files (DataProcessor._load_processed_files st')
    = DataProcessor.processed_files st'
  ∧ ∀ p, In p files →
         fst (DataProcessor._is_processed DataProcessor.sample_root p
                (DataProcessor._load_processed_files st')) = true.
Proof.
  intros files st'.
  destruct (saved_files_survive_restart DataProcessor.sample_root DataProcessor.utf8 files
              DataProcessor.new_ledger eq_refl new_ledger_consistent two_files_safe)
    as (Hload & Hfound & _).
  split; [reflexivity |]. split; [exact Hload | exact Hfound].
Defined.

Section ScanFacts.
Import PyStr DataProcessor.
Variable suffix : Path → string.
Variable project_root : Path.

(** [_is_processed] may log an error; it changes nothing else, and its
    answer depends on the in-memory list only. *)
Lemma is_processed_state (p : Path) (st : Ledger) :
  processed_files (snd (_is_processed project_root p st)) = processed_files st
  ∧ ledger_file (snd (_is_processed project_root p st)) = ledger_file st
  ∧ ledger_writable (snd (_is_processed project_root p st)) = ledger_writable st.
Proof. unfold _is_processed. destruct (relative_to p project_root); repeat split. Qed.

Lemma is_processed_memory (p : Path) (st st' : Ledger) :
  processed_files st = processed_files st' →
  fst (_is_processed project_root p st) = fst (_is_processed project_root p st').
Proof.
  intros E. unfold _is_processed.
  destruct (relative_to p project_root); cbn [fst]; [now rewrite E | reflexivity].
Qed.

(** The scan: which files it returns, and what it leaves as it was. *)
Lemma files_to_process_spec (entries : list (Path * bool)) (st : Ledger) :
  processed_files (snd (files_to_process suffix project_root entries st))
  = processed_files st
  ∧ ledger_file (snd (files_to_process suffix project_root entries st)) = ledger_file st
  ∧ ∀ f, In f (fst (files_to_process suffix project_root entries st))
         ↔ In (f, true) entries ∧ supported suffix f = true
           ∧ fst (_is_processed project_root f st) = false.
Proof.
  revert st. induction entries as [| [g is_file] entries IH]; intros st.
  - cbn. repeat split; tauto.
  - cbn [files_to_process].
    destruct (is_file && supported suffix g) eqn:Hsel.
    + apply andb_true_iff in Hsel as [-> Hsup].
      destruct (_is_processed project_root g st) as [done st1] eqn:Hg.
      pose proof (is_processed_state g st) as (Hm & Hf & _). rewrite Hg in Hm, Hf.
      cbn [snd] in Hm, Hf.
      destruct (IH st1) as (IHm & IHf & IHin).
      destruct (files_to_process suffix project_root entries st1) as [files st2].
      cbn [fst snd] in *.
      split; [congruence |]. split; [congruence |].
      intros f.
      assert (Hsame : fst (_is_processed project_root f st1)
                      = fst (_is_processed project_root f st))
        by now apply is_processed_memory.
      assert (Hdone : done = fst (_is_processed project_root g st)) by now rewrite Hg.
      destruct done; cbn [In]; rewrite IHin, Hsame.
      * split; [tauto |]. intros ([E | Hin] & Hs & Hp); [| tauto].
        injection E as ->. congruence.
      * split.
        -- intros [<- | H]; [| tauto]. auto.
        -- intros ([E | Hin] & Hs & Hp); [| tauto]. injection E as ->. now left.
    + destruct (IH st) as (IHm & IHf & IHin).
      split; [exact IHm |]. split; [exact IHf |].
      intros f. rewrite IHin. cbn [In]. split; [tauto |].
      intros ([E | Hin] & Hs & Hp); [| tauto].
      injection E as -> ->. cbn [andb] in Hsel. congruence.
Qed.

End ScanFacts.

(** X21. The scan that opens [run_pipeline] returns exactly the entries of
    the directory that are regular files, have a supported suffix
    (.csv, .xlsx, .xls, .pdf, in any case) and are not recorded as
    processed; it changes neither the in-memory list nor the ledger file. *)
Theorem files_to_process_selects
    (suffix : DataProcessor.Path → string) (project_root : DataProcessor.Path)
    (entries : list (DataProcessor.Path * bool)) (st : DataProcessor.Ledger) :
  let scan := DataProcessor.files_to_process suffix project_root entries st in
  DataProcessor.processed_files (snd scan) = DataProcessor.processed_files st
  ∧ DataProcessor.ledger_file (snd scan) = DataProcessor.ledger_file st
  ∧ ∀ f, In f (fst scan)
         ↔ In (f, true) entries
           ∧ DataProcessor.supported suffix f = true
           ∧ fst (DataProcessor._is_processed project_root f st) = false.
Proof. intros scan. apply files_to_process_spec. Qed.

(** X22. A file outside the project root is never recorded, and so is
    taken again by every scan: [_save_processed_file] on it changes neither
    the in-memory list nor the ledger file and logs an error, and whatever
    the ledger holds, a scan of a directory that lists the file (a regular
    file of a supported type) returns it. *)
Theorem outside_file_is_rescanned
    (suffix : DataProcessor.Path → string) (project_root p : DataProcessor.Path)
    (encodable : string → bool)
    (e : exn) (entries : list (DataProcessor.Path * bool)) (st : DataProcessor.Ledger) :
  DataProcessor.relative_to p project_root = Raise e →
  In (p, true) entries →
  DataProcessor.supported suffix p = true →
  let saved := DataProcessor._save_processed_file project_root encodable p st in
  DataProcessor.processed_files saved = DataProcessor.processed_files st
  ∧ DataProcessor.ledger_file saved = DataProcessor.ledger_file st
  ∧ DataProcessor.errors saved
    = (DataProcessor.errors st ++ ["recovery_log_write_failed"])%list
  ∧ In p (fst (DataProcessor.files_to_process suffix project_root entries saved)).
Proof.
  intros Hrel Hin Hsup saved. subst saved.
  unfold DataProcessor._save_processed_file. rewrite Hrel.
  repeat split.
  apply files_to_process_spec. repeat split; try assumption.
  unfold DataProcessor._is_processed. now rewrite Hrel.
Qed.

Lemma outside_file_is_rescanned_witness :
  let saved := DataProcessor._save_processed_file DataProcessor.sample_root
                 DataProcessor.utf8 DataProcessor.outside_file DataProcessor.new_ledger in
  DataProcessor.processed_files saved = []
  ∧ In DataProcessor.outside_file
       (fst (DataProcessor.files_to_process (λ _, ".CSV") DataProcessor.sample_root
               [(DataProcessor.outside_file, true)] saved)).
Proof.
  intros saved.
  destruct (outside_file_is_rescanned (λ _, ".CSV") DataProcessor.sample_root
              DataProcessor.outside_file DataProcessor.utf8 ValueError
              [(DataProcessor.outside_file, true)] DataProcessor.new_ledger
              eq_refl (or_introl eq_refl) eq_refl)
    as (Hmem & _ & _ & Hscan).
  split; [exact Hmem | exact Hscan].
Defined.

(** X23. When the ledger file cannot be written, a new identifier is kept
    in memory only: the file is unchanged, an error is logged, and the
    current processor treats the file as processed. Saving the same file
    again, even once the ledger has become writable, writes nothing, so a
    processor that starts afterwards finds the ledger as it was before. *)
Theorem save_processed_file_unwritable
    (project_root p rel : DataProcessor.Path) (encodable : string → bool)
    (st : DataProcessor.Ledger) :
  DataProcessor.relative_to p project_root = Ok rel →
  DataProcessor.ledger_writable st = false →
  PyStr.mem (DataProcessor.str_path rel) (DataProcessor.processed_files st) = false →
  let saved := DataProcessor._save_processed_file project_root encodable p st in
  let writable_again :=
    DataProcessor.mkLedger (DataProcessor.processed_files saved)
      (DataProcessor.ledger_file saved) (DataProcessor.ledger_readable saved) true
      (DataProcessor.errors saved) in
  DataProcessor.processed_files saved
  = (DataProcessor.processed_files st ++ [DataProcessor.str_path rel])%list
  ∧ DataProcessor.ledger_file saved = DataProcessor.ledger_file st
  ∧ DataProcessor.errors saved
    = (DataProcessor.errors st ++ ["recovery_log_write_failed"])%list
  ∧ fst (DataProcessor._is_processed project_root p saved) = true
  ∧ DataProcessor._save_processed_file project_root encodable p writable_again
    = writable_again
  ∧ DataProcessor._load_processed_files writable_again
    = DataProcessor._load_processed_files
        (DataProcessor.mkLedger (DataProcessor.processed_files st)
           (DataProcessor.ledger_file st) (DataProcessor.ledger_readable st) true
           (DataProcessor.errors saved))
  ∧ DataProcessor.ledger_entries writable_again = DataProcessor.ledger_entries st.
Proof.
  intros Hrel Hw Hnew saved writable_again.
  assert (Hmem : DataProcessor.processed_files saved
                 = (DataProcessor.processed_files st ++ [DataProcessor.str_path rel])%list)
    by now apply save_new_memory.
  assert (Hfile : DataProcessor.ledger_file saved = DataProcessor.ledger_file st).
  { subst saved. unfold DataProcessor._save_processed_file.
    rewrite Hrel, Hnew. cbn. now rewrite Hw. }
  assert (Herr : DataProcessor.errors saved
                 = (DataProcessor.errors st ++ ["recovery_log_write_failed"])%list).
  { subst saved. unfold DataProcessor._save_processed_file.
    rewrite Hrel, Hnew. cbn. now rewrite Hw. }
  assert (Hread : DataProcessor.ledger_readable saved = DataProcessor.ledger_readable st)
    by apply save_readable.
  split; [exact Hmem |]. split; [exact Hfile |]. split; [exact Herr |].
  assert (Hin : PyStr.mem (DataProcessor.str_path rel)
                  (DataProcessor.processed_files saved) = true)
    by now apply save_in_memory.
  split; [unfold DataProcessor._is_processed; now rewrite Hrel |].
  split; [now apply (save_known project_root encodable p rel writable_again Hrel) |].
  subst writable_again. rewrite Hfile, Hread. split; [reflexivity |].
  now rewrite !ledger_entries_file.
Qed.

Lemma save_processed_file_unwritable_witness :
  let st := DataProcessor.mkLedger [] None true false [] in
  let saved := DataProcessor._save_processed_file DataProcessor.sample_root
                 DataProcessor.utf8 DataProcessor.inside_file st in
  DataProcessor.processed_files saved = ["data/input/transactions.csv"]
  ∧ DataProcessor.ledger_file saved = None
  ∧ fst (DataProcessor._is_processed DataProcessor.sample_root
           DataProcessor.inside_file saved) = true
  ∧ fst (DataProcessor._is_processed DataProcessor.sample_root
           DataProcessor.inside_file (DataProcessor._load_processed_files saved)) = false.
Proof.
  intros st saved.
  destruct (save_processed_file_unwritable DataProcessor.sample_root
              DataProcessor.inside_file _ DataProcessor.utf8 st
              inside_file_relative eq_refl eq_refl)
    as (Hmem & Hfile & _ & Hproc & _).
  split; [exact Hmem |]. split; [exact Hfile |]. split; [exact Hproc | reflexivity].
Defined.

(** X24. Recording a file never makes [_is_processed] forget another:
    what was processed stays processed, and a file whose identifier differs
    from the one recorded keeps the answer it had. *)
Theorem save_processed_file_keeps_others
    (project_root p q : DataProcessor.Path) (encodable : string → bool)
    (st : DataProcessor.Ledger) :
  let saved := DataProcessor._save_processed_file project_root encodable p st in
  (fst (DataProcessor._is_processed project_root q st) = true →
   fst (DataProcessor._is_processed project_root q saved) = true)
  ∧ ((∀ rp rq, DataProcessor.relative_to p project_root = Ok rp →
               DataProcessor.relative_to q project_root = Ok rq →
               DataProcessor.str_path rp ≠ DataProcessor.str_path rq) →
     fst (DataProcessor._is_processed project_root q saved)
     = fst (DataProcessor._is_processed project_root q st)).
Proof.
  intros saved. subst saved. unfold DataProcessor._is_processed.
  destruct (DataProcessor.relative_to q project_root) as [rq |] eqn:Hq; cbn [fst];
    [| split; auto].
  split; [apply save_keeps |].
  intros Hne.
  destruct (save_memory project_root encodable p st) as [-> | (rp & Hp & ->)];
    [reflexivity |].
  rewrite mem_app. unfold PyStr.mem at 2. cbn [existsb].
  destruct (String.eqb_spec (DataProcessor.str_path rq) (DataProcessor.str_path rp))
    as [E | _]; [| now rewrite !orb_false_r].
  exfalso. now apply (Hne rp rq).
Qed.

(** ** What [_load_processed_files] reads (src/data_processor.py) *)

Section StripFacts.
Import PyStr DataProcessor.

(** A list that does not start with white space. *)
Lemma lstrip_fixed (l : list ascii) :
  match l with [] => True | c :: _ => is_space c = false end → lstrip_chars l = l.
Proof. destruct l as [| c l]; [reflexivity |]. cbn. now intros ->. Qed.

Lemma lstrip_head (l : list ascii) :
  match lstrip_chars l with [] => True | c :: _ => is_space c = false end.
Proof.
  induction l as [| c l IH]; [exact I |]. cbn [lstrip_chars].
  destruct (is_space c) eqn:E; [exact IH | exact E].
Qed.

Lemma lstrip_idempotent (l : list ascii) : lstrip_chars (lstrip_chars l) = lstrip_chars l.
Proof. apply lstrip_fixed, lstrip_head. Qed.

(** Stripping on the left removes a prefix. *)
Lemma lstrip_suffix (l : list ascii) : ∃ sp, l = (sp ++ lstrip_chars l)%list.
Proof.
  induction l as [| c l [sp IH]]; [now exists [] |]. cbn [lstrip_chars].
  destruct (is_space c).
  - exists (c :: sp). cbn. now rewrite <- IH.
  - now exists [].
Qed.

Lemma chars_strip (s : string) :
  chars (strip s) = rev (lstrip_chars (rev (lstrip_chars (chars s)))).
Proof. apply chars_of_chars. Qed.

(** The characters of [s.strip()] start and end with no white space. *)
Lemma strip_trimmed (s : string) :
  lstrip_chars (chars (strip s)) = chars (strip s)
  ∧ lstrip_chars (rev (chars (strip s))) = rev (chars (strip s)).
Proof.
  rewrite chars_strip. set (l1 := lstrip_chars (chars s)).
  set (x := lstrip_chars (rev l1)). split.
  - apply lstrip_fixed.
    destruct (lstrip_suffix (rev l1)) as [sp Hsp]. fold x in Hsp.
    assert (E : l1 = (rev x ++ rev sp)%list).
    { rewrite <- (rev_involutive l1), Hsp, rev_app_distr. reflexivity. }
    pose proof (lstrip_head (chars s)) as Hh. fold l1 in Hh. rewrite E in Hh.
    destruct (rev x) as [| c r]; [exact I | exact Hh].
  - rewrite rev_involutive. apply lstrip_idempotent.
Qed.

Lemma strip_idempotent (s : string) : strip (strip s) = strip s.
Proof.
  apply chars_inj. destruct (strip_trimmed s) as [H1 H2].
  rewrite (chars_strip (strip s)), H1, H2. apply rev_involutive.
Qed.

(** What is kept by a strip was there. *)
Lemma strip_In (s : string) (c : ascii) : In c (chars (strip s)) → In c (chars s).
Proof.
  rewrite chars_strip, <- in_rev. intros H.
  destruct (lstrip_suffix (rev (lstrip_chars (chars s)))) as [sp1 E1].
  assert (H1 : In c (rev (lstrip_chars (chars s)))).
  { rewrite E1. apply in_or_app. now right. }
  rewrite <- in_rev in H1.
  destruct (lstrip_suffix (chars s)) as [sp2 E2].
  rewrite E2. apply in_or_app. now right.
Qed.

(** No line holds a line terminator. *)
Lemma split_lines_no_terminator (cur l : list ascii) :
  Forall (fun c => is_newline c = false) cur →
  Forall (Forall (fun c => is_newline c = false)) (split_lines cur l).
Proof.
  revert cur. induction l as [| c l IH]; intros cur Hcur; cbn [split_lines].
  - constructor; [| constructor]. now apply Forall_rev.
  - destruct (is_newline c) eqn:E.
    + constructor; [now apply Forall_rev |]. apply IH. constructor.
    + apply IH. now constructor.
Qed.

Lemma read_entries_clean (text id : string) :
  In id (read_entries text) → line_safe id.
Proof.
  unfold read_entries, entries_from. intros H.
  apply List.filter_In in H as [H Hne].
  apply in_map_iff in H as (line & <- & Hline).
  split; [| split].
  - intros E. rewrite E in Hne. discriminate.
  - apply strip_idempotent.
  - pose proof (split_lines_no_terminator [] (chars text) (List.Forall_nil _)) as Hall.
    rewrite List.Forall_forall in Hall. specialize (Hall line Hline).
    rewrite List.Forall_forall in Hall |- *.
    intros c Hc. apply Hall. apply strip_In in Hc. now rewrite chars_of_chars in Hc.
Qed.

End StripFacts.

(** X25. Every identifier that [_load_processed_files] reads from the
    ledger file is a clean line: it is not empty, it has no white space at
    either end, and it holds no line terminator. Blank lines give no entry,
    without a file the list is empty, and a file that cannot be read or
    decoded gives the empty list and one logged error. *)
Theorem load_processed_files_reads_clean_lines (st : DataProcessor.Ledger) :
  (∀ id, In id (DataProcessor.processed_files (DataProcessor._load_processed_files st)) →
         DataProcessor.line_safe id)
  ∧ (DataProcessor.ledger_file st = None →
     DataProcessor.processed_files (DataProcessor._load_processed_files st) = [])
  ∧ (DataProcessor.ledger_file st ≠ None →
     DataProcessor.ledger_readable st = false →
     DataProcessor.processed_files (DataProcessor._load_processed_files st) = []
     ∧ DataProcessor.errors (DataProcessor._load_processed_files st)
       = (DataProcessor.errors st ++ ["recovery_log_load_failed"])%list).
Proof.
  unfold DataProcessor._load_processed_files. cbn.
  destruct (DataProcessor.ledger_file st) as [text |].
  - destruct (DataProcessor.ledger_readable st); cbn.
    + split; [| split; [discriminate | discriminate]].
      intros id. apply read_entries_clean.
    + split; [intros id [] |]. split; [discriminate | now split].
  - split; [intros id [] |]. split; [reflexivity | congruence].
Qed.

(** ** What [_validate_data] hands over, and what it does to its argument
       (src/data_processor.py) *)

Section ResultRows.
Import PyStr Pandas Validation DataProcessor.
Variable validation_rules : Rules.
Variable float_repr : Float.t → string.

#[local] Abbreviation row_accepted := (row_accepted validation_rules float_repr).
#[local] Abbreviation checked := (checked validation_rules float_repr).
#[local] Abbreviation valid_part := (valid_part validation_rules float_repr).
#[local] Abbreviation invalid_part := (invalid_part validation_rules float_repr).
#[local] Abbreviation masked := (masked float_repr).
#[local] Abbreviation finish := (finish float_repr).
#[local] Abbreviation mask_cell := (mask_cell float_repr).
#[local] Abbreviation published := (published float_repr).

Lemma has_column_add (c c' : string) (cols : list string) :
  mem c (add_column_name c' cols) = mem c cols || String.eqb c c'.
Proof.
  unfold add_column_name. destruct (mem c' cols) eqn:E.
  - destruct (String.eqb_spec c c') as [-> | _]; [now rewrite E | now rewrite orb_false_r].
  - rewrite mem_app. unfold mem at 2. cbn [existsb]. now rewrite orb_false_r.
Qed.

Lemma has_column_set_column_keep (c c' : string) (vals : list cell) (d : DataFrame) :
  has_column c d = true → has_column c (set_column c' vals d) = true.
Proof.
  unfold has_column, set_column. cbn [columns]. rewrite has_column_add. now intros ->.
Qed.

Lemma has_column_fill_missing (c col : string) (d : DataFrame) :
  has_column c d = true ∨ c = col → has_column c (fill_missing d col) = true.
Proof.
  unfold fill_missing. destruct (has_column col d) eqn:E.
  - intros [H | ->]; assumption.
  - intros [H | ->]; [now apply has_column_set_column_keep | apply has_column_set_column].
Qed.

Lemma has_column_filled (c : string) (cols : list string) (d : DataFrame) :
  has_column c d = true ∨ In c cols →
  has_column c (fold_left fill_missing cols d) = true.
Proof.
  revert d. induction cols as [| col cols IH]; intros d; cbn [fold_left In].
  - intros [H | []]. exact H.
  - intros H. apply IH.
    destruct H as [H | [-> | H]]; [left | left | now right];
      apply has_column_fill_missing; auto.
Qed.

Lemma has_column_drop_other (c c' : string) (d : DataFrame) :
  c ≠ c' → has_column c (drop_column c' d) = has_column c d.
Proof.
  intros Hne. unfold has_column, drop_column, mem. cbn [columns].
  induction (columns d) as [| x cols IH]; [reflexivity |]. cbn [List.filter existsb].
  destruct (String.eqb_spec x c') as [-> | _]; cbn [negb existsb].
  - rewrite IH. destruct (String.eqb_spec c c'); [contradiction | reflexivity].
  - now rewrite IH.
Qed.

(** Masking a column that is there, row by row. *)
Lemma rows_masked (col : string) (d : DataFrame) :
  has_column col d = true → rows (masked col d) = map (mask_cell col) (rows d).
Proof.
  intros H. unfold DataProcessor.masked. rewrite H. unfold set_column, column.
  cbn [rows]. rewrite map_map, zip_with_map_same. reflexivity.
Qed.

Lemma has_column_masked (c col : string) (d : DataFrame) :
  has_column c d = true → has_column c (masked col d) = true.
Proof.
  intros H. unfold DataProcessor.masked. destruct (has_column col d); [| exact H].
  now apply has_column_set_column_keep.
Qed.

(** The rows of the two results: the selected rows of the filled input,
    each published. *)
Lemma rows_finished (b : Row → bool) (d : DataFrame) :
  rows (finish (mask_rows (map b (rows (with_expected d))) (checked d)))
  = map published (List.filter b (rows (with_expected d))).
Proof.
  set (sel := mask_rows (map b (rows (with_expected d))) (checked d)).
  assert (Hcol : ∀ c, In c expected_cols → has_column c (drop_column "is_valid" sel) = true).
  { intros c Hc. rewrite has_column_drop_other.
    - subst sel. unfold mask_rows, has_column. cbn [columns].
      apply has_column_set_column_keep. apply has_column_filled. now right.
    - cbn in Hc. intuition (subst; discriminate). }
  unfold DataProcessor.finish. fold sel.
  rewrite rows_masked by (apply has_column_masked, Hcol; cbn; tauto).
  rewrite rows_masked by (apply Hcol; cbn; tauto).
  subst sel. unfold drop_column, mask_rows, DataProcessor.checked, set_column.
  cbn [rows]. rewrite zip_with_map_same, select_map_same, !map_map.
  apply map_ext. intros r. unfold DataProcessor.published. now rewrite drop_set_cell.
Qed.

Lemma get_set_cell_other (c c' : string) (v : cell) (r : Row) :
  c ≠ c' → get c (fields (set_cell c' v r)) = get c (fields r).
Proof. intros H. unfold get, set_cell. cbn [fields]. now rewrite lookup_insert_ne. Qed.

(** A published row, cell by cell. *)
Lemma published_cells (r : Row) :
  label (published r) = label r
  ∧ get "IBAN_Emetteur" (fields (published r))
    = Text (Utils.mask_sensitive_data (py_str float_repr (get "IBAN_Emetteur" (fields r))) 4)
  ∧ get "IBAN_Beneficiaire" (fields (published r))
    = Text (Utils.mask_sensitive_data
              (py_str float_repr (get "IBAN_Beneficiaire" (fields r))) 4)
  ∧ fields (published r) !! "is_valid" = None
  ∧ ∀ c, c ≠ "IBAN_Emetteur" → c ≠ "IBAN_Beneficiaire" → c ≠ "is_valid" →
         fields (published r) !! c = fields r !! c.
Proof.
  unfold DataProcessor.published, DataProcessor.mask_cell, set_cell, drop_cell, get.
  cbn [fields label]. split; [reflexivity |]. split; [| split; [| split]].
  - rewrite lookup_insert_ne by discriminate. rewrite lookup_insert_eq. cbn [default].
    now rewrite lookup_delete_ne by discriminate.
  - rewrite lookup_insert_eq. cbn [default].
    rewrite lookup_insert_ne by discriminate. now rewrite lookup_delete_ne by discriminate.
  - rewrite !lookup_insert_ne by discriminate. apply lookup_delete_eq.
  - intros c H1 H2 H3. rewrite !lookup_insert_ne by congruence.
    now rewrite lookup_delete_ne by congruence.
Qed.

End ResultRows.

Section CompleteInput.
Import Pandas DataProcessor.

(** With every expected column present, nothing is filled in. *)
Lemma with_expected_present (d : DataFrame) :
  (∀ c, In c expected_cols → has_column c d = true) → with_expected d = d.
Proof.
  unfold with_expected. generalize expected_cols. intros cols.
  induction cols as [| col cols IH]; intros H; [reflexivity |].
  cbn [fold_left]. unfold fill_missing at 2. rewrite (H col) by now left.
  apply IH. intros c Hc. apply H. now right.
Qed.

End CompleteInput.

(** X26. The content of the two frames [_validate_data] returns for an
    input that is not empty and has the five expected columns: the valid
    frame holds, in order, the rows of the input that
    [validate_transaction] accepts, the invalid frame all the others; each
    such row keeps its label and all its cells but three: the cell
    "is_valid" is absent, and the cells "IBAN_Emetteur" and
    "IBAN_Beneficiaire" are the masked text of what the input held (at most
    its last four characters remain). *)
Theorem _validate_data_results
    (validation_rules : Validation.Rules) (float_repr : Float.t → string)
    (w : Pandas.World) (df : Pandas.ref) (d : Pandas.DataFrame) :
  Pandas.heap w !! df = Some d →
  Pandas.is_empty d = false →
  (∀ c, In c DataProcessor.expected_cols → Pandas.has_column c d = true) →
  let ok := DataProcessor.row_accepted validation_rules float_repr in
  let out := DataProcessor.published float_repr in
  ∃ valid_df invalid_df w' dv di,
    DataProcessor._validate_data validation_rules float_repr df w
    = (Ok (valid_df, invalid_df), w')
    ∧ Pandas.heap w' !! valid_df = Some dv
    ∧ Pandas.heap w' !! invalid_df = Some di
    ∧ Pandas.rows dv = map out (List.filter ok (Pandas.rows d))
    ∧ Pandas.rows di = map out (List.filter (λ r, negb (ok r)) (Pandas.rows d))
    ∧ ∀ r,
        Pandas.label (out r) = Pandas.label r
        ∧ Pandas.get "IBAN_Emetteur" (Pandas.fields (out r))
          = Pandas.Text (Utils.mask_sensitive_data
                           (Validation.py_str float_repr
                              (Pandas.get "IBAN_Emetteur" (Pandas.fields r))) 4)
        ∧ Pandas.get "IBAN_Beneficiaire" (Pandas.fields (out r))
          = Pandas.Text (Utils.mask_sensitive_data
                           (Validation.py_str float_repr
                              (Pandas.get "IBAN_Beneficiaire" (Pandas.fields r))) 4)
        ∧ Pandas.fields (out r) !! "is_valid" = None
        ∧ ∀ c, c ≠ "IBAN_Emetteur" → c ≠ "IBAN_Beneficiaire" → c ≠ "is_valid" →
               Pandas.fields (out r) !! c = Pandas.fields r !! c.
Proof.
  intros H He Hcols ok out.
  destruct (DataProcessor._validate_data validation_rules float_repr df w)
    as [o w'] eqn:Hrun.
  destruct (_validate_data_trace validation_rules float_repr df d w (o, w') H He Hrun)
    as (Ho & Hv & Hi & _).
  cbn [fst snd] in Ho, Hv, Hi. subst o.
  eexists _, _, w', _, _. split; [reflexivity |].
  split; [exact Hv |]. split; [exact Hi |].
  split.
  { unfold DataProcessor.valid_part.
    now rewrite rows_finished, (with_expected_present d Hcols). }
  split.
  { unfold DataProcessor.invalid_part.
    now rewrite rows_finished, (with_expected_present d Hcols). }
  apply published_cells.
Qed.

Section CompleteSample.
Import Pandas DataProcessor.

Lemma two_transfers_complete :
  ∀ c, In c expected_cols → has_column c two_transfers = true.
Proof. intros c Hc. cbn in Hc. intuition (subst; reflexivity). Qed.

End CompleteSample.

(** The valid and the oversized transfer: one row in each result, the
    IBANs masked. *)
Lemma _validate_data_results_witness :
  ∃ valid_df invalid_df w' dv di,
    DataProcessor._validate_data Validation.sample_rules Validation.plain_repr 0
      (FraudDetection.world_of DataProcessor.two_transfers)
    = (Ok (valid_df, invalid_df), w')
    ∧ Pandas.heap w' !! valid_df = Some dv
    ∧ Pandas.heap w' !! invalid_df = Some di
    ∧ Pandas.rows dv
      = [DataProcessor.published Validation.plain_repr (Pandas.mkRow 0 Validation.valid_transfer)]
    ∧ Pandas.rows di
      = [DataProcessor.published Validation.plain_repr (Pandas.mkRow 1 Validation.large_transfer)]
    ∧ Pandas.get "IBAN_Emetteur"
        (Pandas.fields (DataProcessor.published Validation.plain_repr
                          (Pandas.mkRow 0 Validation.valid_transfer)))
      = Pandas.Text "************************0123".
Proof.
  destruct (_validate_data_results Validation.sample_rules Validation.plain_repr
              (FraudDetection.world_of DataProcessor.two_transfers) 0%nat
              DataProcessor.two_transfers two_transfers_stored eq_refl
              two_transfers_complete)
    as (valid_df & invalid_df & w' & dv & di & Hrun & Hv & Hi & Rv & Ri & Hcells).
  exists valid_df, invalid_df, w', dv, di.
  unfold DataProcessor.two_transfers in Rv, Ri. cbn [Pandas.rows List.filter] in Rv, Ri.
  rewrite valid_transfer_accepted, large_transfer_rejected in Rv, Ri.
  split; [exact Hrun |]. split; [exact Hv |]. split; [exact Hi |].
  split; [exact Rv |]. split; [exact Ri |].
  destruct (Hcells (Pandas.mkRow 0 Validation.valid_transfer)) as (_ & E & _).
  rewrite E. reflexivity.
Defined.

Section ArgumentFacts.
Import PyStr Pandas Validation DataProcessor.
Variable validation_rules : Rules.
Variable float_repr : Float.t → string.

#[local] Abbreviation row_accepted := (row_accepted validation_rules float_repr).
#[local] Abbreviation checked := (checked validation_rules float_repr).

Lemma zip_with_set_cell_get (c c' : string) (rs : list Row) (vals : list cell) :
  c ≠ c' → length vals = length rs →
  map (λ r, get c (fields r)) (zip_with (λ r v, set_cell c' v r) rs vals)
  = map (λ r, get c (fields r)) rs.
Proof.
  intros Hne. revert vals. induction rs as [| r rs IH]; intros [| v vals] Hl;
    cbn in *; try reflexivity; try discriminate.
  rewrite IH by lia. f_equal. unfold get. now rewrite lookup_insert_ne.
Qed.

(** Assigning a column leaves the values of the other columns. *)
Lemma column_set_column_other (c c' : string) (vals : list cell) (d : DataFrame) :
  c ≠ c' → length vals = nrows d → column c (set_column c' vals d) = column c d.
Proof. intros Hne Hl. unfold column, set_column. cbn [rows]. now apply zip_with_set_cell_get. Qed.

Lemma nrows_fill_missing (d : DataFrame) (col : string) : nrows (fill_missing d col) = nrows d.
Proof.
  unfold fill_missing. destruct (has_column col d); [reflexivity |].
  apply nrows_set_column, length_replicate.
Qed.

Lemma column_fill_missing (c col : string) (d : DataFrame) :
  has_column c d = true → column c (fill_missing d col) = column c d.
Proof.
  intros H. unfold fill_missing. destruct (has_column col d) eqn:E; [reflexivity |].
  apply column_set_column_other; [congruence | apply length_replicate].
Qed.

(** Filling in the expected columns leaves the columns that were there. *)
Lemma column_with_expected (c : string) (d : DataFrame) :
  has_column c d = true → column c (with_expected d) = column c d.
Proof.
  unfold with_expected. generalize expected_cols. intros cols. revert d.
  induction cols as [| col cols IH]; intros d H; [reflexivity |].
  cbn [fold_left]. rewrite IH by (apply has_column_fill_missing; now left).
  now apply column_fill_missing.
Qed.

(** The frame left in the caller's object by a regular run. *)
Lemma checked_columns (d : DataFrame) :
  has_column "is_valid" (checked d) = true
  ∧ (∀ c, In c expected_cols → has_column c (checked d) = true)
  ∧ column "is_valid" (checked d) = map (λ r, Bool (row_accepted r)) (rows (with_expected d))
  ∧ labels (checked d) = labels d
  ∧ ∀ c, c ≠ "is_valid" → has_column c d = true → column c (checked d) = column c d.
Proof.
  unfold DataProcessor.checked. split; [apply has_column_set_column |]. split; [| split; [| split]].
  - intros c Hc. apply has_column_set_column_keep, has_column_filled. now right.
  - apply column_set_column_rows.
  - rewrite labels_set_column by (unfold nrows; now rewrite length_map).
    apply labels_with_expected.
  - intros c Hne Hc.
    rewrite column_set_column_other; [now apply column_with_expected | exact Hne |].
    unfold nrows. now rewrite length_map.
Qed.

End ArgumentFacts.

(** X27. [_validate_data] works on the frame object it is given, not on a
    copy: after a run on an input that is not empty, the caller's frame has
    the column "is_valid" (the verdict of each row) and every expected
    column, its labels and the values of the columns it had are unchanged,
    so its IBANs are still in clear. An empty input is left as it was. *)
Theorem _validate_data_changes_its_argument
    (validation_rules : Validation.Rules) (float_repr : Float.t → string)
    (w : Pandas.World) (df : Pandas.ref) (d : Pandas.DataFrame) :
  Pandas.heap w !! df = Some d →
  let after :=
    Pandas.heap (snd (DataProcessor._validate_data validation_rules float_repr df w)) !! df in
  (Pandas.is_empty d = true → after = Some d)
  ∧ (Pandas.is_empty d = false →
     ∃ d', after = Some d'
       ∧ Pandas.has_column "is_valid" d' = true
       ∧ (∀ c, In c DataProcessor.expected_cols → Pandas.has_column c d' = true)
       ∧ Pandas.column "is_valid" d'
         = map (λ r, Pandas.Bool (DataProcessor.row_accepted validation_rules float_repr r))
               (Pandas.rows (DataProcessor.with_expected d))
       ∧ Pandas.labels d' = Pandas.labels d
       ∧ ∀ c, c ≠ "is_valid" → Pandas.has_column c d = true →
              Pandas.column c d' = Pandas.column c d).
Proof.
  intros H after. subst after. split; intros He.
  - rewrite (_validate_data_empty validation_rules float_repr df d w H He).
    cbn [snd Pandas.heap]. now apply lookup_app_l_Some.
  - destruct (DataProcessor._validate_data validation_rules float_repr df w)
      as [o w'] eqn:Hrun.
    destruct (_validate_data_trace validation_rules float_repr df d w (o, w') H He Hrun)
      as (_ & _ & _ & Hd).
    eexists. split; [exact Hd |]. apply checked_columns.
Qed.

(** The two transfers: the caller's frame gains "is_valid" and keeps the
    issuer IBANs in clear. *)
Lemma _validate_data_changes_its_argument_witness :
  ∃ d',
    Pandas.heap (snd (DataProcessor._validate_data Validation.sample_rules
                        Validation.plain_repr 0
                        (FraudDetection.world_of DataProcessor.two_transfers))) !! 0%nat
    = Some d'
    ∧ Pandas.has_column "is_valid" DataProcessor.two_transfers = false
    ∧ Pandas.has_column "is_valid" d' = true
    ∧ Pandas.column "IBAN_Emetteur" d'
      = Pandas.column "IBAN_Emetteur" DataProcessor.two_transfers.
Proof.
  destruct (proj2 (_validate_data_changes_its_argument Validation.sample_rules
                     Validation.plain_repr
                     (FraudDetection.world_of DataProcessor.two_transfers) 0%nat
                     DataProcessor.two_transfers two_transfers_stored) eq_refl)
    as (d' & Hd & Hv & _ & _ & _ & Hcols).
  exists d'. split; [exact Hd |]. split; [reflexivity |]. split; [exact Hv |].
  apply Hcols; [discriminate | reflexivity].
Defined.

(** ** Reading one file ([_safe_process_file], src/data_processor.py) *)

Section DispatchFacts.
Import PyStr Pandas DataProcessor.

(** After a reader: its frame with the path, or [None] and a log line,
    also when it raised. *)
Lemma after_reader (reader : Path → M (option ref)) (p : Path) (w : World) :
  ∃ res w',
    try_except
      (reader p ≫= λ df : option ref,
         match df with
         | Some df => mret (Some (df, p))
         | None => log_event "file_processing_returned_none";; mret None
         end)
      (λ _, log_event "file_processing_failure";; mret None) w = (Ok res, w')
    ∧ ∀ df q, res = Some (df, q) → q = p.
Proof.
  unfold try_except. rewrite bind_run.
  destruct (reader p w) as [[[df |] | e] w1].
  - eexists _, _. split; [reflexivity |].
    intros df' q E. now injection E as _ <-.
  - eexists _, _. split; [reflexivity |]. discriminate.
  - eexists _, _. split; [reflexivity |]. discriminate.
Qed.

End DispatchFacts.

(** X28. [_safe_process_file] lets no exception of a reader escape: for
    any three readers and any file it returns normally; when it returns a
    frame, the path returned with it is the path it was given and the suffix
    is a supported one; for a file of another type it returns [None] without
    calling a reader, leaving one line in the log. *)
Theorem _safe_process_file_never_raises
    (suffix : DataProcessor.Path → string)
    (_process_csv _process_excel _process_pdf : DataProcessor.Path → Pandas.M (option Pandas.ref))
    (p : DataProcessor.Path) (w : Pandas.World) :
  ∃ res w',
    DataProcessor._safe_process_file suffix _process_csv _process_excel _process_pdf p w
    = (Ok res, w')
    ∧ (∀ df q, res = Some (df, q) → q = p ∧ DataProcessor.supported suffix p = true)
    ∧ (DataProcessor.supported suffix p = false →
       res = None
       ∧ w' = Pandas.mkWorld (Pandas.heap w) (Pandas.stdout w)
                (Pandas.log w ++ ["unsupported_file_type"])).
Proof.
  unfold DataProcessor._safe_process_file, DataProcessor.supported. cbv zeta.
  set (s := PyStr.lower (suffix p)). unfold PyStr.mem. cbn [existsb].
  destruct (String.eqb s ".csv"), (String.eqb s ".xlsx"), (String.eqb s ".xls"),
           (String.eqb s ".pdf"); cbn [orb];
    try (match goal with
         | |- context [Pandas.try_except (?reader p ≫= _)] =>
             destruct (after_reader reader p w) as (res & w' & Hrun & Hq)
         end;
         exists res, w'; split; [exact Hrun |]; split; [| discriminate];
         intros df q E; split; [eauto | reflexivity]).
  eexists _, _. split; [reflexivity |]. split; [discriminate |].
  intros _. split; reflexivity.
Qed.

(** ** Column names after [_clean_data] (src/data_processor.py) *)

Section ColumnNames.
Import PyStr DataProcessor.

Lemma name_char_not_space (c : ascii) : is_name_char c = true → is_space c = false.
Proof.
  destruct c as [b0 b1 b2 b3 b4 b5 b6 b7].
  destruct b0, b1, b2, b3, b4, b5, b6, b7; vm_compute; intros H;
    first [discriminate H | reflexivity].
Qed.

(** The substitution writes characters of the class only. *)
Lemma squeeze_name_chars (in_run : bool) (l : list ascii) :
  Forall (fun c => is_name_char c = true) (squeeze in_run l).
Proof.
  revert in_run. induction l as [| c l IH]; intros in_run; cbn [squeeze]; [constructor |].
  destruct (is_name_char c) eqn:E; [constructor; [exact E | apply IH] |].
  destruct in_run; [apply IH |]. constructor; [reflexivity | apply IH].
Qed.

(** It leaves a text made of such characters as it is. *)
Lemma squeeze_fixed (in_run : bool) (l : list ascii) :
  Forall (fun c => is_name_char c = true) l → squeeze in_run l = l.
Proof.
  intros H. revert in_run. induction H as [| c l Hc _ IH]; intros in_run; [reflexivity |].
  cbn [squeeze]. now rewrite Hc, IH.
Qed.

(** So does [strip]. *)
Lemma strip_name_chars (s : string) :
  Forall (fun c => is_name_char c = true) (chars s) → strip s = s.
Proof.
  intros H. apply chars_inj. rewrite chars_strip.
  assert (Hfix : ∀ l, Forall (fun c => is_name_char c = true) l → lstrip_chars l = l).
  { intros l Hl. apply lstrip_fixed. destruct Hl as [| c l Hc _]; [exact I |].
    now apply name_char_not_space. }
  rewrite (Hfix _ H), (Hfix _ (Forall_rev H)). apply rev_involutive.
Qed.

Lemma clean_column_name_chars (name : string) :
  Forall (fun c => is_name_char c = true) (chars (clean_column_name name)).
Proof. unfold clean_column_name. rewrite chars_of_chars. apply squeeze_name_chars. Qed.

Lemma clean_column_name_fixed (name : string) :
  Forall (fun c => is_name_char c = true) (chars name) → clean_column_name name = name.
Proof.
  intros H. unfold clean_column_name. rewrite (strip_name_chars name H).
  rewrite (squeeze_fixed false _ H). apply of_chars_chars.
Qed.

End ColumnNames.

(** X29. The column names [_clean_data] assigns hold letters, digits and
    underscores only; a name made of such characters is kept as it is, so
    cleaning a cleaned name changes nothing; and two different names can
    become the same one, as "Date-Valeur" and " Date  Valeur" do. *)
Theorem clean_column_name_normalises (name : string) :
  Forall (fun c => DataProcessor.is_name_char c = true)
         (PyStr.chars (DataProcessor.clean_column_name name))
  ∧ (Forall (fun c => DataProcessor.is_name_char c = true) (PyStr.chars name) →
     DataProcessor.clean_column_name name = name)
  ∧ DataProcessor.clean_column_name (DataProcessor.clean_column_name name)
    = DataProcessor.clean_column_name name
  ∧ DataProcessor.clean_column_name "Date-Valeur" = "Date_Valeur"
  ∧ DataProcessor.clean_column_name " Date  Valeur" = "Date_Valeur".
Proof.
  split; [apply clean_column_name_chars |].
  split; [apply clean_column_name_fixed |].
  split; [apply clean_column_name_fixed, clean_column_name_chars |].
  split; reflexivity.
Qed.

(** ** The categorisation step of the pipeline (src/data_processor.py) *)

Section CategoriseFacts.
Import PyStr Pandas Categorization DataProcessor.

(** On a row, the call returns a category or raises [AttributeError]. *)
Lemma categorise_row_outcome (r : Row) :
  (∃ cat, categorise_row r = Ok cat) ∨ categorise_row r = Raise AttributeError.
Proof.
  unfold categorise_row, categorise_cells.
  destruct (default (Text "") (fields r !! "Description")) as [f | s | b].
  - destruct (truthy (Float f)); [now right | left; eauto].
  - left. apply categoriser_transaction_total.
  - destruct (truthy (Bool b)); [now right | left; eauto].
Qed.

(** A description that is a string without a backslash gives "autre". *)
Lemma categorise_row_plain (r : Row) (s : string) :
  fields r !! "Description" = Some (Text s) → ¬ In "\"%char (chars s) →
  categorise_row r = Ok "autre".
Proof.
  intros E Hs. unfold categorise_row, categorise_cells. rewrite E.
  cbn [default from_option]. unfold Datatypes.id.
  destruct (String.eqb_spec s "") as [-> | Hne]; [reflexivity |].
  rewrite categoriser_transaction_nonempty by exact Hne.
  rewrite first_category_no_backslash; [reflexivity |].
  intros H. apply Hs. now apply backslash_lower.
Qed.

Lemma apply_rows_plain (rs : list Row) :
  (∀ r, In r rs → ∃ s, fields r !! "Description" = Some (Text s)
                       ∧ ¬ In "\"%char (chars s)) →
  apply_rows categorise_row rs = Ok (replicate (length rs) "autre").
Proof.
  induction rs as [| r rs IH]; intros H; [reflexivity |].
  destruct (H r (or_introl eq_refl)) as (s & E & Hs).
  cbn [apply_rows length replicate]. rewrite (categorise_row_plain r s E Hs), IH; [reflexivity |].
  intros r' Hr'. apply H. now right.
Qed.

(** A description that is neither a string nor false makes the whole
    [apply] raise. *)
Lemma apply_rows_raises (rs : list Row) (r : Row) (c : cell) :
  In r rs → fields r !! "Description" = Some c →
  Validation.is_text c = false → truthy c = true →
  apply_rows categorise_row rs = Raise AttributeError.
Proof.
  intros Hin E Ht Hc. induction rs as [| x rs IH]; [destruct Hin |].
  cbn [apply_rows].
  destruct (categorise_row_outcome x) as [[cat Hx] | Hx]; rewrite Hx; [| reflexivity].
  destruct Hin as [-> | Hin]; [| now rewrite (IH Hin)].
  exfalso. unfold categorise_row, categorise_cells in Hx. rewrite E in Hx.
  cbn [default from_option] in Hx. unfold Datatypes.id in Hx.
  destruct c as [f | s | b]; [| discriminate Ht |]; rewrite Hc in Hx; discriminate Hx.
Qed.

End CategoriseFacts.

(** X30. The categorisation step of [run_pipeline] on a frame of valid
    transactions that is not empty: when the frame has no column
    "Description", or every description is a string without a backslash,
    every row gets the category "autre"; when some description is neither a
    string nor a false value (a missing value, NaN, is the case in point),
    the step raises [AttributeError] and leaves the frame as it was. *)
Theorem categorise_assigns_autre_or_raises
    (w : Pandas.World) (valid_df : Pandas.ref) (d : Pandas.DataFrame) :
  Pandas.heap w !! valid_df = Some d →
  Pandas.is_empty d = false →
  ((Pandas.has_column "Description" d = false
    ∨ ∀ r, In r (Pandas.rows d) →
           ∃ s, Pandas.fields r !! "Description" = Some (Pandas.Text s)
                ∧ ¬ In "\"%char (PyStr.chars s)) →
   ∃ w' d',
     DataProcessor.categorise valid_df w = (Ok tt, w')
     ∧ Pandas.heap w' !! valid_df = Some d'
     ∧ Pandas.column "Catégorie" d'
       = replicate (Pandas.nrows d) (Pandas.Text "autre")
     ∧ Pandas.labels d' = Pandas.labels d)
  ∧ (Pandas.has_column "Description" d = true →
     (∃ r c, In r (Pandas.rows d) ∧ Pandas.fields r !! "Description" = Some c
             ∧ Validation.is_text c = false ∧ DataProcessor.truthy c = true) →
     DataProcessor.categorise valid_df w = (Raise AttributeError, w)).
Proof.
  intros H He. pose proof (lookup_lt_Some _ _ _ H) as Hlt.
  assert (Hset : ∀ vals, length vals = Pandas.nrows d →
            vals = replicate (Pandas.nrows d) (Pandas.Text "autre") →
            ∃ w' d',
              Pandas.setitem valid_df "Catégorie" vals w = (Ok tt, w')
              ∧ Pandas.heap w' !! valid_df = Some d'
              ∧ Pandas.column "Catégorie" d'
                = replicate (Pandas.nrows d) (Pandas.Text "autre")
              ∧ Pandas.labels d' = Pandas.labels d).
  { intros vals Hl Hv. eexists _, _.
    split; [apply (setitem_ok valid_df _ vals d w H Hl) |].
    cbn [Pandas.heap]. split; [now apply list_lookup_insert_eq |].
    split; [| now apply labels_set_column].
    unfold Pandas.column, Pandas.set_column. cbn [Pandas.rows]. subst vals.
    unfold Pandas.nrows. clear. induction (Pandas.rows d) as [| r rs IH]; [reflexivity |].
    cbn [length replicate zip_with map]. rewrite IH. f_equal. apply get_set_cell. }
  unfold DataProcessor.categorise. rewrite bind_run, (read_ok valid_df d w H), He.
  cbn [negb]. split.
  - intros [Hc | Hrows].
    + rewrite Hc. unfold Pandas.setitem_scalar. rewrite bind_run, (read_ok valid_df d w H).
      destruct (Hset (replicate (Pandas.nrows d) (Pandas.Text "autre")))
        as (w' & d' & Hrun & Hrest); [apply length_replicate | reflexivity |].
      exists w', d'. split; [| exact Hrest].
      unfold Pandas.setitem in Hrun. rewrite bind_run, (read_ok valid_df d w H) in Hrun.
      rewrite length_replicate, Nat.eqb_refl in Hrun. exact Hrun.
    + destruct (Pandas.has_column "Description" d).
      * rewrite bind_run. unfold Pandas.lift at 1.
        rewrite (apply_rows_plain _ Hrows).
        apply Hset; fold (Pandas.nrows d).
        -- now rewrite length_map, length_replicate.
        -- clear. induction (Pandas.nrows d) as [| n IH]; [reflexivity |].
           cbn [replicate map]. now rewrite IH.
      * unfold Pandas.setitem_scalar. rewrite bind_run, (read_ok valid_df d w H).
        destruct (Hset (replicate (Pandas.nrows d) (Pandas.Text "autre")))
          as (w' & d' & Hrun & Hrest); [apply length_replicate | reflexivity |].
        exists w', d'. split; [| exact Hrest].
        unfold Pandas.setitem in Hrun. rewrite bind_run, (read_ok valid_df d w H) in Hrun.
        rewrite length_replicate, Nat.eqb_refl in Hrun. exact Hrun.
  - intros Hc (r & c & Hin & E & Ht & Htrue). rewrite Hc, bind_run.
    unfold Pandas.lift at 1. now rewrite (apply_rows_raises _ r c Hin E Ht Htrue).
Qed.

(** A valid transfer whose description is missing: the step raises. *)
Lemma categorise_assigns_autre_or_raises_witness :
  let row := Pandas.mkRow 0 (<["Description" := Pandas.Float Float.NaN]>
                               Validation.valid_transfer) in
  let d := Pandas.mkFrame ["Montant"; "Devise"; "IBAN_Emetteur"; "IBAN_Beneficiaire";
                           "BIC_SWIFT"; "Description"] [row] in
  DataProcessor.categorise 0 (FraudDetection.world_of d)
  = (Raise AttributeError, FraudDetection.world_of d).
Proof.
  intros row d.
  refine (proj2 (categorise_assigns_autre_or_raises (FraudDetection.world_of d) 0%nat d
                   eq_refl eq_refl) eq_refl _).
  exists row, (Pandas.Float Float.NaN).
  split; [now left |]. split; [apply lookup_insert_eq |]. split; reflexivity.
Defined.
